(** * Registro clinico: text normalisation, classification, derived
      fields and quarterly summary of [app.py]

    A shallow embedding of the part of the application that computes:
    [normaliza], [calcular_imc], [clasificar_paciente],
    [obtener_color_categoria], [calcular_trimestre], and the rules of
    [post_edicion], [buscar_en_padron], [obtener_datos_tabla] and
    [mostrar_resumen_trimestral], with the Tk widgets replaced by the
    values they hold; the handlers that change the table ([editar_celda],
    [cargar_padron], [limpiar_tabla]) as steps on the state of the window;
    and what [exportar_excel] and [exportar_pdf] hand to the libraries
    that write the files.

    Python strings are lists of Unicode code points, floats are IEEE 754
    binary64 numbers, and a raised exception is a value of its own.  What
    the program takes from its runtime and this file does not define in
    full ([str.lower], [unicodedata.normalize], [unicodedata.category],
    [datetime.fromisoformat], the text Tk shows for a float) is a field of
    an interface together with the facts relied on, so that a statement
    holds for every runtime that has them; instances built from tables
    give the evaluations on concrete inputs. *)

From Stdlib Require Import ZArith List Bool Lia String Ascii.
From Stdlib Require Import Numbers.DecimalString.
From Stdlib Require Floats.SpecFloat.
Import ListNotations.

Local Open Scope Z_scope.
Local Open Scope list_scope.

(** ** Python strings *)

Module PyStr.

(** A code point; a [str] is a sequence of them. *)
Definition codepoint := Z.
Definition pystr := list codepoint.

Definition of_ascii (a : ascii) : codepoint := Z.of_N (N_of_ascii a).

(** An ASCII literal of the source as a [pystr]. *)
Definition lit (s : string) : pystr := map of_ascii (list_ascii_of_string s).

Definition eqb (a b : pystr) : bool :=
  if list_eq_dec Z.eq_dec a b then true else false.

(** [s.startswith(p)] *)
Fixpoint startswith (s p : pystr) {struct p} : bool :=
  match p, s with
  | [], _ => true
  | _ :: _, [] => false
  | c :: p', d :: s' => Z.eqb c d && startswith s' p'
  end.

(** [needle in hay] on strings: substring search. *)
Fixpoint contiene (needle hay : pystr) : bool :=
  startswith hay needle ||
  match hay with
  | [] => false
  | _ :: t => contiene needle t
  end.

(** [s.endswith(p)] *)
Definition endswith (s p : pystr) : bool := startswith (rev s) (rev p).

(** [s.replace(a, b)] for one-character [a] and [b]. *)
Definition replace1 (a b : codepoint) (s : pystr) : pystr :=
  map (fun c => if Z.eqb c a then b else c) s.

(** [str.isspace] of one character (the characters [str.strip] removes):
    bidirectional type WS, B or S, or category Zs. *)
Definition isspace (c : codepoint) : bool :=
  ((9 <=? c) && (c <=? 13)) || ((28 <=? c) && (c <=? 32)) ||
  (c =? 133) || (c =? 160) || (c =? 5760) ||
  ((8192 <=? c) && (c <=? 8202)) || (c =? 8232) || (c =? 8233) ||
  (c =? 8239) || (c =? 8287) || (c =? 12288).

Fixpoint lstrip (s : pystr) : pystr :=
  match s with
  | [] => []
  | c :: t => if isspace c then lstrip t else s
  end.

Definition rstrip (s : pystr) : pystr := rev (lstrip (rev s)).

(** [s.strip()] *)
Definition strip (s : pystr) : pystr := rstrip (lstrip s).

(** Truth value of a string: non-empty. *)
Definition truthy (s : pystr) : bool :=
  match s with [] => false | _ :: _ => true end.

Definition is_ascii (c : codepoint) : Prop := 0 <= c < 128.
Definition is_latin1 (c : codepoint) : Prop := 0 <= c < 256.

Definition lower_ascii (c : codepoint) : codepoint :=
  if (65 <=? c) && (c <=? 90) then c + 32 else c.

(** Decimal digits of a natural number. *)
Definition digitos (n : Z) : pystr :=
  lit (NilZero.string_of_uint (N.to_uint (Z.to_N n))).

End PyStr.
Import PyStr.

(** ** Python values that reach the functions below

    The text of a cell of the table, and what a cell of a spreadsheet
    read by pandas holds: nothing, a truth value, an integer or text.
    (Floating-point cells are left out.) *)

Inductive pyobj :=
| PyNone
| PyBool (b : bool)
| PyInt (z : Z)
| PyStr (s : pystr).

(** [str(x)] *)
Definition py_str (x : pyobj) : pystr :=
  match x with
  | PyNone => lit "None"
  | PyBool true => lit "True"
  | PyBool false => lit "False"
  | PyInt z => lit (NilZero.string_of_int (Z.to_int z))
  | PyStr s => s
  end.

(** Truth value of an object. *)
Definition py_bool (x : pyobj) : bool :=
  match x with
  | PyNone => false
  | PyBool b => b
  | PyInt z => negb (Z.eqb z 0)
  | PyStr s => truthy s
  end.

(** [x or ""] *)
Definition py_or_vacio (x : pyobj) : pyobj :=
  if py_bool x then x else PyStr [].

(** ** The Unicode character database, as the program uses it

    The tables of [Latin1] describe Basic Latin, Latin-1 Supplement
    (U+0000..U+00FF) and the Combining Diacritical Marks (U+0300..U+036F):
    lowercase mapping, canonical decomposition, canonical combining class.
    Other characters are outside of them. *)

Module Latin1.

(** Simple lowercase mapping on U+0000..U+00FF. *)
Definition lower (c : codepoint) : codepoint :=
  if ((65 <=? c) && (c <=? 90)) ||
     ((192 <=? c) && (c <=? 222) && negb (c =? 215))
  then c + 32 else c.

(** Canonical decompositions of the Latin-1 letters: code point, base
    letter, combining mark. *)
Definition tabla_descomposicion : list (codepoint * (codepoint * codepoint)) :=
  [ (192, (65, 768)); (193, (65, 769)); (194, (65, 770)); (195, (65, 771));
    (196, (65, 776)); (197, (65, 778)); (199, (67, 807)); (200, (69, 768));
    (201, (69, 769)); (202, (69, 770)); (203, (69, 776)); (204, (73, 768));
    (205, (73, 769)); (206, (73, 770)); (207, (73, 776)); (209, (78, 771));
    (210, (79, 768)); (211, (79, 769)); (212, (79, 770)); (213, (79, 771));
    (214, (79, 776)); (217, (85, 768)); (218, (85, 769)); (219, (85, 770));
    (220, (85, 776)); (221, (89, 769)); (224, (97, 768)); (225, (97, 769));
    (226, (97, 770)); (227, (97, 771)); (228, (97, 776)); (229, (97, 778));
    (231, (99, 807)); (232, (101, 768)); (233, (101, 769)); (234, (101, 770));
    (235, (101, 776)); (236, (105, 768)); (237, (105, 769)); (238, (105, 770));
    (239, (105, 776)); (241, (110, 771)); (242, (111, 768)); (243, (111, 769));
    (244, (111, 770)); (245, (111, 771)); (246, (111, 776)); (249, (117, 768));
    (250, (117, 769)); (251, (117, 770)); (252, (117, 776)); (253, (121, 769));
    (255, (121, 776)) ].

Fixpoint busca (c : codepoint) (t : list (codepoint * (codepoint * codepoint)))
  : option (codepoint * codepoint) :=
  match t with
  | [] => None
  | (k, v) :: t' => if Z.eqb k c then Some v else busca c t'
  end.

(** Full canonical decomposition of one character: the Latin-1 letters,
    and the four marks of the Combining Diacritical Marks block that have
    one. *)
Definition descomposicion (c : codepoint) : pystr :=
  match busca c tabla_descomposicion with
  | Some (b, m) => [b; m]
  | None =>
      if c =? 832 then [768]
      else if c =? 833 then [769]
      else if c =? 835 then [787]
      else if c =? 836 then [776; 769]
      else [c]
  end.

(** Canonical combining classes of U+0300..U+036F, by ranges. *)
Definition tabla_ccc : list (codepoint * codepoint * Z) :=
  [ (768, 788, 230); (789, 789, 232); (790, 793, 220); (794, 794, 232);
    (795, 795, 216); (796, 800, 220); (801, 802, 202); (803, 806, 220);
    (807, 808, 202); (809, 819, 220); (820, 824, 1); (825, 828, 220);
    (829, 836, 230); (837, 837, 240); (838, 838, 230); (839, 841, 220);
    (842, 844, 230); (845, 846, 220); (847, 847, 0); (848, 850, 230);
    (851, 854, 220); (855, 855, 230); (856, 856, 232); (857, 858, 220);
    (859, 859, 230); (860, 860, 233); (861, 862, 234); (863, 863, 233);
    (864, 865, 234); (866, 866, 233); (867, 879, 230) ].

Fixpoint busca_ccc (c : codepoint) (t : list (codepoint * codepoint * Z)) : Z :=
  match t with
  | [] => 0
  | (lo, hi, k) :: t' => if (lo <=? c) && (c <=? hi) then k else busca_ccc c t'
  end.

(** Canonical combining class; 0 for a starter. *)
Definition ccc (c : codepoint) : Z := busca_ccc c tabla_ccc.

(** Canonical ordering: a mark moves behind the marks of lower class that
    follow it, up to the next starter. *)
Fixpoint inserta (c : codepoint) (l : pystr) : pystr :=
  match l with
  | [] => [c]
  | d :: l' =>
      if (0 <? ccc d) && (ccc d <? ccc c) then d :: inserta c l' else c :: l
  end.

Definition ordena (s : pystr) : pystr := fold_right inserta [] s.

(** [unicodedata.normalize("NFD", s)] *)
Definition NFD (s : pystr) : pystr := ordena (flat_map descomposicion s).

(** [s.lower()] *)
Definition str_lower (s : pystr) : pystr := map lower s.

(** Category Mn: the Combining Diacritical Marks. *)
Definition es_Mn (c : codepoint) : bool := (768 <=? c) && (c <=? 879).

Definition decimal (c : codepoint) : option Z :=
  if (48 <=? c) && (c <=? 57) then Some (c - 48) else None.

End Latin1.

(** The characters the tables describe: Basic Latin, Latin-1 Supplement
    and the Combining Diacritical Marks. *)
Definition en_tablas (c : codepoint) : Prop := is_latin1 c \/ 768 <= c <= 879.

(** What the program needs from the runtime's Unicode support.  The
    properties are facts of the Unicode standard and of CPython's
    [str.lower]: on text of the characters above lowercasing and canonical
    decomposition are those of the tables; a space ends the context
    [str.lower] looks at, and ASCII text after it is lowercased on its own;
    ASCII characters are starters without decomposition, so text before
    them is decomposed independently; no Latin-1 character is a nonspacing
    mark, and every character of U+0300..U+036F is one. *)
Class Unicodedata := {
  (** [s.lower()] *)
  str_lower : pystr -> pystr;
  (** [unicodedata.normalize("NFD", s)] *)
  normalize_NFD : pystr -> pystr;
  (** [unicodedata.category(c) == "Mn"] *)
  category_Mn : codepoint -> bool;
  (** decimal digit value of a character, if it has one *)
  decimal : codepoint -> option Z;

  lower_tablas : forall s,
    Forall en_tablas s -> str_lower s = Latin1.str_lower s;
  lower_sep : forall s t,
    Forall is_ascii t ->
    str_lower (s ++ 32 :: t) = str_lower s ++ 32 :: map lower_ascii t;
  NFD_tablas : forall s,
    Forall en_tablas s -> normalize_NFD s = Latin1.NFD s;
  NFD_app_ascii : forall s t,
    Forall is_ascii t -> normalize_NFD (s ++ t) = normalize_NFD s ++ t;
  Mn_latin1 : forall c, is_latin1 c -> category_Mn c = false;
  Mn_marcas : forall c, 768 <= c <= 879 -> category_Mn c = true
}.

(** ** UTILIDADES *)

Section Utilidades.
Context {U : Unicodedata}.

(** [normaliza(texto)]: lower case, no accents, no surrounding space. *)
Definition normaliza (texto : pyobj) : pystr :=
  let texto :=
    match texto with
    | PyStr s => s
    | PyNone => []
    | otro => py_str otro
    end in
  let texto := strip (str_lower texto) in
  filter (fun c => negb (category_Mn c)) (normalize_NFD texto).

Definition MEDICAMENTOS_DIABETES : list pystr :=
  [ lit "insulina"; lit "metformina"; lit "dapagliflozina";
    lit "vildagliptina"; lit "sitagliptina" ].

Definition MEDICAMENTOS_HTA : list pystr :=
  [ lit "losartan"; lit "losart" ++ [225] ++ lit "n"; lit "amlodipina";
    lit "carvedilol"; lit "hidroclorotiazida"; lit "bisoprolol";
    lit "enalapril"; lit "telmisartan"; lit "telmisart" ++ [225] ++ lit "n";
    lit "valsartan"; lit "valsart" ++ [225] ++ lit "n" ].

Definition MEDICAMENTOS_HIPOTIROIDISMO : list pystr := [ lit "levotiroxina" ].

(** [any(med in trat_norm for med in lista)] *)
Definition algun_medicamento (lista : list pystr) (trat_norm : pystr) : bool :=
  existsb (fun med => contiene med trat_norm) lista.

Definition es_diabetico (diag_norm trat_norm : pystr) : bool :=
  contiene (lit "diabetes") diag_norm ||
  contiene (lit "dmt2") diag_norm ||
  contiene (lit "dm2") diag_norm ||
  contiene (lit "mellitus tipo 2") diag_norm ||
  algun_medicamento MEDICAMENTOS_DIABETES trat_norm.

Definition es_hipertenso (diag_norm trat_norm : pystr) : bool :=
  contiene (lit "hipertension") diag_norm ||
  contiene (lit "hipertensi" ++ [243] ++ lit "n arterial") diag_norm ||
  contiene (lit "hta") diag_norm ||
  algun_medicamento MEDICAMENTOS_HTA trat_norm.

Definition es_hipotiroideo (diag_norm trat_norm : pystr) : bool :=
  contiene (lit "hipotiroidismo") diag_norm ||
  contiene (lit "hipot") diag_norm ||
  algun_medicamento MEDICAMENTOS_HIPOTIROIDISMO trat_norm.

(** [clasificar_paciente(diagnostico, tratamiento)] *)
Definition clasificar_paciente (diagnostico tratamiento : pyobj) : pystr :=
  let diag_norm := normaliza (py_or_vacio diagnostico) in
  let trat_norm := normaliza (py_or_vacio tratamiento) in
  if es_diabetico diag_norm trat_norm && es_hipertenso diag_norm trat_norm
  then lit "mixto"
  else if es_diabetico diag_norm trat_norm then lit "diabetes"
  else if es_hipertenso diag_norm trat_norm then lit "hta"
  else if es_hipotiroideo diag_norm trat_norm then lit "hipotiroidismo"
  else lit "ninguno".

(** The three detections of [clasificar_paciente], on its arguments. *)
Definition detecta_diabetes (diagnostico tratamiento : pyobj) : bool :=
  es_diabetico (normaliza (py_or_vacio diagnostico))
               (normaliza (py_or_vacio tratamiento)).
Definition detecta_hta (diagnostico tratamiento : pyobj) : bool :=
  es_hipertenso (normaliza (py_or_vacio diagnostico))
                (normaliza (py_or_vacio tratamiento)).
Definition detecta_hipotiroidismo (diagnostico tratamiento : pyobj) : bool :=
  es_hipotiroideo (normaliza (py_or_vacio diagnostico))
                  (normaliza (py_or_vacio tratamiento)).

End Utilidades.

(** ** Floating-point numbers

    Python's [float] is IEEE 754 binary64; the arithmetic is that of the
    standard library's [SpecFloat], rounding to nearest, ties to even. *)

Module Float.
Import SpecFloat.

Definition float := spec_float.
Definition prec : Z := 53.
Definition emax : Z := 1024.

Definition mul : float -> float -> float := SFmul prec emax.
Definition div : float -> float -> float := SFdiv prec emax.
Definition leb : float -> float -> bool := SFleb.
Definition cero : float := S754_zero false.

(** The double nearest to [n / d] (ties to even), with sign [s]. *)
Definition of_ratio (s : bool) (n d : positive) : float :=
  let '(m, e, l) := SFdiv_core_binary prec emax (Zpos n) 0 (Zpos d) 0 in
  binary_round_aux prec emax s m e l.

(** The double nearest to [m * 10^e]: what [strtod] returns. *)
Definition of_decimal (s : bool) (m : Z) (e : Z) : float :=
  match m with
  | Zpos p =>
      if 0 <=? e then of_ratio s (p * Z.to_pos (10 ^ e)) 1
      else of_ratio s p (Z.to_pos (10 ^ (- e)))
  | _ => S754_zero s
  end.

(** [n / d] rounded to an integer, ties to even ([0 <= n], [0 < d]). *)
Definition redondea_par (n d : Z) : Z :=
  let q := n / d in
  let r := n mod d in
  match 2 * r ?= d with
  | Lt => q
  | Gt => q + 1
  | Eq => if Z.even q then q else q + 1
  end.

(** A finite non-zero double as a fraction [n / d]. *)
Definition fraccion (m : positive) (e : Z) : Z * Z :=
  if 0 <=? e then (Zpos m * 2 ^ e, 1) else (Zpos m, 2 ^ (- e)).

(** [round(x, 2)]: the decimal with two places nearest to the exact
    value of [x] (ties to even), converted back to a double. *)
Definition round2 (x : float) : float :=
  match x with
  | S754_finite s m e =>
      let '(n, d) := fraccion m e in
      of_decimal s (redondea_par (n * 100) d) (-2)
  | _ => x
  end.

(** *** Shortest decimal representation, [repr(x)] *)

(** [10^k <= n / d] *)
Definition pot10_leb (k n d : Z) : bool :=
  if 0 <=? k then 10 ^ k * d <=? n else d <=? n * 10 ^ (- k).

Fixpoint sube (fuel : nat) (k n d : Z) : Z :=
  match fuel with
  | O => k
  | S f => if pot10_leb (k + 1) n d then sube f (k + 1) n d else k
  end.

Fixpoint baja (fuel : nat) (k n d : Z) : Z :=
  match fuel with
  | O => k
  | S f => if pot10_leb k n d then k else baja f (k - 1) n d
  end.

(** [floor (log10 (n / d))] *)
Definition exponente10 (n d : Z) : Z :=
  let k0 := (Z.log2 n - Z.log2 d) * 1233 / 4096 in
  sube 4 (baja 4 k0 n d) n d.

(** [n / d * 10^s] rounded to an integer. *)
Definition escala (n d s : Z) : Z :=
  if 0 <=? s then redondea_par (n * 10 ^ s) d
  else redondea_par n (d * 10 ^ (- s)).

(** The first precision, from [p] on, at which the rounded decimal reads
    back as [x]: the digits and the exponent of the last one. *)
Fixpoint mas_corto (fuel : nat) (p : Z) (k n d : Z) (x : float) : Z * Z :=
  let s := p - 1 - k in
  let q := escala n d s in
  match fuel with
  | O => (q, - s)
  | S f =>
      match x, of_decimal false q (- s) with
      | S754_finite _ m e, S754_finite _ m' e' =>
          if Pos.eqb m m' && Z.eqb e e' then (q, - s)
          else mas_corto f (p + 1) k n d x
      | _, _ => mas_corto f (p + 1) k n d x
      end
  end.

Fixpoint quita_ceros (rev_ds : pystr) : pystr :=
  match rev_ds with
  | 48 :: t => quita_ceros t
  | _ => rev_ds
  end.

Definition ceros (n : Z) : pystr := repeat 48 (Z.to_nat n).

Definition dos_cifras (n : Z) : pystr :=
  if n <? 10 then 48 :: digitos n else digitos n.

(** Layout of [repr]: digits [ds], decimal point after [decpt] digits. *)
Definition formato (ds : pystr) (decpt : Z) : pystr :=
  let len := Z.of_nat (List.length ds) in
  if (decpt <=? -4) || (16 <? decpt) then
    firstn 1 ds ++
    (match skipn 1 ds with [] => [] | t => 46 :: t end) ++
    [101] ++ (if decpt - 1 <? 0 then [45] else [43]) ++
    dos_cifras (Z.abs (decpt - 1))
  else if decpt <=? 0 then [48; 46] ++ ceros (- decpt) ++ ds
  else if len <=? decpt then ds ++ ceros (decpt - len) ++ [46; 48]
  else firstn (Z.to_nat decpt) ds ++ [46] ++ skipn (Z.to_nat decpt) ds.

Definition signo (s : bool) : pystr := if s then [45] else [].

(** [repr(x)], also [str(x)] *)
Definition repr (x : float) : pystr :=
  match x with
  | S754_nan => [110; 97; 110]
  | S754_infinity s => signo s ++ [105; 110; 102]
  | S754_zero s => signo s ++ [48; 46; 48]
  | S754_finite s m e =>
      let '(n, d) := fraccion m e in
      let k := exponente10 n d in
      let '(q, e10) := mas_corto 16 1 k n d x in
      let ds0 := digitos q in
      let ds := rev (quita_ceros (rev ds0)) in
      signo s ++ formato ds (Z.of_nat (List.length ds0) + e10)
  end.
End Float.

Import SpecFloat.

(** ** Exceptions *)

Inductive excepcion :=
| ValueError
| ZeroDivisionError
| OverflowError
| TypeError.

(** The outcome of a Python expression: a value, or a raised exception. *)
Inductive resultado (A : Type) :=
| Retorna (a : A)
| Lanza (e : excepcion).
Arguments Retorna {A} a.
Arguments Lanza {A} e.

Definition bind {A B} (m : resultado A) (k : A -> resultado B) : resultado B :=
  match m with
  | Retorna a => k a
  | Lanza e => Lanza e
  end.

Notation "x <- m ;; k" := (bind m (fun x => k))
  (at level 61, m at next level, right associativity).

(** [try: cuerpo  except clases: manejador] *)
Definition try_except {A} (cuerpo : resultado A) (atrapa : excepcion -> bool)
           (manejador : resultado A) : resultado A :=
  match cuerpo with
  | Retorna a => Retorna a
  | Lanza e => if atrapa e then manejador else Lanza e
  end.

(** ** [float(s)] for a string [s] *)

Section FloatDeCadena.
Context {U : Unicodedata}.

Definition es_digito (c : codepoint) : bool := (48 <=? c) && (c <=? 57).

(** In a string that is not all ASCII, spaces become a space and decimal
    digits their ASCII digit; any other character from U+007F on makes the
    string unreadable. *)
Fixpoint transforma (s : pystr) : option pystr :=
  match s with
  | [] => Some []
  | c :: t =>
      if c <? 127 then option_map (cons c) (transforma t)
      else if isspace c then option_map (cons 32) (transforma t)
      else match decimal c with
           | Some d => option_map (cons (48 + d)) (transforma t)
           | None => None
           end
  end.

Definition a_ascii (s : pystr) : option pystr :=
  if forallb (fun c => c <? 128) s then Some s else transforma s.

(** An underscore is allowed only between two digits; they are dropped. *)
Fixpoint quita_guiones (prev : codepoint) (s : pystr) : option pystr :=
  match s with
  | [] => if prev =? 95 then None else Some []
  | c :: t =>
      if c =? 95 then
        if es_digito prev then quita_guiones c t else None
      else if (prev =? 95) && negb (es_digito c) then None
      else option_map (cons c) (quita_guiones c t)
  end.

Definition espacio_ascii (c : codepoint) : bool :=
  ((9 <=? c) && (c <=? 13)) || (c =? 32).

Fixpoint lstrip_ascii (s : pystr) : pystr :=
  match s with
  | [] => []
  | c :: t => if espacio_ascii c then lstrip_ascii t else s
  end.

Definition strip_ascii (s : pystr) : pystr :=
  rev (lstrip_ascii (rev (lstrip_ascii s))).

Fixpoint toma_digitos (s : pystr) : pystr * pystr :=
  match s with
  | [] => ([], [])
  | c :: t =>
      if es_digito c then
        let '(ds, r) := toma_digitos t in (c :: ds, r)
      else ([], s)
  end.

Definition valor_digitos (ds : pystr) : Z :=
  fold_left (fun a c => 10 * a + (c - 48)) ds 0.

Definition toma_signo (s : pystr) : bool * pystr :=
  match s with
  | 45 :: t => (true, t)
  | 43 :: t => (false, t)
  | _ => (false, s)
  end.

(** The exponent part; without digits after [e] nothing is consumed. *)
Definition exponente (s : pystr) : Z * pystr :=
  match s with
  | c :: t =>
      if (c =? 101) || (c =? 69) then
        let '(neg, t1) := toma_signo t in
        let '(ds, t2) := toma_digitos t1 in
        match ds with
        | [] => (0, s)
        | _ => ((if neg then - valor_digitos ds else valor_digitos ds), t2)
        end
      else (0, s)
  | [] => (0, [])
  end.

Definition inf_o_nan (s : pystr) : option Float.float :=
  let '(neg, s1) := toma_signo s in
  let bajo := map lower_ascii s1 in
  if PyStr.eqb bajo (lit "inf") || PyStr.eqb bajo (lit "infinity")
  then Some (S754_infinity neg)
  else if PyStr.eqb bajo (lit "nan") then Some S754_nan
  else None.

(** A decimal numeral, or [inf], [infinity], [nan]; all of [s] is read. *)
Definition numero (s : pystr) : option Float.float :=
  let '(neg, s1) := toma_signo s in
  let '(ent, s2) := toma_digitos s1 in
  let '(frac, s3) := match s2 with
                     | 46 :: t => toma_digitos t
                     | _ => ([], s2)
                     end in
  match ent ++ frac with
  | [] => inf_o_nan s
  | ds =>
      let '(ex, s4) := exponente s3 in
      match s4 with
      | [] => Some (Float.of_decimal neg (valor_digitos ds)
                                     (ex - Z.of_nat (List.length frac)))
      | _ => None
      end
  end.

Definition float_de_cadena (s : pystr) : option Float.float :=
  match a_ascii s with
  | None => None
  | Some a =>
      match quita_guiones 0 a with
      | None => None
      | Some b => numero (strip_ascii b)
      end
  end.

(** [float(s)]: raises [ValueError] when [s] is not a number. *)
Definition py_float (s : pystr) : resultado Float.float :=
  match float_de_cadena s with
  | Some x => Retorna x
  | None => Lanza ValueError
  end.

(** [a / b] on floats: raises [ZeroDivisionError] when [b] is zero. *)
Definition truediv (a b : Float.float) : resultado Float.float :=
  match b with
  | S754_zero _ => Lanza ZeroDivisionError
  | _ => Retorna (Float.div a b)
  end.

(** What [calcular_imc] returns: the empty string or a float. *)
Inductive valor_imc :=
| ImcVacio
| ImcValor (x : Float.float).

(** [calcular_imc(peso, estatura)]: IMC = peso / estatura^2 *)
Definition calcular_imc (peso estatura : pyobj) : resultado valor_imc :=
  try_except
    (p <- py_float (replace1 44 46 (py_str peso)) ;;
     e <- py_float (replace1 44 46 (py_str estatura)) ;;
     if Float.leb e Float.cero then Retorna ImcVacio
     else
       (q <- truediv p (Float.mul e e) ;;
        Retorna (ImcValor (Float.round2 q))))
    (fun ex => match ex with
               | ValueError | ZeroDivisionError => true
               | _ => false
               end)
    (Retorna ImcVacio).

End FloatDeCadena.

(** ** Dates *)

(** The fields of a [datetime] the program reads. *)
Record datetime := { year : Z; month : Z; day : Z }.

Definition es_bisiesto (y : Z) : bool :=
  (y mod 4 =? 0) && (negb (y mod 100 =? 0) || (y mod 400 =? 0)).

Definition dias_del_mes (y m : Z) : Z :=
  if m =? 2 then (if es_bisiesto y then 29 else 28)
  else if (m =? 4) || (m =? 6) || (m =? 9) || (m =? 11) then 30
  else 31.

(** The dates [datetime] can hold: years 1 to 9999. *)
Definition fecha_valida (y m d : Z) : bool :=
  (1 <=? y) && (y <=? 9999) && (1 <=? m) && (m <=? 12) &&
  (1 <=? d) && (d <=? dias_del_mes y m).

(** [datetime(y, m, d)]; [None] stands for the [ValueError]. *)
Definition crea_fecha (y m d : Z) : option datetime :=
  if fecha_valida y m d then Some {| year := y; month := m; day := d |}
  else None.

(** [calcular_trimestre(fecha)]: the quarter (1-4) of a date. *)
Definition calcular_trimestre (fecha : datetime) : Z :=
  (month fecha - 1) / 3 + 1.

(** [v] in decimal, zero-padded to [n] digits. *)
Definition relleno (n : nat) (v : Z) : pystr :=
  let ds := digitos v in
  repeat 48 (n - List.length ds) ++ ds.

(** [date.isoformat()]: YYYY-MM-DD *)
Definition isoformat (y m d : Z) : pystr :=
  relleno 4 y ++ [45] ++ relleno 2 m ++ [45] ++ relleno 2 d.

Definition empieza_con_anio (s : pystr) : bool :=
  match s with
  | a :: b :: c :: d :: _ =>
      es_digito a && es_digito b && es_digito c && es_digito d
  | _ => false
  end.

(** [datetime.fromisoformat]; [None] stands for the [ValueError] it
    raises.  Its results are dates of the calendar, it reads back what
    [isoformat] writes, and whatever it accepts starts with the four
    digits of a year. *)
Class Isoformat := {
  fromisoformat : pystr -> option datetime;
  iso_valida : forall s f,
    fromisoformat s = Some f ->
    fecha_valida (year f) (month f) (day f) = true;
  iso_fecha : forall y m d,
    fecha_valida y m d = true ->
    fromisoformat (isoformat y m d) = Some {| year := y; month := m; day := d |};
  iso_anio : forall s f,
    fromisoformat s = Some f -> empieza_con_anio s = true
}.

(** The calendar-date form [YYYY-MM-DD] of [fromisoformat]. *)
Definition fromisoformat_fecha (s : pystr) : option datetime :=
  match s with
  | [a; b; c; d; g1; e; f; g2; g; h] =>
      if es_digito a && es_digito b && es_digito c && es_digito d &&
         (g1 =? 45) && es_digito e && es_digito f &&
         (g2 =? 45) && es_digito g && es_digito h
      then crea_fecha (valor_digitos [a; b; c; d]) (valor_digitos [e; f])
                      (valor_digitos [g; h])
      else None
  | _ => None
  end.

Section Strptime.
Context {U : Unicodedata}.

(** [\d] of a [str] pattern: any decimal digit, with its value. *)
Definition digito_re (c : codepoint) : option Z :=
  if c <? 128 then (if es_digito c then Some (c - 48) else None)
  else decimal c.

Definition entre (lo hi c : codepoint) : bool := (lo <=? c) && (c <=? hi).

(** [%d]: [3[0-1]|[1-2]\d|0[1-9]|[1-9]| [1-9]], and its [int]. *)
Definition grupo_d (t : pystr) : option Z :=
  match t with
  | [a; b] =>
      if (a =? 51) && entre 48 49 b then Some (30 + (b - 48))
      else if entre 49 50 a then
        option_map (fun v => 10 * (a - 48) + v) (digito_re b)
      else if ((a =? 48) || (a =? 32)) && entre 49 57 b then Some (b - 48)
      else None
  | [a] => if entre 49 57 a then Some (a - 48) else None
  | _ => None
  end.

(** [%m]: [1[0-2]|0[1-9]|[1-9]] *)
Definition grupo_m (t : pystr) : option Z :=
  match t with
  | [a; b] =>
      if (a =? 49) && entre 48 50 b then Some (10 + (b - 48))
      else if (a =? 48) && entre 49 57 b then Some (b - 48)
      else None
  | [a] => if entre 49 57 a then Some (a - 48) else None
  | _ => None
  end.

(** [%Y]: [\d\d\d\d] *)
Definition grupo_Y (t : pystr) : option Z :=
  match t with
  | [a; b; c; d] =>
      match digito_re a, digito_re b, digito_re c, digito_re d with
      | Some va, Some vb, Some vc, Some vd =>
          Some (1000 * va + 100 * vb + 10 * vc + vd)
      | _, _, _, _ => None
      end
  | _ => None
  end.

(** The text before the first [sep] and the text after it. *)
Fixpoint parte (sep : codepoint) (s : pystr) : option (pystr * pystr) :=
  match s with
  | [] => None
  | c :: t =>
      if c =? sep then Some ([], t)
      else match parte sep t with
           | Some (a, b) => Some (c :: a, b)
           | None => None
           end
  end.

(** [datetime.strptime(s, "%d/%m/%Y")]; [None] stands for the
    [ValueError]: no match, unconverted data, or no such day. *)
Definition strptime_dmY (s : pystr) : option datetime :=
  match parte 47 s with
  | Some (d, r) =>
      match parte 47 r with
      | Some (m, y) =>
          match grupo_d d, grupo_m m, grupo_Y y with
          | Some dd, Some mm, Some yy => crea_fecha yy mm dd
          | _, _, _ => None
          end
      | None => None
      end
  | None => None
  end.

Context {I : Isoformat}.

(** The date of a row, as [mostrar_resumen_trimestral] reads it. *)
Definition interpreta_fecha (fecha_str : pystr) : option datetime :=
  if contiene (lit "-") fecha_str then fromisoformat fecha_str
  else strptime_dmY fecha_str.

End Strptime.

(** ** The table and the rules applied after an edit *)

(** The columns of the table, [self.columnas]. *)
Definition col_DNI : pystr := lit "DNI".
Definition col_Nombre : pystr := lit "Nombre".
Definition col_Beneficio : pystr := lit "Beneficio".
Definition col_Presion : pystr := lit "Presi" ++ [243] ++ lit "n Arterial (mmHg)".
Definition col_Peso : pystr := lit "Peso (kg)".
Definition col_Estatura : pystr := lit "Estatura (m)".
Definition col_IMC : pystr := lit "IMC".
Definition col_Diagnostico : pystr := lit "Diagn" ++ [243] ++ lit "stico".
Definition col_Tratamiento : pystr := lit "Tratamiento".
Definition col_Fecha : pystr := lit "Fecha Atenci" ++ [243] ++ lit "n".

Definition columnas : list pystr :=
  [ col_DNI; col_Nombre; col_Beneficio; col_Presion; col_Peso; col_Estatura;
    col_IMC; col_Diagnostico; col_Tratamiento; col_Fecha ].

(** The values of one row, one text cell per column. *)
Record Fila := {
  DNI : pystr;
  Nombre : pystr;
  Beneficio : pystr;
  Presion : pystr;
  Peso : pystr;
  Estatura : pystr;
  IMC : pystr;
  Diagnostico : pystr;
  Tratamiento : pystr;
  Fecha : pystr
}.

(** A row of the [Treeview]: its values and its colour tags. *)
Record Item := { values : Fila; tags : list pystr }.

Definition fila_vacia : Fila :=
  {| DNI := []; Nombre := []; Beneficio := []; Presion := []; Peso := [];
     Estatura := []; IMC := []; Diagnostico := []; Tratamiento := [];
     Fecha := [] |}.

(** A row as [_poblar_filas_vacias] creates it. *)
Definition item_vacio : Item :=
  {| values := fila_vacia; tags := [lit "tag_ninguno"] |}.

(** [fila.get(col, "")] and [tree.set(fila_id, col)] *)
Definition fila_get (f : Fila) (col : pystr) : pystr :=
  if PyStr.eqb col col_DNI then DNI f
  else if PyStr.eqb col col_Nombre then Nombre f
  else if PyStr.eqb col col_Beneficio then Beneficio f
  else if PyStr.eqb col col_Presion then Presion f
  else if PyStr.eqb col col_Peso then Peso f
  else if PyStr.eqb col col_Estatura then Estatura f
  else if PyStr.eqb col col_IMC then IMC f
  else if PyStr.eqb col col_Diagnostico then Diagnostico f
  else if PyStr.eqb col col_Tratamiento then Tratamiento f
  else if PyStr.eqb col col_Fecha then Fecha f
  else [].

Definition fila_set (f : Fila) (col : pystr) (v : pystr) : Fila :=
  {| DNI := if PyStr.eqb col col_DNI then v else DNI f;
     Nombre := if PyStr.eqb col col_Nombre then v else Nombre f;
     Beneficio := if PyStr.eqb col col_Beneficio then v else Beneficio f;
     Presion := if PyStr.eqb col col_Presion then v else Presion f;
     Peso := if PyStr.eqb col col_Peso then v else Peso f;
     Estatura := if PyStr.eqb col col_Estatura then v else Estatura f;
     IMC := if PyStr.eqb col col_IMC then v else IMC f;
     Diagnostico := if PyStr.eqb col col_Diagnostico then v else Diagnostico f;
     Tratamiento := if PyStr.eqb col col_Tratamiento then v else Tratamiento f;
     Fecha := if PyStr.eqb col col_Fecha then v else Fecha f |}.

(** [tree.set(fila_id, col, v)] *)
Definition tree_set (it : Item) (col : pystr) (v : pystr) : Item :=
  {| values := fila_set (values it) col v; tags := tags it |}.

(** [tree.item(fila_id, tags=...)] *)
Definition item_tags (it : Item) (t : list pystr) : Item :=
  {| values := values it; tags := t |}.

(** A record of the roster ([padron_df]): the three columns the program
    reads, with the values a spreadsheet cell can hold. *)
Record RegistroPadron := {
  p_DNI : pyobj;
  p_Nombre : pyobj;
  p_Beneficio : pyobj
}.

(** [buscar_en_padron(dni)]: (Nombre, Beneficio) of the DNI. *)
Definition buscar_en_padron (padron_df : list RegistroPadron) (dni : pystr)
  : pystr * pystr :=
  match padron_df with
  | [] => ([], [])
  | _ =>
      let resultado :=
        filter (fun r => PyStr.eqb (strip (py_str (p_DNI r))) dni) padron_df in
      match resultado with
      | fila :: _ =>
          (py_str (py_or_vacio (p_Nombre fila)),
           py_str (py_or_vacio (p_Beneficio fila)))
      | [] => ([], [])
      end
  end.

(** How Tk shows a floating-point value put in a cell. *)
Class Tk := { texto_de_double : Float.float -> pystr }.

Section Edicion.
Context {U : Unicodedata} {T : Tk}.

(** [actualizar_color_fila(fila_id)] *)
Definition actualizar_color_fila (it : Item) : Item :=
  let fila := values it in
  let diagnostico := fila_get fila col_Diagnostico in
  let tratamiento := fila_get fila col_Tratamiento in
  let categoria := clasificar_paciente (PyStr diagnostico) (PyStr tratamiento) in
  item_tags it [lit "tag_" ++ categoria].

(** The text of the IMC cell. *)
Definition texto_imc (imc : valor_imc) : pystr :=
  match imc with
  | ImcVacio => []
  | ImcValor x => texto_de_double x
  end.

(** [post_edicion(fila_id, columna)]: the rules applied to the row after
    the cell of [columna] was edited.  (The message of the status bar is
    left out.) *)
Definition post_edicion (padron_df : list RegistroPadron) (it : Item)
           (columna : pystr) : resultado Item :=
  let fila := values it in
  (* 1. Nombre and Beneficio from the DNI *)
  let it :=
    if PyStr.eqb columna col_DNI then
      let dni := strip (fila_get fila col_DNI) in
      if truthy dni then
        let '(nombre, beneficio) := buscar_en_padron padron_df dni in
        tree_set (tree_set it col_Nombre nombre) col_Beneficio beneficio
      else it
    else it in
  (* 2. the unit of the blood pressure *)
  let it :=
    if PyStr.eqb columna col_Presion then
      let pa := strip (fila_get fila col_Presion) in
      if truthy pa && negb (contiene (lit "mmhg") (normaliza (PyStr pa)))
      then tree_set it col_Presion (pa ++ lit " mmHg")
      else it
    else it in
  (* 3. the IMC *)
  it <- (if PyStr.eqb columna col_Peso || PyStr.eqb columna col_Estatura then
           let peso := fila_get (values it) col_Peso in
           let estatura := fila_get (values it) col_Estatura in
           imc <- calcular_imc (PyStr peso) (PyStr estatura) ;;
           Retorna (tree_set it col_IMC (texto_imc imc))
         else Retorna it) ;;
  (* 4. the colour *)
  Retorna (if PyStr.eqb columna col_Diagnostico ||
              PyStr.eqb columna col_Tratamiento
           then actualizar_color_fila it else it).

End Edicion.

(** The tags of the row an edit leaves; none if it raised. *)
Definition tags_de (r : resultado Item) : list pystr :=
  match r with
  | Retorna it => tags it
  | Lanza _ => []
  end.

(** [obtener_datos_tabla()]: the rows that have a DNI, every cell trimmed. *)
Definition fila_recortada (f : Fila) : Fila :=
  {| DNI := strip (DNI f); Nombre := strip (Nombre f);
     Beneficio := strip (Beneficio f); Presion := strip (Presion f);
     Peso := strip (Peso f); Estatura := strip (Estatura f);
     IMC := strip (IMC f); Diagnostico := strip (Diagnostico f);
     Tratamiento := strip (Tratamiento f); Fecha := strip (Fecha f) |}.

Definition obtener_datos_tabla (tree : list Item) : list Fila :=
  filter (fun fila => truthy (fila_get fila col_DNI))
         (map (fun it => fila_recortada (values it)) tree).

(** ** RESUMEN TRIMESTRAL *)

(** An entry of [datos_resumen]: DNI, year, quarter. *)
Record registro := { r_DNI : pystr; r_Anio : Z; r_Trimestre : Z }.

(** Order of strings: code point by code point. *)
Fixpoint compara_str (a b : pystr) : comparison :=
  match a, b with
  | [], [] => Eq
  | [], _ :: _ => Lt
  | _ :: _, [] => Gt
  | x :: a', y :: b' =>
      match x ?= y with
      | Eq => compara_str a' b'
      | c => c
      end
  end.

Definition compara_registro (a b : registro) : comparison :=
  match compara_str (r_DNI a) (r_DNI b) with
  | Eq =>
      match r_Anio a ?= r_Anio b with
      | Eq => r_Trimestre a ?= r_Trimestre b
      | c => c
      end
  | c => c
  end.

(** One more occurrence of the key [k] in the groups, kept in key order. *)
Fixpoint cuenta (k : registro) (grupos : list (registro * Z))
  : list (registro * Z) :=
  match grupos with
  | [] => [(k, 1)]
  | (k', n) :: t =>
      match compara_registro k k' with
      | Eq => (k', n + 1) :: t
      | Lt => (k, 1) :: grupos
      | Gt => (k', n) :: cuenta k t
      end
  end.

(** [df.groupby(["DNI", "Año", "Trimestre"]).size().reset_index(...)]:
    one row per key, keys ascending, with the number of entries. *)
Definition groupby_size (datos : list registro) : list (registro * Z) :=
  fold_left (fun grupos k => cuenta k grupos) datos [].

(** What [mostrar_resumen_trimestral] shows: one of two notices, or the
    window with the rows of the summary. *)
Inductive salida_resumen :=
| SinDatos
| SinFechasValidas
| VentanaResumen (resumen : list (registro * Z)).

Section Resumen.
Context {U : Unicodedata} {I : Isoformat}.

(** The entry of one row; nothing for a row that is skipped. *)
Definition dato_resumen (fila : Fila) : list registro :=
  let dni := fila_get fila col_DNI in
  let fecha_str := fila_get fila col_Fecha in
  if negb (truthy dni) || negb (truthy fecha_str) then []
  else
    match interpreta_fecha fecha_str with
    | Some fecha =>
        [ {| r_DNI := dni; r_Anio := year fecha;
             r_Trimestre := calcular_trimestre fecha |} ]
    | None => []
    end.

Definition datos_resumen (filas : list Fila) : list registro :=
  flat_map dato_resumen filas.

(** [mostrar_resumen_trimestral()], from the rows [filas] on. *)
Definition resumen_de_filas (filas : list Fila) : salida_resumen :=
  match filas with
  | [] => SinDatos
  | _ :: _ =>
      match datos_resumen filas with
      | [] => SinFechasValidas
      | datos => VentanaResumen (groupby_size datos)
      end
  end.

(** [mostrar_resumen_trimestral()] *)
Definition mostrar_resumen_trimestral (tree : list Item) : salida_resumen :=
  let filas := obtener_datos_tabla tree in
  resumen_de_filas filas.

End Resumen.

(** ** The colours of the categories *)

Definition COLOR_VIOLETA : pystr := lit "#9370DB".
Definition COLOR_CELESTE : pystr := lit "#87CEEB".
Definition COLOR_VERDE : pystr := lit "#90EE90".
Definition COLOR_ROJO : pystr := lit "#FF6B6B".
Definition COLOR_BLANCO : pystr := lit "#FFFFFF".

(** [d.get(clave, defecto)], the dict [d] given by its items. *)
Fixpoint dict_get {V : Type} (d : list (pystr * V)) (clave : pystr)
         (defecto : V) : V :=
  match d with
  | [] => defecto
  | (k, v) :: d' =>
      if PyStr.eqb k clave then v else dict_get d' clave defecto
  end.

(** [obtener_color_categoria(categoria)]: the hex colour of a category. *)
Definition obtener_color_categoria (categoria : pystr) : pystr :=
  let colores :=
    [ (lit "diabetes", COLOR_VIOLETA);
      (lit "hta", COLOR_CELESTE);
      (lit "hipotiroidismo", COLOR_VERDE);
      (lit "mixto", COLOR_ROJO);
      (lit "ninguno", COLOR_BLANCO) ] in
  dict_get colores categoria COLOR_BLANCO.

(** The options [tag_configure] gives to a tag of the table. *)
Record opciones_tag := { background : pystr; foreground : pystr }.

(** [_configurar_tags_color()]: the tags configured, with their options. *)
Definition _configurar_tags_color : list (pystr * opciones_tag) :=
  [ (lit "tag_diabetes",
     {| background := COLOR_VIOLETA; foreground := lit "#FFFFFF" |});
    (lit "tag_hta",
     {| background := COLOR_CELESTE; foreground := lit "#000000" |});
    (lit "tag_hipotiroidismo",
     {| background := COLOR_VERDE; foreground := lit "#000000" |});
    (lit "tag_mixto",
     {| background := COLOR_ROJO; foreground := lit "#FFFFFF" |});
    (lit "tag_ninguno",
     {| background := COLOR_BLANCO; foreground := lit "#000000" |}) ].

(** The options of the tag [tag], if it was configured. *)
Definition opciones_de_tag (tag : pystr) : option opciones_tag :=
  dict_get (map (fun p => (fst p, Some (snd p))) _configurar_tags_color)
           tag None.

(** The background the table shows for a row: that of its tag. *)
Definition fondo_en_pantalla (it : Item) : option pystr :=
  match tags it with
  | [tag] => option_map background (opciones_de_tag tag)
  | _ => None
  end.
(** ** The window: its state and the events that change it

    The state the handlers read and write is the roster and the rows of
    the table.  An event is a button or a double click together with what
    the dialogs and the editor give back. *)

Module App.

Record estado := {
  padron_df : list RegistroPadron;
  tree : list Item
}.

(** [_poblar_filas_vacias(n)]: [n] empty rows at the end of the table. *)
Definition _poblar_filas_vacias (n : nat) (tree : list Item) : list Item :=
  tree ++ repeat item_vacio n.

(** [__init__()]: an empty roster and 30 empty rows. *)
Definition __init__ : estado :=
  {| padron_df := []; tree := _poblar_filas_vacias 30 [] |}.

(** [cargar_padron()]: [ruta] is the path the file dialog returns (empty
    when it is cancelled) and [leido] what [cargar_padron_desde_archivo]
    returns for it. *)
Definition cargar_padron (ruta : pystr) (leido : list RegistroPadron)
           (self : estado) : estado :=
  if negb (truthy ruta) then self
  else {| padron_df := leido; tree := tree self |}.

(** [limpiar_tabla()]: [confirma] is the answer to the question. *)
Definition limpiar_tabla (confirma : bool) (self : estado) : estado :=
  if negb confirma then self
  else {| padron_df := padron_df self;
          tree := _poblar_filas_vacias 30 [] |}.

(** The row [i] of the table replaced by [it]. *)
Fixpoint pon (i : nat) (it : Item) (tree : list Item) : list Item :=
  match tree, i with
  | [], _ => []
  | _ :: t, O => it :: t
  | x :: t, S j => x :: pon j it t
  end.

(** How the editor of a cell is closed: with Return or by losing the
    focus, its text being [texto], or with Escape. *)
Inductive cierre :=
| Confirma (texto : pystr)
| Cancela.

Section Eventos.
Context {U : Unicodedata} {T : Tk}.

(** [finalizar_edicion()] of [editar_celda], on the row edited. *)
Definition finalizar_edicion (padron_df : list RegistroPadron) (it : Item)
           (col_nombre texto : pystr) : resultado Item :=
  let nuevo_valor := strip texto in
  post_edicion padron_df (tree_set it col_nombre nuevo_valor) col_nombre.

(** [editar_celda(event)]: a double click on the row [fila_id] and the
    column number [col_index + 1]; nothing happens outside of the cells. *)
Definition editar_celda (fila_id col_index : nat) (c : cierre)
           (self : estado) : resultado estado :=
  match nth_error (tree self) fila_id, nth_error columnas col_index with
  | Some it, Some col_nombre =>
      match c with
      | Confirma texto =>
          it' <- finalizar_edicion (padron_df self) it col_nombre texto ;;
          Retorna {| padron_df := padron_df self;
                     tree := pon fila_id it' (tree self) |}
      | Cancela => Retorna self
      end
  | _, _ => Retorna self
  end.

Inductive evento :=
| CargarPadron (ruta : pystr) (leido : list RegistroPadron)
| EditarCelda (fila_id col_index : nat) (c : cierre)
| LimpiarTabla (confirma : bool).

Definition paso (self : estado) (e : evento) : resultado estado :=
  match e with
  | CargarPadron ruta leido => Retorna (cargar_padron ruta leido self)
  | EditarCelda fila_id col_index c => editar_celda fila_id col_index c self
  | LimpiarTabla confirma => Retorna (limpiar_tabla confirma self)
  end.

(** The state after the events, from the first on. *)
Fixpoint ejecuta (eventos : list evento) (self : estado) : resultado estado :=
  match eventos with
  | [] => Retorna self
  | e :: resto => s <- paso self e ;; ejecuta resto s
  end.

End Eventos.

End App.
(** ** EXPORTAR EXCEL, EXPORTAR PDF *)

(** [enumerate(l, start)] *)
Fixpoint enumerate {A : Type} (start : Z) (l : list A) : list (Z * A) :=
  match l with
  | [] => []
  | x :: t => (start, x) :: enumerate (start + 1) t
  end.

(** A cell format of the workbook. *)
Record Formato := { bg_color : pystr; font_color : option pystr }.

Definition fmt_diabetes : Formato :=
  {| bg_color := COLOR_VIOLETA; font_color := Some (lit "#FFFFFF") |}.
Definition fmt_hta : Formato :=
  {| bg_color := COLOR_CELESTE; font_color := None |}.
Definition fmt_hipot : Formato :=
  {| bg_color := COLOR_VERDE; font_color := None |}.
Definition fmt_mixto : Formato :=
  {| bg_color := COLOR_ROJO; font_color := Some (lit "#FFFFFF") |}.

(** The format chosen for a category; none for any other. *)
Definition formato_de_categoria (categoria : pystr) : option Formato :=
  if PyStr.eqb categoria (lit "diabetes") then Some fmt_diabetes
  else if PyStr.eqb categoria (lit "hta") then Some fmt_hta
  else if PyStr.eqb categoria (lit "hipotiroidismo") then Some fmt_hipot
  else if PyStr.eqb categoria (lit "mixto") then Some fmt_mixto
  else None.

(** What [exportar_excel] does: one of two ways out without a file, or
    the rows given to the sheet (under a header row) and the calls
    [worksheet.set_row(i, None, formato)]. *)
Inductive salida_excel :=
| ExcelSinDatos
| ExcelCancelado
| ExcelLibro (filas : list Fila) (set_row : list (Z * Formato)).

(** A command of the table style of the PDF. *)
Inductive valor_estilo :=
| ColorNombre (nombre : pystr)
| HexColor (hex : pystr)
| Cadena (s : pystr)
| Entero (n : Z)
| Flotante (x : Float.float).

Record comando_estilo := {
  comando : pystr;
  desde : Z * Z;
  hasta : Z * Z;
  argumentos : list valor_estilo
}.

(** What [exportar_pdf] does: one of three ways out without a file, or
    the rows of the table of the document and its style. *)
Inductive salida_pdf :=
| PdfSinReportlab
| PdfSinDatos
| PdfCancelado
| PdfDocumento (datos : list (list pystr)) (estilo_tabla : list comando_estilo).

Section Exportar.
Context {U : Unicodedata}.

(** The category of a row of [obtener_datos_tabla]. *)
Definition categoria_de_fila (fila : Fila) : pystr :=
  clasificar_paciente (PyStr (fila_get fila col_Diagnostico))
                      (PyStr (fila_get fila col_Tratamiento)).

(** [exportar_excel()]: [ruta] is the path the file dialog returns. *)
Definition exportar_excel (ruta : pystr) (tree : list Item) : salida_excel :=
  let filas := obtener_datos_tabla tree in
  match filas with
  | [] => ExcelSinDatos
  | _ :: _ =>
      if negb (truthy ruta) then ExcelCancelado
      else
        ExcelLibro filas
          (flat_map
             (fun p : Z * Fila =>
                let '(i, fila) := p in
                let categoria := categoria_de_fila fila in
                match formato_de_categoria categoria with
                | Some formato => [(i, formato)]
                | None => []
                end)
             (enumerate 1 filas))
  end.

(** [exportar_pdf()]: [ruta] is the path the file dialog returns. *)
Definition exportar_pdf (REPORTLAB_DISPONIBLE : bool) (ruta : pystr)
           (tree : list Item) : salida_pdf :=
  if negb REPORTLAB_DISPONIBLE then PdfSinReportlab
  else
    let filas := obtener_datos_tabla tree in
    match filas with
    | [] => PdfSinDatos
    | _ :: _ =>
        if negb (truthy ruta) then PdfCancelado
        else
          let headers := columnas in
          let datos :=
            [headers] ++
            map (fun fila => map (fun col => fila_get fila col) headers) filas in
          let estilo_tabla :=
            [ {| comando := lit "BACKGROUND"; desde := (0, 0); hasta := (-1, 0);
                 argumentos := [ColorNombre (lit "grey")] |};
              {| comando := lit "TEXTCOLOR"; desde := (0, 0); hasta := (-1, 0);
                 argumentos := [ColorNombre (lit "whitesmoke")] |};
              {| comando := lit "ALIGN"; desde := (0, 0); hasta := (-1, -1);
                 argumentos := [Cadena (lit "CENTER")] |};
              {| comando := lit "FONTNAME"; desde := (0, 0); hasta := (-1, 0);
                 argumentos := [Cadena (lit "Helvetica-Bold")] |};
              {| comando := lit "FONTSIZE"; desde := (0, 0); hasta := (-1, -1);
                 argumentos := [Entero 7] |};
              {| comando := lit "BOTTOMPADDING"; desde := (0, 0);
                 hasta := (-1, 0); argumentos := [Entero 12] |};
              {| comando := lit "GRID"; desde := (0, 0); hasta := (-1, -1);
                 argumentos := [Flotante (Float.of_decimal false 5 (-1));
                                ColorNombre (lit "grey")] |} ] ++
            map (fun p : Z * Fila =>
                   let '(i, fila) := p in
                   let categoria := categoria_de_fila fila in
                   let color := obtener_color_categoria categoria in
                   {| comando := lit "BACKGROUND"; desde := (0, i);
                      hasta := (-1, i); argumentos := [HexColor color] |})
                (enumerate 1 filas) in
          PdfDocumento datos estilo_tabla
    end.

End Exportar.
(** ** The rows of the window of the summary *)

(** The values of a row of the window: DNI, year, quarter, attentions. *)
Record fila_resumen := {
  v_DNI : pystr;
  v_Anio : Z;
  v_Trimestre : pystr;
  v_Atenciones : Z
}.

(** The rows inserted in the table of the window, with the quarter
    written [f"Q{row['Trimestre']}"]. *)
Definition valores_ventana (resumen : list (registro * Z)) : list fila_resumen :=
  map (fun row : registro * Z =>
         {| v_DNI := r_DNI (fst row);
            v_Anio := r_Anio (fst row);
            v_Trimestre := lit "Q" ++ py_str (PyInt (r_Trimestre (fst row)));
            v_Atenciones := snd row |})
      resumen.
(** * Properties *)

(** ** Strings *)

Lemma eqb_eq a b : PyStr.eqb a b = true <-> a = b.
Proof.
  unfold PyStr.eqb; destruct (list_eq_dec Z.eq_dec a b); split; congruence.
Qed.

Lemma eqb_refl a : PyStr.eqb a a = true.
Proof. now apply eqb_eq. Qed.

Lemma eqb_neq a b : PyStr.eqb a b = false <-> a <> b.
Proof.
  unfold PyStr.eqb; destruct (list_eq_dec Z.eq_dec a b); split; congruence.
Qed.

Lemma startswith_app p s : startswith (p ++ s) p = true.
Proof.
  induction p as [|c p IH]; simpl; [reflexivity|].
  now rewrite Z.eqb_refl, IH.
Qed.

Lemma contiene_eq n h :
  contiene n h =
  startswith h n || match h with [] => false | _ :: t => contiene n t end.
Proof. destruct h; reflexivity. Qed.

Lemma contiene_app n a b : contiene n (a ++ n ++ b) = true.
Proof.
  induction a as [|c a IH]; simpl.
  - now rewrite contiene_eq, startswith_app.
  - rewrite IH. apply orb_true_r.
Qed.

Lemma contiene_final n a : contiene n (a ++ n) = true.
Proof.
  rewrite <- (app_nil_r n) at 2. apply contiene_app.
Qed.

Lemma truthy_true s : truthy s = true <-> s <> [].
Proof. destruct s; simpl; split; congruence. Qed.

Lemma truthy_false s : truthy s = false <-> s = [].
Proof. destruct s; simpl; split; congruence. Qed.

(** *** [strip] *)

Lemma lstrip_length s : (List.length (lstrip s) <= List.length s)%nat.
Proof.
  induction s as [|c s IH]; simpl; [lia|].
  destruct (isspace c); simpl; lia.
Qed.

Lemma lstrip_noesp c s : isspace c = false -> lstrip (c :: s) = c :: s.
Proof. intros H; simpl; now rewrite H. Qed.

Lemma lstrip_cabeza s :
  lstrip s = [] \/ exists c t, lstrip s = c :: t /\ isspace c = false.
Proof.
  induction s as [|c s IH]; simpl; [now left|].
  destruct (isspace c) eqn:E; [exact IH|].
  right; now exists c, s.
Qed.

Lemma lstrip_idem s : lstrip (lstrip s) = lstrip s.
Proof.
  destruct (lstrip_cabeza s) as [H | (c & t & H & Hc)]; rewrite H.
  - reflexivity.
  - now apply lstrip_noesp.
Qed.

Lemma lstrip_fijo_cabeza c t : lstrip (c :: t) = c :: t -> isspace c = false.
Proof.
  simpl. destruct (isspace c); [|reflexivity].
  intros H. pose proof (lstrip_length t) as L.
  rewrite H in L. simpl in L. lia.
Qed.

(** Text that starts with a non-space character stays after the spaces
    stripped on its left. *)
Lemma lstrip_app w c u :
  isspace c = false -> lstrip (w ++ c :: u) = lstrip w ++ c :: u.
Proof.
  intros Hc. induction w as [|d w IH]; simpl.
  - now rewrite Hc.
  - destruct (isspace d); [exact IH | reflexivity].
Qed.

Lemma rstrip_app w c u :
  isspace c = false -> rstrip (u ++ c :: w) = u ++ c :: rstrip w.
Proof.
  intros Hc. unfold rstrip.
  rewrite rev_app_distr. simpl. rewrite <- app_assoc. simpl.
  rewrite lstrip_app by exact Hc.
  rewrite rev_app_distr. simpl. rewrite rev_involutive.
  now rewrite <- app_assoc.
Qed.

Lemma rstrip_cons c w : isspace c = false -> rstrip (c :: w) = c :: rstrip w.
Proof. intros Hc. exact (rstrip_app w c [] Hc). Qed.

Lemma rstrip_final u c : isspace c = false -> rstrip (u ++ [c]) = u ++ [c].
Proof. intros Hc. now rewrite rstrip_app. Qed.

(** A trimmed string: nothing to strip on either side. *)
Definition recortada (s : pystr) : Prop := lstrip s = s /\ rstrip s = s.

Lemma recortada_strip_fijo s : recortada s -> strip s = s.
Proof. intros [L R]. unfold strip. now rewrite L. Qed.

Lemma strip_recortada s : recortada (strip s).
Proof.
  unfold strip, recortada.
  destruct (lstrip_cabeza s) as [H | (c & t & H & Hc)]; rewrite H.
  - now split.
  - rewrite rstrip_cons by exact Hc. split.
    + now apply lstrip_noesp.
    + rewrite rstrip_cons by exact Hc. f_equal.
      unfold rstrip. rewrite rev_involutive. now rewrite lstrip_idem.
Qed.

Lemma strip_idem s : strip (strip s) = strip s.
Proof. apply recortada_strip_fijo, strip_recortada. Qed.

Lemma recortada_cabeza c t : recortada (c :: t) -> isspace c = false.
Proof. intros [L _]. now apply lstrip_fijo_cabeza in L. Qed.

(** A trimmed, non-empty string followed by text that ends in a non-space
    character is trimmed. *)
Lemma strip_sufijo s u c :
  recortada s -> s <> [] -> isspace c = false ->
  strip (s ++ u ++ [c]) = s ++ u ++ [c].
Proof.
  intros Hs Hne Hc. destruct s as [|d s]; [congruence|].
  pose proof (recortada_cabeza _ _ Hs) as Hd.
  unfold strip. rewrite <- app_comm_cons, lstrip_noesp by exact Hd.
  rewrite app_comm_cons, app_assoc. now apply rstrip_final.
Qed.

Lemma Forall_lstrip (P : codepoint -> Prop) s : Forall P s -> Forall P (lstrip s).
Proof.
  induction 1 as [|c s Hc Hs IH]; simpl; [constructor|].
  destruct (isspace c); [exact IH | now constructor].
Qed.

Lemma Forall_strip (P : codepoint -> Prop) s : Forall P s -> Forall P (strip s).
Proof.
  intros H. unfold strip, rstrip.
  apply Forall_rev, Forall_lstrip, Forall_rev, Forall_lstrip, H.
Qed.

(** [strip] commutes with a character map that keeps spaces spaces and
    the rest not. *)
Lemma lstrip_map (f : codepoint -> codepoint) (P : codepoint -> Prop) s :
  (forall c, P c -> isspace (f c) = isspace c) ->
  Forall P s -> lstrip (map f s) = map f (lstrip s).
Proof.
  intros Hf. induction 1 as [|c s Hc Hs IH]; simpl; [reflexivity|].
  rewrite (Hf c Hc). destruct (isspace c); [exact IH | reflexivity].
Qed.

Lemma strip_map (f : codepoint -> codepoint) (P : codepoint -> Prop) s :
  (forall c, P c -> isspace (f c) = isspace c) ->
  Forall P s -> strip (map f s) = map f (strip s).
Proof.
  intros Hf Hs. unfold strip, rstrip.
  rewrite (lstrip_map f P) by assumption.
  rewrite <- map_rev, (lstrip_map f P), map_rev; auto.
  apply Forall_rev, Forall_lstrip, Hs.
Qed.

(** ASCII literals are Latin-1 text. *)
Lemma of_ascii_rango a : 0 <= of_ascii a < 256.
Proof.
  unfold of_ascii. pose proof (N_ascii_bounded a). lia.
Qed.

Lemma lit_latin1 s : Forall is_latin1 (lit s).
Proof.
  unfold lit. apply Forall_forall. intros c Hc.
  apply in_map_iff in Hc as (a & <- & _). apply of_ascii_rango.
Qed.

(** Latin-1 text, decided by computation. *)
Lemma latin1_por_calculo s :
  forallb (fun c => (0 <=? c) && (c <? 256)) s = true -> Forall is_latin1 s.
Proof.
  intros H. apply Forall_forall. intros c Hc.
  rewrite forallb_forall in H. specialize (H c Hc).
  unfold is_latin1. lia.
Qed.

Lemma latin1_ascii_calculo s :
  forallb (fun c => (0 <=? c) && (c <? 128)) s = true -> Forall is_ascii s.
Proof.
  intros H. apply Forall_forall. intros c Hc.
  rewrite forallb_forall in H. specialize (H c Hc).
  unfold is_ascii. lia.
Qed.

(** ** The tables satisfy the interface *)

(** Checking a property of every Latin-1 character by running through
    the 256 of them. *)
Definition todos_latin1 : list codepoint := map Z.of_nat (seq 0 256).

Lemma en_todos_latin1 c : is_latin1 c -> In c todos_latin1.
Proof.
  intros H. unfold todos_latin1. apply in_map_iff.
  exists (Z.to_nat c). split; [apply Z2Nat.id; apply H|].
  apply in_seq. unfold is_latin1 in H. lia.
Qed.

Lemma por_tabla (p : codepoint -> bool) :
  forallb p todos_latin1 = true -> forall c, is_latin1 c -> p c = true.
Proof.
  intros H c Hc. rewrite forallb_forall in H. apply H, en_todos_latin1, Hc.
Qed.

Lemma ascii_latin1 c : is_ascii c -> is_latin1 c.
Proof. unfold is_ascii, is_latin1. lia. Qed.

Lemma Forall_ascii_latin1 s : Forall is_ascii s -> Forall is_latin1 s.
Proof. apply Forall_impl, ascii_latin1. Qed.

Lemma lower_rango c : is_latin1 c -> is_latin1 (Latin1.lower c).
Proof.
  intros H.
  assert (E : ((0 <=? Latin1.lower c) && (Latin1.lower c <? 256)) = true)
    by (revert c H; apply por_tabla; vm_compute; reflexivity).
  unfold is_latin1. lia.
Qed.

Lemma lower_ascii_latin1 c : is_ascii c -> Latin1.lower c = lower_ascii c.
Proof.
  unfold is_ascii, Latin1.lower, lower_ascii. intros H.
  replace ((192 <=? c) && (c <=? 222) && negb (c =? 215)) with false
    by (symmetry; apply andb_false_iff; left; apply andb_false_iff; left; lia).
  now rewrite orb_false_r.
Qed.

Lemma ccc_latin1 c : is_latin1 c -> Latin1.ccc c = 0.
Proof.
  intros H.
  assert (E : (Latin1.ccc c =? 0) = true)
    by (revert c H; apply por_tabla; vm_compute; reflexivity).
  lia.
Qed.

(** *** Canonical ordering leaves starters where they are *)

Definition empieza_starter (l : pystr) : Prop :=
  match l with
  | [] => True
  | d :: _ => Latin1.ccc d = 0
  end.

Lemma inserta_antes_starter c l :
  empieza_starter l -> Latin1.inserta c l = c :: l.
Proof.
  destruct l as [|d l]; simpl; [reflexivity|].
  intros ->. reflexivity.
Qed.

Lemma inserta_starter c l : Latin1.ccc c = 0 -> Latin1.inserta c l = c :: l.
Proof.
  intros H. destruct l as [|d l]; simpl; [reflexivity|]. rewrite H.
  destruct (0 <? Latin1.ccc d) eqn:E; simpl; [|reflexivity].
  apply Z.ltb_lt in E.
  replace (Latin1.ccc d <? 0) with false by (symmetry; apply Z.ltb_ge; lia).
  reflexivity.
Qed.

Lemma inserta_app c l t :
  empieza_starter t -> Latin1.inserta c (l ++ t) = Latin1.inserta c l ++ t.
Proof.
  intros Ht. induction l as [|d l IH]; simpl.
  - now apply inserta_antes_starter.
  - destruct ((0 <? Latin1.ccc d) && (Latin1.ccc d <? Latin1.ccc c));
      [now rewrite IH | reflexivity].
Qed.

Lemma ordena_starters t :
  Forall (fun c => Latin1.ccc c = 0) t -> Latin1.ordena t = t.
Proof.
  induction 1 as [|c t Hc Ht IH]; [reflexivity|].
  unfold Latin1.ordena in *. simpl. rewrite IH.
  destruct t as [|d t]; [reflexivity|]. simpl.
  inversion Ht as [|? ? Hd _]; subst. now rewrite Hd.
Qed.

Lemma ordena_app a t :
  Forall (fun c => Latin1.ccc c = 0) t ->
  Latin1.ordena (a ++ t) = Latin1.ordena a ++ t.
Proof.
  intros Ht. induction a as [|c a IH].
  - simpl. now apply ordena_starters.
  - unfold Latin1.ordena in *. simpl. rewrite IH. apply inserta_app.
    destruct Ht; simpl; auto.
Qed.


(** *** Decomposition of Latin-1 text *)

Definition forma_descomposicion (c : codepoint) : bool :=
  match Latin1.descomposicion c with
  | [d] => d =? c
  | [b; m] => (0 <=? b) && (b <? 128) && (768 <=? m) && (m <=? 879) &&
              (0 <? Latin1.ccc m)
  | _ => false
  end.

Lemma descomposicion_forma c :
  is_latin1 c ->
  Latin1.descomposicion c = [c] \/
  exists b m, Latin1.descomposicion c = [b; m] /\ is_ascii b /\
              768 <= m <= 879.
Proof.
  intros H.
  assert (E : forma_descomposicion c = true)
    by (revert c H; apply por_tabla; vm_compute; reflexivity).
  unfold forma_descomposicion in E.
  destruct (Latin1.descomposicion c) as [|d [|m [|? ?]]]; try discriminate.
  - left. f_equal. lia.
  - right. exists d, m. unfold is_ascii. repeat split; lia.
Qed.

Lemma descomposicion_ascii c : is_ascii c -> Latin1.descomposicion c = [c].
Proof.
  intros H.
  assert (E : ((128 <=? c) ||
               PyStr.eqb (Latin1.descomposicion c) [c]) = true)
    by (generalize (ascii_latin1 _ H); clear H; revert c; apply por_tabla;
        vm_compute; reflexivity).
  apply orb_true_iff in E as [E | E].
  - unfold is_ascii in H. lia.
  - now apply eqb_eq.
Qed.

Lemma flat_map_descomposicion_ascii t :
  Forall is_ascii t -> flat_map Latin1.descomposicion t = t.
Proof.
  induction 1 as [|c t Hc Ht IH]; simpl; [reflexivity|].
  now rewrite descomposicion_ascii, IH.
Qed.

Lemma descomposicion_empieza_starter s :
  Forall is_latin1 s -> empieza_starter (flat_map Latin1.descomposicion s).
Proof.
  destruct 1 as [|c s Hc Hs]; simpl; [exact I|].
  destruct (descomposicion_forma c Hc) as [-> | (b & m & -> & Hb & _)]; simpl.
  - now apply ccc_latin1.
  - now apply ccc_latin1, ascii_latin1.
Qed.

Lemma NFD_tabla_latin1 s :
  Forall is_latin1 s -> Latin1.NFD s = flat_map Latin1.descomposicion s.
Proof.
  unfold Latin1.NFD, Latin1.ordena.
  induction 1 as [|c s Hc Hs IH]; simpl; [reflexivity|].
  rewrite fold_right_app, IH.
  pose proof (descomposicion_empieza_starter s Hs) as St.
  destruct (descomposicion_forma c Hc) as [-> | (b & m & -> & Hb & _)]; simpl.
  - now rewrite inserta_antes_starter.
  - rewrite (inserta_antes_starter m) by exact St.
    now apply inserta_starter, ccc_latin1, ascii_latin1.
Qed.

Lemma NFD_tabla_app_ascii s t :
  Forall is_ascii t -> Latin1.NFD (s ++ t) = Latin1.NFD s ++ t.
Proof.
  intros Ht. unfold Latin1.NFD. rewrite flat_map_app.
  rewrite (flat_map_descomposicion_ascii t Ht).
  apply ordena_app. revert Ht. apply Forall_impl.
  intros c Hc. now apply ccc_latin1, ascii_latin1.
Qed.

Lemma str_lower_sep s t :
  Forall is_ascii t ->
  Latin1.str_lower (s ++ 32 :: t) =
  Latin1.str_lower s ++ 32 :: map lower_ascii t.
Proof.
  intros Ht. unfold Latin1.str_lower. rewrite map_app. simpl.
  do 2 f_equal. apply map_ext_in. intros c Hc.
  apply lower_ascii_latin1. rewrite Forall_forall in Ht. now apply Ht.
Qed.

Lemma es_Mn_latin1 c : is_latin1 c -> Latin1.es_Mn c = false.
Proof.
  unfold is_latin1, Latin1.es_Mn. intros H.
  apply andb_false_iff. left. apply Z.leb_gt. lia.
Qed.

Lemma es_Mn_marcas c : 768 <= c <= 879 -> Latin1.es_Mn c = true.
Proof.
  unfold Latin1.es_Mn. intros H. apply andb_true_iff. split; apply Z.leb_le; lia.
Qed.

(** The runtime of the tables: Basic Latin, Latin-1 Supplement and the
    Combining Diacritical Marks. *)
#[global]
Instance ucd_latin1 : Unicodedata := {|
  str_lower := Latin1.str_lower;
  normalize_NFD := Latin1.NFD;
  category_Mn := Latin1.es_Mn;
  decimal := Latin1.decimal;
  lower_tablas := fun s _ => eq_refl;
  lower_sep := str_lower_sep;
  NFD_tablas := fun s _ => eq_refl;
  NFD_app_ascii := NFD_tabla_app_ascii;
  Mn_latin1 := es_Mn_latin1;
  Mn_marcas := es_Mn_marcas
|}.

(** Floating-point cells shown as [repr] writes them. *)
#[global]
Instance tk_repr : Tk := {| texto_de_double := Float.repr |}.

(** ** The calendar-date parser satisfies the interface *)

(** The integers [lo], [lo + 1], ..., [lo + n - 1]. *)
Definition rango (lo n : Z) : list Z :=
  map (fun k => lo + Z.of_nat k) (seq 0 (Z.to_nat n)).

Lemma por_rango (p : Z -> bool) (lo n : Z) :
  forallb p (rango lo n) = true ->
  forall z, lo <= z < lo + n -> p z = true.
Proof.
  intros H z Hz. rewrite forallb_forall in H. apply H.
  apply in_map_iff. exists (Z.to_nat (z - lo)). split; [lia|].
  apply in_seq. lia.
Qed.

Definition anio_cuatro_cifras (y : Z) : bool :=
  match relleno 4 y with
  | [a; b; c; d] =>
      es_digito a && es_digito b && es_digito c && es_digito d &&
      (valor_digitos [a; b; c; d] =? y)
  | _ => false
  end.

Definition dia_dos_cifras (v : Z) : bool :=
  match relleno 2 v with
  | [a; b] => es_digito a && es_digito b && (valor_digitos [a; b] =? v)
  | _ => false
  end.

Lemma relleno_anio y : 1 <= y <= 9999 -> anio_cuatro_cifras y = true.
Proof.
  intros H. apply (por_rango anio_cuatro_cifras 1 9999); [|lia].
  vm_compute. reflexivity.
Qed.

Lemma relleno_dia v : 1 <= v <= 31 -> dia_dos_cifras v = true.
Proof.
  intros H. apply (por_rango dia_dos_cifras 1 31); [|lia].
  vm_compute. reflexivity.
Qed.

Lemma fecha_valida_rangos y m d :
  fecha_valida y m d = true -> 1 <= y <= 9999 /\ 1 <= m <= 12 /\ 1 <= d <= 31.
Proof.
  unfold fecha_valida. intros H.
  repeat (apply andb_true_iff in H as [H ?]).
  assert (dias_del_mes y m <= 31).
  { unfold dias_del_mes.
    repeat match goal with |- context [if ?b then _ else _] => destruct b end;
      lia. }
  lia.
Qed.

Lemma crea_fecha_valida y m d f :
  crea_fecha y m d = Some f -> fecha_valida (year f) (month f) (day f) = true.
Proof.
  unfold crea_fecha. destruct (fecha_valida y m d) eqn:E; [|discriminate].
  intros [= <-]. exact E.
Qed.

Lemma fromisoformat_fecha_valida s f :
  fromisoformat_fecha s = Some f ->
  fecha_valida (year f) (month f) (day f) = true.
Proof.
  unfold fromisoformat_fecha.
  destruct s as [|a [|b [|c [|d [|g1 [|e [|f0 [|g2 [|g [|h [|? ?]]]]]]]]]]];
    try discriminate.
  destruct (_ && _); [apply crea_fecha_valida | discriminate].
Qed.

Lemma fromisoformat_fecha_anio s f :
  fromisoformat_fecha s = Some f -> empieza_con_anio s = true.
Proof.
  unfold fromisoformat_fecha, empieza_con_anio.
  destruct s as [|a [|b [|c [|d [|g1 [|e [|f0 [|g2 [|g [|h [|? ?]]]]]]]]]]];
    try discriminate.
  destruct (es_digito a && es_digito b && es_digito c && es_digito d) eqn:E;
    [reflexivity|]. simpl. discriminate.
Qed.

Lemma fromisoformat_fecha_isoformat y m d :
  fecha_valida y m d = true ->
  fromisoformat_fecha (isoformat y m d) =
  Some {| year := y; month := m; day := d |}.
Proof.
  intros V. destruct (fecha_valida_rangos _ _ _ V) as (Hy & Hm & Hd).
  pose proof (relleno_anio y Hy) as Ey.
  pose proof (relleno_dia m ltac:(lia)) as Em.
  pose proof (relleno_dia d Hd) as Ed.
  unfold isoformat, anio_cuatro_cifras, dia_dos_cifras in *.
  destruct (relleno 4 y) as [|a [|b [|c [|d0 [|? ?]]]]]; try discriminate.
  destruct (relleno 2 m) as [|e [|f [|? ?]]]; try discriminate.
  destruct (relleno 2 d) as [|g [|h [|? ?]]]; try discriminate.
  apply andb_true_iff in Ey as [Ey Vy]. apply andb_true_iff in Ey as [Ey D4].
  apply andb_true_iff in Ey as [Ey D3]. apply andb_true_iff in Ey as [D1 D2].
  apply andb_true_iff in Em as [Em Vm]. apply andb_true_iff in Em as [M1 M2].
  apply andb_true_iff in Ed as [Ed Vd]. apply andb_true_iff in Ed as [E1 E2].
  cbn [app fromisoformat_fecha].
  rewrite D1, D2, D3, D4, M1, M2, E1, E2. cbn [andb Z.eqb Pos.eqb].
  apply Z.eqb_eq in Vy, Vm, Vd. rewrite Vy, Vm, Vd.
  unfold crea_fecha. now rewrite V.
Qed.

(** [fromisoformat] restricted to calendar dates. *)
#[global]
Instance iso_fecha_simple : Isoformat := {|
  fromisoformat := fromisoformat_fecha;
  iso_valida := fromisoformat_fecha_valida;
  iso_fecha := fromisoformat_fecha_isoformat;
  iso_anio := fromisoformat_fecha_anio
|}.

(** ** [normaliza] *)

(** A text without the marks of the tables. *)
Definition sin_marcas (s : pystr) : pystr :=
  filter (fun c => negb (Latin1.es_Mn c)) s.

(** [normaliza] on text of the tables, by the tables alone. *)
Definition normaliza_tabla (s : pystr) : pystr :=
  sin_marcas (Latin1.NFD (strip (Latin1.str_lower s))).

(** The character left of a Latin-1 character once decomposed and its
    mark removed. *)
Definition base (c : codepoint) : codepoint :=
  hd c (Latin1.descomposicion c).

(** What [normaliza] leaves of one character: nothing of a mark, the base
    of any other. *)
Definition nucleo (c : codepoint) : pystr :=
  if Latin1.es_Mn c then [] else [base c].

(** A character that lowercasing and decomposition leave as it is. *)
Definition estable (c : codepoint) : Prop :=
  is_latin1 c /\ Latin1.lower c = c /\ base c = c.

(** The text [normaliza] works on. *)
Definition texto_de (x : pyobj) : pystr :=
  match x with
  | PyStr s => s
  | PyNone => []
  | otro => py_str otro
  end.

Definition hechos_base (c : codepoint) : bool :=
  PyStr.eqb (sin_marcas (Latin1.descomposicion c)) [base c] &&
  (0 <=? base c) && (base c <? 256) &&
  Bool.eqb (isspace (base c)) (isspace c) &&
  (base (base c) =? base c) &&
  (Latin1.lower (Latin1.lower c) =? Latin1.lower c) &&
  (negb (Latin1.lower c =? c) || (Latin1.lower (base c) =? base c)).

Definition hechos_marca (c : codepoint) : bool :=
  forallb Latin1.es_Mn (Latin1.descomposicion c) && (Latin1.lower c =? c).

Lemma base_hechos c :
  is_latin1 c ->
  sin_marcas (Latin1.descomposicion c) = [base c] /\
  is_latin1 (base c) /\
  isspace (base c) = isspace c /\
  base (base c) = base c /\
  Latin1.lower (Latin1.lower c) = Latin1.lower c /\
  (Latin1.lower c = c -> Latin1.lower (base c) = base c).
Proof.
  intros H.
  assert (E : hechos_base c = true)
    by (revert c H; apply por_tabla; vm_compute; reflexivity).
  unfold hechos_base in E.
  repeat (apply andb_true_iff in E as [E ?]).
  apply eqb_eq in E.
  repeat split; try assumption; try lia.
  now apply eqb_prop.
Qed.

Lemma marca_hechos c :
  768 <= c <= 879 ->
  Forall (fun d => Latin1.es_Mn d = true) (Latin1.descomposicion c) /\
  Latin1.lower c = c.
Proof.
  intros H.
  assert (E : hechos_marca c = true)
    by (apply (por_rango hechos_marca 768 112); [vm_compute; reflexivity | lia]).
  apply andb_true_iff in E as [E1 E2]. split; [|lia].
  apply Forall_forall. now apply forallb_forall.
Qed.

Lemma en_tablas_casos c :
  en_tablas c ->
  (is_latin1 c /\ Latin1.es_Mn c = false) \/
  (768 <= c <= 879 /\ Latin1.es_Mn c = true).
Proof.
  intros [H | H]; [left | right]; split; auto.
  - now apply es_Mn_latin1.
  - now apply es_Mn_marcas.
Qed.

Lemma sin_marcas_todas l :
  Forall (fun d => Latin1.es_Mn d = true) l -> sin_marcas l = [].
Proof.
  unfold sin_marcas. induction 1 as [|d l Hd Hl IH]; simpl; [reflexivity|].
  now rewrite Hd.
Qed.

Lemma sin_marcas_descomposicion c :
  en_tablas c -> sin_marcas (Latin1.descomposicion c) = nucleo c.
Proof.
  intros H. unfold nucleo.
  destruct (en_tablas_casos c H) as [[L ->] | [M ->]].
  - apply (base_hechos c L).
  - apply sin_marcas_todas, (marca_hechos c M).
Qed.

(** *** Canonical ordering moves marks only *)

Lemma busca_ccc_rango t c :
  Forall (fun r => 768 <= fst (fst r) /\ snd (fst r) <= 879) t ->
  Latin1.busca_ccc c t <> 0 -> 768 <= c <= 879.
Proof.
  induction 1 as [|[[lo hi] k] t [H1 H2] Ht IH]; simpl; [congruence|].
  destruct ((lo <=? c) && (c <=? hi)) eqn:E; [|exact IH].
  simpl in *. intros _. lia.
Qed.

Lemma ccc_positivo c : 0 < Latin1.ccc c -> Latin1.es_Mn c = true.
Proof.
  intros H. apply es_Mn_marcas.
  apply (busca_ccc_rango Latin1.tabla_ccc); [|unfold Latin1.ccc in H; lia].
  unfold Latin1.tabla_ccc. repeat constructor; simpl; lia.
Qed.

Lemma sin_marcas_inserta c l :
  sin_marcas (Latin1.inserta c l) = sin_marcas (c :: l).
Proof.
  induction l as [|d l IH]; [reflexivity|].
  cbn [Latin1.inserta].
  destruct ((0 <? Latin1.ccc d) && (Latin1.ccc d <? Latin1.ccc c)) eqn:E;
    [|reflexivity].
  apply andb_true_iff in E as [E _]. apply Z.ltb_lt, ccc_positivo in E.
  unfold sin_marcas in *. cbn [filter] in *. rewrite E. cbn [negb].
  exact IH.
Qed.

Lemma sin_marcas_ordena l : sin_marcas (Latin1.ordena l) = sin_marcas l.
Proof.
  unfold Latin1.ordena. induction l as [|c l IH]; [reflexivity|].
  cbn [fold_right]. rewrite sin_marcas_inserta.
  unfold sin_marcas in *. cbn [filter]. now rewrite IH.
Qed.

Lemma In_inserta x c l : In x (Latin1.inserta c l) -> x = c \/ In x l.
Proof.
  induction l as [|d l IH]; simpl.
  - intros [<- | []]. now left.
  - destruct ((0 <? Latin1.ccc d) && (Latin1.ccc d <? Latin1.ccc c)); simpl.
    + intros [<- | H]; [right; now left|].
      destruct (IH H) as [-> | H']; [now left | right; now right].
    + intros [<- | H]; [now left | now right].
Qed.

Lemma In_ordena x l : In x (Latin1.ordena l) -> In x l.
Proof.
  unfold Latin1.ordena. induction l as [|c l IH]; simpl; [tauto|].
  intros H. apply In_inserta in H as [-> | H]; auto.
Qed.

(** *** The text of the tables stays in the tables *)

Lemma lower_en_tablas c : en_tablas c -> en_tablas (Latin1.lower c).
Proof.
  intros [H | H]; [left; now apply lower_rango | right].
  now rewrite (proj2 (marca_hechos c H)).
Qed.

Lemma descomposicion_en_tablas c :
  en_tablas c -> Forall en_tablas (Latin1.descomposicion c).
Proof.
  intros [H | H].
  - destruct (descomposicion_forma c H) as [-> | (b & m & -> & Hb & Hm)].
    + constructor; [now left | constructor].
    + constructor; [left; now apply ascii_latin1|].
      constructor; [now right | constructor].
  - destruct (marca_hechos c H) as [F _]. revert F. apply Forall_impl.
    intros d Hd. right. unfold Latin1.es_Mn in Hd. lia.
Qed.

Lemma str_lower_en_tablas s :
  Forall en_tablas s -> Forall en_tablas (strip (Latin1.str_lower s)).
Proof.
  intros H. apply Forall_strip, Forall_map. revert H.
  apply Forall_impl, lower_en_tablas.
Qed.

Lemma NFD_en_tablas s : Forall en_tablas s -> Forall en_tablas (Latin1.NFD s).
Proof.
  intros H. apply Forall_forall. intros c Hc.
  apply In_ordena, in_flat_map in Hc as (d & Hd & Hc).
  rewrite Forall_forall in H.
  pose proof (descomposicion_en_tablas d (H d Hd)) as F.
  rewrite Forall_forall in F. now apply F.
Qed.

(** *** What the tables give *)

Lemma normaliza_tabla_nucleo s :
  Forall en_tablas s ->
  normaliza_tabla s = flat_map nucleo (strip (Latin1.str_lower s)).
Proof.
  intros Hs. unfold normaliza_tabla, Latin1.NFD.
  rewrite sin_marcas_ordena.
  pose proof (str_lower_en_tablas s Hs) as H.
  induction H as [|c t Hc Ht IH]; [reflexivity|].
  cbn [flat_map]. unfold sin_marcas in *. rewrite filter_app, IH.
  f_equal. now apply sin_marcas_descomposicion.
Qed.

Lemma nucleo_estable c : estable c -> nucleo c = [c].
Proof.
  intros (L & _ & B). unfold nucleo. now rewrite es_Mn_latin1, B.
Qed.

Lemma normaliza_tabla_estable s :
  Forall en_tablas s -> Forall estable (normaliza_tabla s).
Proof.
  intros Hs. rewrite normaliza_tabla_nucleo by exact Hs.
  assert (H : Forall (fun c => en_tablas c /\
                               (is_latin1 c -> Latin1.lower c = c))
                     (strip (Latin1.str_lower s))).
  { apply Forall_strip, Forall_map. revert Hs. apply Forall_impl.
    intros c Hc. split; [now apply lower_en_tablas|].
    destruct Hc as [L | M]; intros Hl.
    - apply (base_hechos c L).
    - now rewrite !(proj2 (marca_hechos c M)). }
  apply Forall_forall. intros c Hc.
  apply in_flat_map in Hc as (d & Hd & Hc).
  rewrite Forall_forall in H. destruct (H d Hd) as [Hd1 Hd2].
  unfold nucleo in Hc.
  destruct (en_tablas_casos d Hd1) as [[L E] | [M E]]; rewrite E in Hc;
    [|destruct Hc].
  destruct Hc as [<- | []].
  destruct (base_hechos d L) as (_ & B1 & _ & B2 & _ & B3).
  split; [exact B1|]. split; [apply B3, Hd2, L | exact B2].
Qed.

(** On stable text, [normaliza] only strips. *)
Lemma normaliza_tabla_fijo y : Forall estable y -> normaliza_tabla y = strip y.
Proof.
  intros Hy.
  assert (Hy1 : Forall en_tablas y)
    by (revert Hy; apply Forall_impl; intros c (L & _); now left).
  rewrite normaliza_tabla_nucleo by exact Hy1.
  assert (E : Latin1.str_lower y = y).
  { unfold Latin1.str_lower. rewrite <- (map_id y) at 2.
    apply map_ext_in. intros c Hc. rewrite Forall_forall in Hy.
    apply (Hy c Hc). }
  rewrite E.
  pose proof (Forall_strip estable y Hy) as H.
  induction H as [|c t Hc Ht IH]; [reflexivity|].
  cbn [flat_map]. now rewrite nucleo_estable, IH.
Qed.

(** Latin-1 text has no marks of its own: its normal form is trimmed. *)
Lemma normaliza_tabla_latin1_recortada s :
  Forall is_latin1 s -> strip (normaliza_tabla s) = normaliza_tabla s.
Proof.
  intros Hs.
  assert (Hs1 : Forall en_tablas s)
    by (revert Hs; apply Forall_impl; intros c L; now left).
  rewrite normaliza_tabla_nucleo by exact Hs1.
  assert (H : Forall is_latin1 (strip (Latin1.str_lower s))).
  { apply Forall_strip, Forall_map. revert Hs. apply Forall_impl, lower_rango. }
  assert (E : flat_map nucleo (strip (Latin1.str_lower s)) =
              map base (strip (Latin1.str_lower s))).
  { induction H as [|c t Hc Ht IH]; [reflexivity|].
    cbn [flat_map map]. rewrite IH. unfold nucleo.
    now rewrite es_Mn_latin1. }
  rewrite E.
  rewrite (strip_map base is_latin1) by
    (auto; intros c Hc; apply (base_hechos c Hc)).
  now rewrite strip_idem.
Qed.

Section Normaliza.
Context {U : Unicodedata}.

Lemma normaliza_texto x : normaliza x = normaliza (PyStr (texto_de x)).
Proof. destruct x as [| b | z | s]; reflexivity. Qed.

Lemma normaliza_sin_Mn x : Forall (fun c => category_Mn c = false) (normaliza x).
Proof.
  unfold normaliza. apply Forall_forall. intros c Hc.
  apply filter_In in Hc as [_ Hc]. now apply negb_true_iff.
Qed.

(** On text of the tables every runtime agrees with them. *)
Lemma normaliza_en_tablas s :
  Forall en_tablas s -> normaliza (PyStr s) = normaliza_tabla s.
Proof.
  intros Hs. unfold normaliza, normaliza_tabla, sin_marcas.
  rewrite lower_tablas by exact Hs.
  pose proof (str_lower_en_tablas s Hs) as H.
  rewrite NFD_tablas by exact H.
  apply filter_ext_in. intros c Hc. f_equal.
  pose proof (NFD_en_tablas _ H) as F. rewrite Forall_forall in F.
  destruct (en_tablas_casos c (F c Hc)) as [[L ->] | [M ->]].
  - now apply Mn_latin1.
  - now apply Mn_marcas.
Qed.

Lemma normaliza_latin1 s :
  Forall is_latin1 s -> normaliza (PyStr s) = normaliza_tabla s.
Proof.
  intros Hs. apply normaliza_en_tablas. revert Hs.
  apply Forall_impl. intros c L. now left.
Qed.

End Normaliza.

Section NormalizaIdempotente.
Context {U : Unicodedata}.

(** X1.  The result of [normaliza] never contains a nonspacing mark
    (category Mn), whatever the input.  For text of Basic Latin,
    Latin-1 Supplement and combining diacritical marks, normalising the
    result again only strips the spaces at its ends; so twice is the same
    as once exactly when the first result has no space at its ends.  That
    is so for every input whose text is Latin-1, which includes [None] and
    the non-string inputs turned into text. *)
Theorem normaliza_idempotente (x : pyobj) :
  Forall (fun c => category_Mn c = false) (normaliza x) /\
  (Forall en_tablas (texto_de x) ->
   normaliza (PyStr (normaliza x)) = strip (normaliza x)) /\
  (Forall is_latin1 (texto_de x) ->
   normaliza (PyStr (normaliza x)) = normaliza x).
Proof.
  split; [apply normaliza_sin_Mn|].
  assert (D : Forall en_tablas (texto_de x) ->
              normaliza (PyStr (normaliza x)) = strip (normaliza x)).
  { intros Hx. rewrite (normaliza_texto x).
    rewrite (normaliza_en_tablas (texto_de x)) by exact Hx.
    pose proof (normaliza_tabla_estable _ Hx) as E.
    rewrite normaliza_latin1
      by (revert E; apply Forall_impl; intros c (L & _); exact L).
    now apply normaliza_tabla_fijo. }
  split; [exact D|].
  intros Hx.
  assert (Hx1 : Forall en_tablas (texto_de x))
    by (revert Hx; apply Forall_impl; intros c L; now left).
  rewrite (D Hx1), (normaliza_texto x).
  rewrite (normaliza_latin1 (texto_de x)) by exact Hx.
  now apply normaliza_tabla_latin1_recortada.
Qed.

End NormalizaIdempotente.

(** "  Hipertensión " *)
Definition texto_hipertension : pystr :=
  lit "  Hipertensi" ++ [243] ++ lit "n ".

Lemma normaliza_idempotente_witness :
  normaliza (PyStr (normaliza (PyStr texto_hipertension))) =
  normaliza (PyStr texto_hipertension) /\
  normaliza (PyStr texto_hipertension) = lit "hipertension".
Proof.
  split.
  - apply (proj2 (proj2 (normaliza_idempotente (PyStr texto_hipertension)))).
    apply latin1_por_calculo. vm_compute. reflexivity.
  - vm_compute. reflexivity.
Defined.

(** C9.  [normaliza] is not idempotent at "a", a space and U+0301
    COMBINING ACUTE ACCENT: the text normalises to "a " (the mark is
    removed after the stripping, which leaves a space at the end), and
    that normalises to "a". *)
Lemma normaliza_no_idempotente :
  normaliza (PyStr [97; 32; 769]) = lit "a " /\
  normaliza (PyStr (normaliza (PyStr [97; 32; 769]))) = lit "a" /\
  normaliza (PyStr (normaliza (PyStr [97; 32; 769]))) <>
  normaliza (PyStr [97; 32; 769]).
Proof.
  repeat split; try (vm_compute; reflexivity).
  vm_compute. discriminate.
Qed.

(** ** [clasificar_paciente] *)

Section Clasificacion.
Context {U : Unicodedata}.

Lemma normaliza_vacio : normaliza (PyStr []) = [].
Proof. rewrite normaliza_latin1 by constructor. reflexivity. Qed.

(** C1.  When both diabetes and hypertension are detected the category is
    [mixto], never [diabetes] or [hta]; otherwise it is the first detected
    of diabetes, hta, hipotiroidismo, and [ninguno] when nothing is
    detected; two empty strings give [ninguno]. *)
Theorem clasificar_paciente_precedencia (diagnostico tratamiento : pyobj) :
  let c := clasificar_paciente diagnostico tratamiento in
  let d := detecta_diabetes diagnostico tratamiento in
  let h := detecta_hta diagnostico tratamiento in
  let t := detecta_hipotiroidismo diagnostico tratamiento in
  (d = true -> h = true ->
   c = lit "mixto" /\ c <> lit "diabetes" /\ c <> lit "hta") /\
  (d = true -> h = false -> c = lit "diabetes") /\
  (d = false -> h = true -> c = lit "hta") /\
  (d = false -> h = false -> t = true -> c = lit "hipotiroidismo") /\
  (d = false -> h = false -> t = false -> c = lit "ninguno") /\
  clasificar_paciente (PyStr []) (PyStr []) = lit "ninguno".
Proof.
  unfold clasificar_paciente, detecta_diabetes, detecta_hta,
    detecta_hipotiroidismo.
  set (dn := normaliza (py_or_vacio diagnostico)).
  set (tn := normaliza (py_or_vacio tratamiento)).
  cbv zeta.
  split.
  { intros -> ->. simpl. repeat split; try reflexivity;
      intros E; vm_compute in E; discriminate. }
  split; [now intros -> -> |].
  split; [now intros -> -> |].
  split; [now intros -> -> -> |].
  split; [now intros -> -> -> |].
  subst dn tn. change (py_or_vacio (PyStr [])) with (PyStr []).
  rewrite normaliza_vacio. reflexivity.
Qed.

End Clasificacion.

Lemma clasificar_paciente_precedencia_witness :
  clasificar_paciente (PyStr (lit "Diabetes")) (PyStr (lit "Losartan")) =
  lit "mixto".
Proof.
  apply (proj1 (clasificar_paciente_precedencia
                  (PyStr (lit "Diabetes")) (PyStr (lit "Losartan"))));
    vm_compute; reflexivity.
Defined.

(** The examples of the specification. *)
Lemma clasificar_paciente_ejemplos :
  clasificar_paciente (PyStr (lit "Diabetes Mellitus Tipo 2")) (PyStr []) =
  lit "diabetes" /\
  clasificar_paciente (PyStr []) (PyStr (lit "Losart" ++ [225] ++ lit "n 50mg")) =
  lit "hta" /\
  clasificar_paciente (PyStr (lit "Hipotiroidismo")) (PyStr []) =
  lit "hipotiroidismo" /\
  clasificar_paciente PyNone PyNone = lit "ninguno".
Proof. repeat split; vm_compute; reflexivity. Qed.

(** ** [calcular_imc] *)

Definition es_cero (x : Float.float) : bool :=
  match x with
  | S754_zero _ => true
  | _ => false
  end.

(** A number, not an infinity and not a NaN. *)
Definition es_finito (x : Float.float) : bool :=
  match x with
  | S754_zero _ | S754_finite _ _ _ => true
  | _ => false
  end.

Section Imc.
Context {U : Unicodedata}.

(** The float read from an argument of [calcular_imc]. *)
Definition lee_float (x : pyobj) : option Float.float :=
  float_de_cadena (replace1 44 46 (py_str x)).

Lemma calcular_imc_no_lanza (peso estatura : pyobj) :
  exists v, calcular_imc peso estatura = Retorna v.
Proof.
  unfold calcular_imc, py_float, truediv.
  destruct (float_de_cadena (replace1 44 46 (py_str peso)));
    cbn [bind try_except]; [|eauto].
  destruct (float_de_cadena (replace1 44 46 (py_str estatura)));
    cbn [bind try_except]; [|eauto].
  destruct (Float.leb _ _); cbn [bind try_except]; [eauto|].
  destruct (Float.mul _ _); cbn [bind try_except]; eauto.
Qed.

(** C2 (amended).  [calcular_imc] never raises.  It returns the empty
    value when one of the arguments, commas replaced by dots, is not read
    by [float], when the height read is [<= 0], and when the square of the
    height is zero (a positive height so small that its square
    underflows).  For a weight and a height read as finite numbers these
    are the only cases, and in every other the result is weight / height^2
    rounded to two decimals. *)
Theorem calcular_imc_total (peso estatura : pyobj) :
  exists v,
    calcular_imc peso estatura = Retorna v /\
    (lee_float peso = None \/ lee_float estatura = None -> v = ImcVacio) /\
    (forall e,
        lee_float estatura = Some e ->
        Float.leb e Float.cero = true \/ es_cero (Float.mul e e) = true ->
        v = ImcVacio) /\
    (forall p e,
        lee_float peso = Some p -> lee_float estatura = Some e ->
        es_finito p = true -> es_finito e = true ->
        (v = ImcVacio <->
         Float.leb e Float.cero = true \/ es_cero (Float.mul e e) = true) /\
        (Float.leb e Float.cero = false ->
         es_cero (Float.mul e e) = false ->
         v = ImcValor (Float.round2 (Float.div p (Float.mul e e))))).
Proof.
  unfold calcular_imc, py_float, lee_float.
  destruct (float_de_cadena (replace1 44 46 (py_str peso))) as [p|] eqn:Ep;
    cbn [bind try_except].
  2:{ exists ImcVacio. repeat split; auto; discriminate. }
  destruct (float_de_cadena (replace1 44 46 (py_str estatura))) as [e|] eqn:Ee;
    cbn [bind try_except].
  2:{ exists ImcVacio. repeat split; auto; discriminate. }
  destruct (Float.leb e Float.cero) eqn:Le; cbn [bind try_except].
  { exists ImcVacio. split; [reflexivity|]. split; [auto|]. split; [auto|].
    intros p' e' _ [= <-] _ _. rewrite Le.
    split; [split; auto | discriminate]. }
  unfold truediv.
  destruct (Float.mul e e) eqn:Sq; cbn [bind try_except].
  { exists ImcVacio. split; [reflexivity|]. split; [auto|]. split; [auto|].
    intros p' e' _ [= <-] _ _. rewrite Sq.
    split; [split; auto | discriminate]. }
  all: eexists; split; [reflexivity|]; split;
    [ intros [H | H]; discriminate
    | split;
      [ intros e' [= <-] [H | H];
        [ congruence | rewrite Sq in H; discriminate ]
      | intros p' e' [= <-] [= <-] _ _; split;
        [ split;
          [ discriminate
          | intros [H | H]; [congruence | rewrite Sq in H; discriminate] ]
        | intros _ _; now rewrite Sq ] ] ].
Qed.

(** C10 (amended).  [calcular_imc("70", "1.75")] returns 22.86: the
    double nearest to 2286/100, shown as "22.86". *)
Theorem calcular_imc_70_175 :
  calcular_imc (PyStr (lit "70")) (PyStr (lit "1.75")) =
  Retorna (ImcValor (Float.of_decimal false 2286 (-2))) /\
  Float.repr (Float.of_decimal false 2286 (-2)) = lit "22.86".
Proof.
  split.
  - vm_compute. reflexivity.
  - vm_compute. reflexivity.
Qed.

End Imc.

Lemma calcular_imc_total_witness :
  exists v, calcular_imc (PyStr (lit "70,5")) (PyStr (lit "1,75")) = Retorna v /\
            v = ImcValor (Float.of_decimal false 2302 (-2)).
Proof.
  destruct (calcular_imc_total (PyStr (lit "70,5")) (PyStr (lit "1,75")))
    as (v & E & _ & _ & H).
  exists v. split; [exact E|].
  apply (H (Float.of_decimal false 705 (-1)) (Float.of_decimal false 175 (-2)));
    vm_compute; reflexivity.
Defined.

(** C2, as stated, fails: the height "1e-200" is read as a positive float,
    both arguments are read, and the result is empty all the same, since
    the square of the height is 0.0 and the division raises
    [ZeroDivisionError]. *)
Lemma calcular_imc_estatura_diminuta :
  lee_float (PyStr (lit "70")) = Some (S754_finite false 4925812092436480 (-46)) /\
  lee_float (PyStr (lit "1e-200")) =
    Some (S754_finite false 6894565328877484 (-717)) /\
  Float.leb (S754_finite false 6894565328877484 (-717)) Float.cero = false /\
  calcular_imc (PyStr (lit "70")) (PyStr (lit "1e-200")) = Retorna ImcVacio.
Proof. repeat split; vm_compute; reflexivity. Qed.

(** C10, as stated, fails: the result is not 24.49. *)
Lemma calcular_imc_70_175_no_2449 :
  calcular_imc (PyStr (lit "70")) (PyStr (lit "1.75")) <>
  Retorna (ImcValor (Float.of_decimal false 2449 (-2))).
Proof. vm_compute. discriminate. Qed.

(** Other values of the specification and of the float grammar: a zero
    height and an unreadable weight give the empty value; "nan" and "inf"
    are read by [float], and give nan and 0.0. *)
Lemma calcular_imc_ejemplos :
  calcular_imc (PyStr (lit "70")) (PyStr (lit "0")) = Retorna ImcVacio /\
  calcular_imc (PyStr (lit "abc")) (PyStr (lit "1.75")) = Retorna ImcVacio /\
  calcular_imc (PyStr (lit "70,5")) (PyStr (lit "1,75")) =
    calcular_imc (PyStr (lit "70.5")) (PyStr (lit "1.75")) /\
  calcular_imc (PyStr (lit "70")) (PyStr (lit "nan")) =
    Retorna (ImcValor S754_nan) /\
  calcular_imc (PyStr (lit "70")) (PyStr (lit "inf")) =
    Retorna (ImcValor (S754_zero false)).
Proof. repeat split; vm_compute; reflexivity. Qed.

(** ** [buscar_en_padron] *)

(** The DNI of a roster record as it is compared: as text, trimmed. *)
Definition dni_de (r : RegistroPadron) : pystr := strip (py_str (p_DNI r)).

Lemma filter_ninguno {A} (p : A -> bool) (l : list A) :
  (forall x, In x l -> p x = false) -> filter p l = [].
Proof.
  induction l as [|a l IH]; simpl; intros H; [reflexivity|].
  rewrite (H a) by now left. apply IH. intros x Hx. apply H. now right.
Qed.

Lemma texto_de_cadena s : py_str (py_or_vacio (PyStr s)) = s.
Proof. destruct s; reflexivity. Qed.

(** C7.  [buscar_en_padron] returns two empty strings when the roster is
    empty and when no record has the DNI (compared as trimmed text, for
    equality); otherwise it returns the name and the benefit of the first
    record that has it.  A name or benefit that is a string is returned as
    it is. *)
Theorem buscar_en_padron_primera (padron_df : list RegistroPadron) (dni : pystr) :
  (padron_df = [] -> buscar_en_padron padron_df dni = ([], [])) /\
  ((forall r, In r padron_df -> dni_de r <> dni) ->
   buscar_en_padron padron_df dni = ([], [])) /\
  (forall antes r despues,
      padron_df = antes ++ r :: despues ->
      (forall x, In x antes -> dni_de x <> dni) ->
      dni_de r = dni ->
      buscar_en_padron padron_df dni =
      (py_str (py_or_vacio (p_Nombre r)), py_str (py_or_vacio (p_Beneficio r)))) /\
  (forall s, py_str (py_or_vacio (PyStr s)) = s).
Proof.
  split; [intros ->; reflexivity|].
  split; [|split; [|exact texto_de_cadena]].
  - intros H. unfold buscar_en_padron.
    destruct padron_df as [|r0 l]; [reflexivity|].
    rewrite filter_ninguno; [reflexivity|].
    intros x Hx. apply eqb_neq. now apply H.
  - intros antes r despues -> Hantes Hr. unfold buscar_en_padron.
    destruct (antes ++ r :: despues) eqn:E;
      [now destruct antes | rewrite <- E; clear E].
    rewrite filter_app. rewrite (filter_ninguno _ antes).
    + simpl. fold (dni_de r). rewrite Hr, eqb_refl. reflexivity.
    + intros x Hx. apply eqb_neq. now apply Hantes.
Qed.

(** A roster with a numeric DNI, a DNI with spaces around it and a
    repeated DNI. *)
Definition padron_ejemplo : list RegistroPadron :=
  [ {| p_DNI := PyInt 123; p_Nombre := PyStr (lit "Ana");
       p_Beneficio := PyStr (lit "A") |};
    {| p_DNI := PyStr (lit " 456 "); p_Nombre := PyStr (lit "Luis");
       p_Beneficio := PyNone |};
    {| p_DNI := PyStr (lit "456"); p_Nombre := PyStr (lit "Otro");
       p_Beneficio := PyStr (lit "C") |} ].

Lemma buscar_en_padron_primera_witness :
  buscar_en_padron padron_ejemplo (lit "456") = (lit "Luis", []) /\
  buscar_en_padron padron_ejemplo (lit "45") = ([], []) /\
  buscar_en_padron [] (lit "456") = ([], []).
Proof.
  destruct (buscar_en_padron_primera padron_ejemplo (lit "456"))
    as (_ & _ & H & _).
  destruct (buscar_en_padron_primera padron_ejemplo (lit "45"))
    as (_ & H0 & _).
  destruct (buscar_en_padron_primera [] (lit "456")) as (H1 & _).
  split; [|split].
  - apply (H [ {| p_DNI := PyInt 123; p_Nombre := PyStr (lit "Ana");
                  p_Beneficio := PyStr (lit "A") |} ]
             {| p_DNI := PyStr (lit " 456 "); p_Nombre := PyStr (lit "Luis");
                p_Beneficio := PyNone |}
             [ {| p_DNI := PyStr (lit "456"); p_Nombre := PyStr (lit "Otro");
                  p_Beneficio := PyStr (lit "C") |} ]).
    + reflexivity.
    + intros x [<- | []]. vm_compute. discriminate.
    + vm_compute. reflexivity.
  - apply H0. intros r [<- | [<- | [<- | []]]]; vm_compute; discriminate.
  - now apply H1.
Defined.

(** ** The rules of [post_edicion] *)

(** Comparisons of the column names of the source are settled by
    computation. *)
Ltac compara_columnas :=
  repeat match goal with
         | |- context [PyStr.eqb ?a ?b] =>
             let v := eval vm_compute in (PyStr.eqb a b) in
             change (PyStr.eqb a b) with v
         end.

Lemma endswith_app s u : endswith (s ++ u) u = true.
Proof. unfold endswith. rewrite rev_app_distr. apply startswith_app. Qed.

Section Presion.
Context {U : Unicodedata} {T : Tk}.

(** The new value of the blood pressure for the trimmed value [pa]. *)
Definition falta_unidad (pa : pystr) : bool :=
  truthy pa && negb (contiene (lit "mmhg") (normaliza (PyStr pa))).

Lemma post_edicion_presion padron_df it :
  post_edicion padron_df it col_Presion =
  Retorna (let pa := strip (Presion (values it)) in
           if falta_unidad pa
           then tree_set it col_Presion (pa ++ lit " mmHg")
           else it).
Proof.
  unfold post_edicion, fila_get, falta_unidad. compara_columnas.
  cbn [orb bind]. reflexivity.
Qed.

(** With the suffix, the value is trimmed and its normal form has the
    unit. *)
Lemma con_unidad pa :
  recortada pa -> pa <> [] ->
  strip (pa ++ lit " mmHg") = pa ++ lit " mmHg" /\
  contiene (lit "mmhg") (normaliza (PyStr (pa ++ lit " mmHg"))) = true.
Proof.
  intros Hr Hne. split.
  - change (lit " mmHg") with ([32; 109; 109; 72] ++ [103]).
    now apply strip_sufijo.
  - unfold normaliza.
    change (lit " mmHg") with (32 :: lit "mmHg").
    rewrite lower_sep by (apply latin1_ascii_calculo; reflexivity).
    change (map lower_ascii (lit "mmHg")) with [109; 109; 104; 103].
    set (L := str_lower pa).
    unfold strip.
    change (L ++ [32; 109; 109; 104; 103])
      with (L ++ [32] ++ 109 :: [109; 104; 103]).
    rewrite app_assoc, lstrip_app by reflexivity.
    change (lstrip (L ++ [32]) ++ [109; 109; 104; 103])
      with (lstrip (L ++ [32]) ++ [109; 109; 104] ++ [103]).
    rewrite app_assoc, rstrip_final by reflexivity.
    rewrite <- app_assoc.
    rewrite NFD_app_ascii by (apply latin1_ascii_calculo; reflexivity).
    rewrite filter_app. simpl.
    rewrite !Mn_latin1 by (unfold is_latin1; lia). simpl.
    apply contiene_final.
Qed.

(** C4.  The rule for the blood pressure applied to its own result changes
    nothing: the result of the first application is a fixed point of the
    rule.  On "120/80" both applications give "120/80 mmHg". *)
Theorem presion_idempotente (padron_df : list RegistroPadron) (it : Item) :
  (exists it1,
      post_edicion padron_df it col_Presion = Retorna it1 /\
      post_edicion padron_df it1 col_Presion = Retorna it1) /\
  (post_edicion padron_df (tree_set it col_Presion (lit "120/80")) col_Presion =
   Retorna (tree_set it col_Presion (lit "120/80 mmHg")) /\
   post_edicion padron_df (tree_set it col_Presion (lit "120/80 mmHg"))
                col_Presion =
   Retorna (tree_set it col_Presion (lit "120/80 mmHg"))).
Proof.
  split.
  - rewrite post_edicion_presion. eexists. split; [reflexivity|].
    rewrite post_edicion_presion. cbv zeta.
    set (pa := strip (Presion (values it))).
    destruct (falta_unidad pa) eqn:F.
    + unfold falta_unidad in F. apply andb_true_iff in F as [Ht _].
      apply truthy_true in Ht.
      destruct (con_unidad pa (strip_recortada _) Ht) as [E1 E2].
      unfold tree_set at 1 2. unfold fila_set. compara_columnas.
      cbn [values Presion]. rewrite E1.
      unfold falta_unidad. rewrite E2, andb_false_r. reflexivity.
    + fold pa. now rewrite F.
  - rewrite !post_edicion_presion. cbv zeta.
    unfold tree_set, fila_set. compara_columnas. cbn [values Presion].
    unfold falta_unidad.
    rewrite !normaliza_latin1 by (apply latin1_por_calculo; reflexivity).
    split; reflexivity.
Qed.

(** C3 (amended).  After the rule for the blood pressure, the value is the
    trimmed value followed by " mmHg" when that trimmed value is not empty
    and its normal form does not contain "mmhg", and is left as it was in
    every other case.  So a value that is not blank either ends with
    " mmHg", or already had "mmhg" somewhere in its normal form, not
    necessarily at the end; in both cases the normal form of the trimmed
    result contains the unit. *)
Theorem presion_con_unidad (padron_df : list RegistroPadron) (it : Item) :
  let pa := strip (Presion (values it)) in
  exists it',
    post_edicion padron_df it col_Presion = Retorna it' /\
    Presion (values it') =
      (if truthy pa && negb (contiene (lit "mmhg") (normaliza (PyStr pa)))
       then pa ++ lit " mmHg" else Presion (values it)) /\
    (pa <> [] ->
     contiene (lit "mmhg") (normaliza (PyStr (strip (Presion (values it'))))) =
     true) /\
    (pa <> [] ->
     contiene (lit "mmhg") (normaliza (PyStr pa)) = false ->
     endswith (Presion (values it')) (lit " mmHg") = true).
Proof.
  intros pa. rewrite post_edicion_presion. eexists. split; [reflexivity|].
  cbv zeta. fold pa. unfold falta_unidad.
  destruct (contiene (lit "mmhg") (normaliza (PyStr pa))) eqn:C;
    destruct (truthy pa) eqn:Ht; cbn [andb negb].
  - repeat split; auto; discriminate.
  - apply truthy_false in Ht. repeat split; auto; congruence.
  - apply truthy_true in Ht.
    destruct (con_unidad pa (strip_recortada _) Ht) as [E1 E2].
    unfold tree_set, fila_set. compara_columnas. cbn [values Presion].
    repeat split.
    + intros _. now rewrite E1.
    + intros _ _. apply endswith_app.
  - apply truthy_false in Ht. repeat split; auto; congruence.
Qed.

End Presion.

(** An empty row with the blood pressure [v]. *)
Definition item_presion (v : pystr) : Item := tree_set item_vacio col_Presion v.

Lemma presion_con_unidad_witness :
  exists it',
    post_edicion [] (item_presion (lit " 120/80 ")) col_Presion = Retorna it' /\
    Presion (values it') = lit "120/80 mmHg".
Proof.
  destruct (presion_con_unidad [] (item_presion (lit " 120/80 ")))
    as (it' & E & P & _).
  exists it'. split; [exact E|]. rewrite P. vm_compute. reflexivity.
Defined.

Lemma presion_idempotente_witness :
  post_edicion [] (item_presion (lit "120/80")) col_Presion =
  Retorna (item_presion (lit "120/80 mmHg")) /\
  post_edicion [] (item_presion (lit "120/80 mmHg")) col_Presion =
  Retorna (item_presion (lit "120/80 mmHg")).
Proof.
  exact (proj2 (presion_idempotente [] item_vacio)).
Defined.

(** C3, as stated, fails: "mmHg 120/80" has the unit in its normal form,
    so the rule leaves it as it is, and it does not end with the unit. *)
Lemma presion_sin_unidad_al_final :
  post_edicion [] (item_presion (lit "mmHg 120/80")) col_Presion =
  Retorna (item_presion (lit "mmHg 120/80")) /\
  Presion (values (item_presion (lit "mmHg 120/80"))) = lit "mmHg 120/80" /\
  endswith (str_lower (lit "mmHg 120/80")) (lit "mmhg") = false.
Proof. repeat split; vm_compute; reflexivity. Qed.

Section Marco.
Context {U : Unicodedata} {T : Tk}.

(** The row [it] with the text [v] in the IMC cell and nothing else
    changed. *)
Definition con_imc (it : Item) (v : pystr) : Item :=
  {| values :=
       {| DNI := DNI (values it); Nombre := Nombre (values it);
          Beneficio := Beneficio (values it); Presion := Presion (values it);
          Peso := Peso (values it); Estatura := Estatura (values it);
          IMC := v;
          Diagnostico := Diagnostico (values it);
          Tratamiento := Tratamiento (values it);
          Fecha := Fecha (values it) |};
     tags := tags it |}.

Lemma post_edicion_peso_estatura padron_df it columna :
  columna = col_Peso \/ columna = col_Estatura ->
  post_edicion padron_df it columna =
  (imc <- calcular_imc (PyStr (Peso (values it)))
                       (PyStr (Estatura (values it))) ;;
   Retorna (con_imc it (texto_imc imc))).
Proof.
  intros [-> | ->]; unfold post_edicion, fila_get; compara_columnas;
    cbn [orb bind];
    destruct (calcular_imc _ _) as [imc | e]; cbn [bind]; try reflexivity;
    unfold tree_set, fila_set, con_imc; compara_columnas; reflexivity.
Qed.

Lemma post_edicion_otra_columna padron_df it columna :
  ~ In columna [col_DNI; col_Presion; col_Peso; col_Estatura;
                col_Diagnostico; col_Tratamiento] ->
  post_edicion padron_df it columna = Retorna it.
Proof.
  intros H. unfold post_edicion.
  assert (E : forall c,
             In c [col_DNI; col_Presion; col_Peso; col_Estatura;
                   col_Diagnostico; col_Tratamiento] ->
             PyStr.eqb columna c = false).
  { intros c Hc. apply eqb_neq. intros ->. now apply H. }
  rewrite !E by (simpl; tauto). reflexivity.
Qed.

(** C8.  After an edit of the weight or of the height, the IMC cell holds
    what [calcular_imc] gives for the weight and the height now in the
    row, and every other cell and the colour tag are as before; no
    exception is raised.  After an edit of a column other than DNI, blood
    pressure, weight, height, diagnosis and treatment the row is as
    before. *)
Theorem post_edicion_marco (padron_df : list RegistroPadron) (it : Item) :
  (forall columna,
      columna = col_Peso \/ columna = col_Estatura ->
      exists imc,
        calcular_imc (PyStr (Peso (values it))) (PyStr (Estatura (values it))) =
        Retorna imc /\
        post_edicion padron_df it columna =
        Retorna (con_imc it (texto_imc imc))) /\
  (forall columna,
      ~ In columna [col_DNI; col_Presion; col_Peso; col_Estatura;
                    col_Diagnostico; col_Tratamiento] ->
      post_edicion padron_df it columna = Retorna it).
Proof.
  split.
  - intros columna Hc.
    destruct (calcular_imc_no_lanza (PyStr (Peso (values it)))
                                    (PyStr (Estatura (values it))))
      as (imc & E).
    exists imc. split; [exact E|].
    rewrite post_edicion_peso_estatura by exact Hc. now rewrite E.
  - apply post_edicion_otra_columna.
Qed.

End Marco.

(** A row with weight "70", height "1.75" and a diagnosis. *)
Definition item_ejemplo : Item :=
  tree_set (tree_set (tree_set item_vacio col_Peso (lit "70"))
                     col_Estatura (lit "1.75"))
           col_Diagnostico (lit "Diabetes").

Lemma post_edicion_marco_witness :
  post_edicion [] item_ejemplo col_Estatura =
  Retorna (con_imc item_ejemplo (lit "22.86")) /\
  post_edicion [] item_ejemplo col_Fecha = Retorna item_ejemplo.
Proof.
  destruct (post_edicion_marco [] item_ejemplo) as [H1 H2]. split.
  - destruct (H1 col_Estatura (or_intror eq_refl)) as (imc & E & ->).
    vm_compute in E. injection E as <-. vm_compute. reflexivity.
  - apply H2. intros H. vm_compute in H.
    repeat (destruct H as [H | H]; [discriminate H|]). exact H.
Defined.

(** The other rules: the DNI fills name and benefit from the roster, and
    the diagnosis sets the colour tag. *)
Lemma post_edicion_ejemplos :
  post_edicion padron_ejemplo (tree_set item_vacio col_DNI (lit " 456")) col_DNI =
  Retorna (tree_set (tree_set item_vacio col_DNI (lit " 456"))
                    col_Nombre (lit "Luis")) /\
  tags_de (post_edicion [] item_ejemplo col_Diagnostico) = [lit "tag_diabetes"].
Proof. split; vm_compute; reflexivity. Qed.

(** ** The quarterly summary *)

(** A row of the table with the DNI [dni] and the date [fecha]. *)
Definition atencion (it : Item) (dni fecha : pystr) : Item :=
  tree_set (tree_set it col_DNI dni) col_Fecha fecha.

Lemma atencion_DNI it dni fecha :
  fila_get (fila_recortada (values (atencion it dni fecha))) col_DNI = strip dni.
Proof.
  unfold atencion, tree_set, fila_set, fila_get, fila_recortada.
  compara_columnas. reflexivity.
Qed.

Lemma atencion_Fecha it dni fecha :
  fila_get (fila_recortada (values (atencion it dni fecha))) col_Fecha =
  strip fecha.
Proof.
  unfold atencion, tree_set, fila_set, fila_get, fila_recortada.
  compara_columnas. reflexivity.
Qed.

Lemma compara_str_refl a : compara_str a a = Eq.
Proof.
  induction a as [|c a IH]; simpl; [reflexivity|].
  now rewrite Z.compare_refl.
Qed.

Lemma compara_registro_refl k : compara_registro k k = Eq.
Proof.
  unfold compara_registro. now rewrite compara_str_refl, !Z.compare_refl.
Qed.

(** *** Grouping *)

Lemma compara_str_eq a b : compara_str a b = Eq <-> a = b.
Proof.
  revert b. induction a as [|x a IH]; intros [|y b]; simpl;
    try (split; congruence).
  destruct (Z.compare_spec x y) as [-> | H | H].
  - rewrite IH. split; congruence.
  - split; [discriminate | intros [= -> _]; lia].
  - split; [discriminate | intros [= -> _]; lia].
Qed.

Lemma compara_str_antisym a b : compara_str b a = CompOpp (compara_str a b).
Proof.
  revert b. induction a as [|x a IH]; intros [|y b]; simpl; try reflexivity.
  rewrite (Z.compare_antisym x y).
  destruct (x ?= y); simpl; auto.
Qed.

Lemma compara_str_trans a b c :
  compara_str a b = Lt -> compara_str b c = Lt -> compara_str a c = Lt.
Proof.
  revert b c. induction a as [|x a IH]; intros [|y b] [|z c]; simpl;
    try congruence.
  destruct (Z.compare_spec x y) as [-> | H | H]; try discriminate.
  - destruct (y ?= z); try discriminate; auto. apply IH.
  - intros _.
    destruct (Z.compare_spec y z) as [-> | H' | H']; try discriminate;
      intros _.
    + now apply Z.compare_lt_iff in H as ->.
    + assert (x < z) as -> %Z.compare_lt_iff by lia. reflexivity.
Qed.

Lemma compara_registro_eq a b : compara_registro a b = Eq <-> a = b.
Proof.
  destruct a as [da ya qa], b as [db yb qb]. unfold compara_registro. simpl.
  destruct (compara_str da db) eqn:E.
  - apply compara_str_eq in E as ->.
    destruct (Z.compare_spec ya yb) as [-> | H | H].
    + rewrite Z.compare_eq_iff. split; congruence.
    + split; [discriminate | intros [= ->]; lia].
    + split; [discriminate | intros [= ->]; lia].
  - split; [discriminate|]. intros [= -> _ _].
    now rewrite compara_str_refl in E.
  - split; [discriminate|]. intros [= -> _ _].
    now rewrite compara_str_refl in E.
Qed.

Lemma compara_registro_antisym a b :
  compara_registro b a = CompOpp (compara_registro a b).
Proof.
  destruct a as [da ya qa], b as [db yb qb]. unfold compara_registro. simpl.
  rewrite (compara_str_antisym da db), (Z.compare_antisym ya yb),
    (Z.compare_antisym qa qb).
  destruct (compara_str da db), (ya ?= yb), (qa ?= qb); reflexivity.
Qed.

Lemma compara_registro_trans a b c :
  compara_registro a b = Lt -> compara_registro b c = Lt ->
  compara_registro a c = Lt.
Proof.
  destruct a as [da ya qa], b as [db yb qb], c as [dc yc qc].
  unfold compara_registro. simpl.
  destruct (compara_str da db) eqn:E1; try discriminate.
  - apply compara_str_eq in E1 as ->.
    destruct (compara_str db dc) eqn:E2; try discriminate; auto.
    destruct (Z.compare_spec ya yb), (Z.compare_spec yb yc),
      (Z.compare_spec ya yc); try discriminate; try lia; auto;
      rewrite ?Z.compare_lt_iff; lia.
  - intros _. destruct (compara_str db dc) eqn:E2; try discriminate.
    + apply compara_str_eq in E2 as <-. now rewrite E1.
    + now rewrite (compara_str_trans _ _ _ E1 E2).
Qed.

(** Groups in the order of their keys, each key once. *)
Fixpoint ordenado (grupos : list (registro * Z)) : Prop :=
  match grupos with
  | [] => True
  | (k, _) :: t =>
      Forall (fun p => compara_registro k (fst p) = Lt) t /\ ordenado t
  end.

(** The entries of [datos] with the key [k]. *)
Definition veces (k : registro) (datos : list registro) : Z :=
  Z.of_nat (List.length
              (filter (fun k' => match compara_registro k k' with
                                 | Eq => true
                                 | _ => false
                                 end) datos)).

(** The attentions the groups give to the key [k]. *)
Fixpoint atenciones (k : registro) (grupos : list (registro * Z)) : Z :=
  match grupos with
  | [] => 0
  | (k', n) :: t =>
      (match compara_registro k k' with Eq => n | _ => 0 end) + atenciones k t
  end.

Lemma cuenta_menores x k grupos :
  compara_registro x k = Lt ->
  Forall (fun p => compara_registro x (fst p) = Lt) grupos ->
  Forall (fun p => compara_registro x (fst p) = Lt) (cuenta k grupos).
Proof.
  intros Hx. induction 1 as [|[k' n] t Hk Ht IH]; simpl.
  - repeat constructor. exact Hx.
  - destruct (compara_registro k k'); repeat constructor; auto.
Qed.

Lemma cuenta_ordenado k grupos : ordenado grupos -> ordenado (cuenta k grupos).
Proof.
  induction grupos as [|[k' n] t IH]; simpl.
  - intros _. split; [constructor | exact I].
  - intros [Hk Ht]. destruct (compara_registro k k') eqn:E; simpl.
    + split; assumption.
    + split; [|split; assumption].
      constructor; [exact E|]. revert Hk. apply Forall_impl.
      intros p Hp. now apply (compara_registro_trans k k' (fst p)).
    + split; [|now apply IH].
      apply cuenta_menores; [|exact Hk].
      rewrite compara_registro_antisym, E. reflexivity.
Qed.

Lemma cuenta_atenciones x k grupos :
  atenciones x (cuenta k grupos) =
  atenciones x grupos + match compara_registro x k with Eq => 1 | _ => 0 end.
Proof.
  induction grupos as [|[k' n] t IH]; simpl.
  - lia.
  - destruct (compara_registro k k') eqn:E; simpl.
    + apply compara_registro_eq in E as ->.
      destruct (compara_registro x k'); lia.
    + lia.
    + rewrite IH. lia.
Qed.

Lemma cuenta_positivos k grupos :
  Forall (fun p => 0 < snd p) grupos ->
  Forall (fun p => 0 < snd p) (cuenta k grupos).
Proof.
  induction 1 as [|[k' n] t Hn Ht IH]; simpl.
  - repeat constructor.
  - simpl in Hn. destruct (compara_registro k k');
      repeat constructor; simpl; auto; lia.
Qed.

Lemma veces_app x l k :
  veces x (l ++ [k]) =
  veces x l + match compara_registro x k with Eq => 1 | _ => 0 end.
Proof.
  unfold veces. rewrite filter_app, length_app. simpl.
  destruct (compara_registro x k); simpl; lia.
Qed.

(** What holds of the groups made so far of the entries [vistos]. *)
Definition grupos_de (vistos : list registro) (grupos : list (registro * Z))
  : Prop :=
  ordenado grupos /\
  Forall (fun p => 0 < snd p) grupos /\
  forall k, atenciones k grupos = veces k vistos.

Lemma grupos_de_fold datos vistos grupos :
  grupos_de vistos grupos ->
  grupos_de (vistos ++ datos)
            (fold_left (fun g k => cuenta k g) datos grupos).
Proof.
  revert vistos grupos. induction datos as [|k datos IH]; intros vistos grupos H.
  - now rewrite app_nil_r.
  - simpl. replace (vistos ++ k :: datos) with ((vistos ++ [k]) ++ datos)
      by now rewrite <- app_assoc.
    apply IH. destruct H as (H1 & H2 & H3). repeat split.
    + now apply cuenta_ordenado.
    + now apply cuenta_positivos.
    + intros x. now rewrite cuenta_atenciones, veces_app, H3.
Qed.

Lemma groupby_size_grupos datos : grupos_de datos (groupby_size datos).
Proof.
  apply (grupos_de_fold datos [] []).
  repeat split; constructor.
Qed.

Lemma atenciones_ausente k grupos :
  Forall (fun p => compara_registro k (fst p) = Lt) grupos ->
  atenciones k grupos = 0.
Proof.
  induction 1 as [|[k' n] t Hk Ht IH]; simpl; [reflexivity|].
  simpl in Hk. rewrite Hk, IH. reflexivity.
Qed.

Lemma atenciones_grupo k n grupos :
  ordenado grupos -> In (k, n) grupos -> atenciones k grupos = n.
Proof.
  induction grupos as [|[k' n'] t IH]; simpl; [tauto|].
  intros [Hk Ht] [[= -> ->] | Hin].
  - rewrite compara_registro_refl, atenciones_ausente by exact Hk. lia.
  - rewrite IH by assumption.
    rewrite Forall_forall in Hk. specialize (Hk _ Hin). simpl in Hk.
    rewrite compara_registro_antisym, Hk. simpl. lia.
Qed.

Lemma atenciones_positivas k grupos :
  Forall (fun p => 0 < snd p) grupos -> ordenado grupos ->
  0 < atenciones k grupos -> In (k, atenciones k grupos) grupos.
Proof.
  induction grupos as [|[k' n'] t IH]; simpl; [lia|].
  intros Hp [Hk Ht] H. inversion Hp as [|? ? Hn Hp']; subst. simpl in Hn.
  destruct (compara_registro k k') eqn:E.
  - apply compara_registro_eq in E as ->.
    rewrite atenciones_ausente by exact Hk. left. f_equal. lia.
  - right. simpl in *. now apply IH.
  - right. simpl in *. now apply IH.
Qed.

Lemma trimestre_rango f :
  1 <= month f <= 12 -> 1 <= calcular_trimestre f <= 4.
Proof.
  unfold calcular_trimestre. intros H.
  assert (0 <= (month f - 1) / 3 < 4); [|lia].
  split; [apply Z.div_pos; lia|].
  apply Z.div_lt_upper_bound; lia.
Qed.

Lemma fecha_valida_mes y m d : fecha_valida y m d = true -> 1 <= m <= 12.
Proof. intros H. now apply fecha_valida_rangos in H. Qed.

Lemma obtener_datos_tabla_vacia tree :
  obtener_datos_tabla tree = [] <->
  Forall (fun it => strip (DNI (values it)) = []) tree.
Proof.
  unfold obtener_datos_tabla.
  induction tree as [|it tree IH]; simpl.
  - split; constructor.
  - change (fila_get (fila_recortada (values it)) col_DNI)
      with (strip (DNI (values it))).
    destruct (strip (DNI (values it))) eqn:E; simpl.
    + rewrite IH. split; [now constructor | now inversion 1].
    + split; [discriminate | inversion 1; congruence].
Qed.

Section ResumenTrimestral.
Context {U : Unicodedata} {I : Isoformat}.

Lemma strptime_dmY_valida s f :
  strptime_dmY s = Some f -> fecha_valida (year f) (month f) (day f) = true.
Proof.
  unfold strptime_dmY.
  destruct (parte 47 s) as [[d r]|]; [|discriminate].
  destruct (parte 47 r) as [[m y]|]; [|discriminate].
  destruct (grupo_d d), (grupo_m m), (grupo_Y y); try discriminate.
  apply crea_fecha_valida.
Qed.

Lemma interpreta_fecha_valida s f :
  interpreta_fecha s = Some f ->
  fecha_valida (year f) (month f) (day f) = true.
Proof.
  unfold interpreta_fecha.
  destruct (contiene (lit "-") s); [apply iso_valida | apply strptime_dmY_valida].
Qed.

Lemma interpreta_iso_2024 :
  interpreta_fecha (lit "2024-01-15") =
  Some {| year := 2024; month := 1; day := 15 |}.
Proof.
  unfold interpreta_fecha.
  change (contiene (lit "-") (lit "2024-01-15")) with true. cbv iota.
  change (lit "2024-01-15") with (isoformat 2024 1 15).
  now apply iso_fecha.
Qed.

Lemma interpreta_dmY_2024 :
  interpreta_fecha (lit "15/01/2024") =
  Some {| year := 2024; month := 1; day := 15 |}.
Proof. vm_compute. reflexivity. Qed.

Lemma dato_resumen_atencion it dni fecha f :
  strip dni <> [] -> strip fecha <> [] ->
  interpreta_fecha (strip fecha) = Some f ->
  dato_resumen (fila_recortada (values (atencion it dni fecha))) =
  [ {| r_DNI := strip dni; r_Anio := year f;
       r_Trimestre := calcular_trimestre f |} ].
Proof.
  intros Hd Hf E. unfold dato_resumen.
  rewrite atencion_DNI, atencion_Fecha, E.
  apply truthy_true in Hd, Hf. now rewrite Hd, Hf.
Qed.

(** C5.  The date of a row is read by [fromisoformat] when it contains a
    hyphen and as day/month/year otherwise; the quarter of a date read is
    [(month - 1) div 3 + 1], between 1 and 4; the summary has one row for
    each (DNI, year, quarter) that occurs, in the order of the keys, with
    the number of its entries; two rows with one DNI and the dates
    "2024-01-15" and "15/01/2024" make one group, year 2024, quarter 1,
    with 2 attentions. *)
Theorem resumen_trimestral_mismo_grupo :
  (forall s,
      interpreta_fecha s =
      if contiene (lit "-") s then fromisoformat s else strptime_dmY s) /\
  (forall s f,
      interpreta_fecha s = Some f ->
      calcular_trimestre f = (month f - 1) / 3 + 1 /\
      1 <= calcular_trimestre f <= 4) /\
  (forall datos,
      ordenado (groupby_size datos) /\
      forall k n,
        In (k, n) (groupby_size datos) <-> 0 < n /\ n = veces k datos) /\
  (forall a b dni,
      strip dni <> [] ->
      mostrar_resumen_trimestral
        [ atencion a dni (lit "2024-01-15"); atencion b dni (lit "15/01/2024") ] =
      VentanaResumen
        [ ({| r_DNI := strip dni; r_Anio := 2024; r_Trimestre := 1 |}, 2) ]).
Proof.
  split; [reflexivity|]. split; [|split].
  - intros s f E. split; [reflexivity|].
    apply trimestre_rango.
    apply (fecha_valida_mes (year f) (month f) (day f)).
    now apply interpreta_fecha_valida in E.
  - intros datos.
    destruct (groupby_size_grupos datos) as (Ho & Hp & Ha).
    split; [exact Ho|]. intros k n. split.
    + intros Hin. split.
      * rewrite Forall_forall in Hp. apply (Hp _ Hin).
      * rewrite <- Ha. symmetry. now apply atenciones_grupo.
    + intros [Hn ->]. rewrite <- Ha in *.
      now apply atenciones_positivas.
  - intros a b dni Hd.
    unfold mostrar_resumen_trimestral, obtener_datos_tabla.
    cbn [map filter]. rewrite !atencion_DNI.
    pose proof Hd as Ht. apply truthy_true in Ht. rewrite Ht.
    unfold resumen_de_filas, datos_resumen. cbn [flat_map].
    rewrite (dato_resumen_atencion a dni (lit "2024-01-15")
               {| year := 2024; month := 1; day := 15 |});
      [| exact Hd | vm_compute; discriminate | exact interpreta_iso_2024 ].
    rewrite (dato_resumen_atencion b dni (lit "15/01/2024")
               {| year := 2024; month := 1; day := 15 |});
      [| exact Hd | vm_compute; discriminate | exact interpreta_dmY_2024 ].
    cbn [app]. unfold groupby_size. cbn [fold_left cuenta].
    change (calcular_trimestre {| year := 2024; month := 1; day := 15 |})
      with 1.
    cbn [year]. now rewrite compara_registro_refl.
Qed.

Lemma no_es_fecha fila :
  fila_get fila col_Fecha = lit "not-a-date" -> dato_resumen fila = [].
Proof.
  intros E. unfold dato_resumen. rewrite E.
  destruct (negb (truthy (fila_get fila col_DNI)) || _); [reflexivity|].
  unfold interpreta_fecha.
  change (contiene (lit "-") (lit "not-a-date")) with true. cbv iota.
  destruct (fromisoformat (lit "not-a-date")) as [f|] eqn:F; [|reflexivity].
  apply iso_anio in F. vm_compute in F. discriminate.
Qed.

(** C6.  A row whose date is "not-a-date", or any date that neither
    parser reads, adds no entry and raises nothing, and the entries of the
    other rows are those they have without it.  When there are rows and
    none gives an entry, the notice is "Sin fechas validas", which is not
    the notice "Sin datos" of no rows at all.  (The rows are those
    [obtener_datos_tabla] returns, the rows of the table that have a DNI:
    a table without such a row gives "Sin datos".) *)
Theorem resumen_sin_fechas_validas (filas : list Fila) :
  (forall fila,
      fila_get fila col_Fecha = lit "not-a-date" -> dato_resumen fila = []) /\
  (forall fila,
      interpreta_fecha (fila_get fila col_Fecha) = None ->
      dato_resumen fila = []) /\
  (forall antes fila despues,
      dato_resumen fila = [] ->
      datos_resumen (antes ++ fila :: despues) =
      datos_resumen (antes ++ despues)) /\
  resumen_de_filas [] = SinDatos /\
  (filas <> [] ->
   datos_resumen filas = [] ->
   resumen_de_filas filas = SinFechasValidas /\
   resumen_de_filas filas <> resumen_de_filas []) /\
  (forall tree,
      (Forall (fun it => strip (DNI (values it)) = []) tree ->
       mostrar_resumen_trimestral tree = SinDatos) /\
      (Exists (fun it => strip (DNI (values it)) <> []) tree ->
       datos_resumen (obtener_datos_tabla tree) = [] ->
       mostrar_resumen_trimestral tree = SinFechasValidas)).
Proof.
  split; [exact no_es_fecha|].
  split; [|split; [|split; [reflexivity | split]]].
  - intros fila E. unfold dato_resumen. rewrite E.
    now destruct (negb _ || negb _).
  - intros antes fila despues E. unfold datos_resumen.
    rewrite !flat_map_app. cbn [flat_map]. now rewrite E.
  - intros N E. unfold resumen_de_filas at 1 2.
    destruct filas; [congruence|]. rewrite E.
    split; [reflexivity | discriminate].
  - intros tree. unfold mostrar_resumen_trimestral. cbv zeta. split.
    + intros H. apply obtener_datos_tabla_vacia in H. now rewrite H.
    + intros H E.
      assert (N : obtener_datos_tabla tree <> []).
      { intros V. apply obtener_datos_tabla_vacia in V.
        apply Exists_exists in H as (it & Hin & Hit).
        rewrite Forall_forall in V. now apply Hit, V. }
      unfold resumen_de_filas.
      destruct (obtener_datos_tabla tree); [congruence|]. now rewrite E.
Qed.

End ResumenTrimestral.

Lemma resumen_trimestral_mismo_grupo_witness :
  mostrar_resumen_trimestral
    [ atencion item_vacio (lit "30111222") (lit "2024-01-15");
      atencion item_ejemplo (lit "30111222") (lit "15/01/2024") ] =
  VentanaResumen
    [ ({| r_DNI := lit "30111222"; r_Anio := 2024; r_Trimestre := 1 |}, 2) ].
Proof.
  apply (proj2 (proj2 (proj2 resumen_trimestral_mismo_grupo))
           item_vacio item_ejemplo (lit "30111222")).
  vm_compute. discriminate.
Defined.

(** The row of a patient with the date "not-a-date". *)
Definition fila_sin_fecha : Fila :=
  fila_recortada (values (atencion item_vacio (lit "30111222") (lit "not-a-date"))).

Lemma resumen_sin_fechas_validas_witness :
  resumen_de_filas [fila_sin_fecha] = SinFechasValidas /\
  resumen_de_filas [fila_sin_fecha] <> resumen_de_filas [] /\
  mostrar_resumen_trimestral
    [ atencion item_vacio (lit "30111222") (lit "not-a-date") ] =
  SinFechasValidas.
Proof.
  destruct (resumen_sin_fechas_validas [fila_sin_fecha])
    as (_ & _ & _ & _ & H & T).
  destruct H as [H1 H2]; [discriminate | vm_compute; reflexivity |].
  split; [exact H1|]. split; [exact H2|].
  apply (proj2 (T [ atencion item_vacio (lit "30111222") (lit "not-a-date") ])).
  - constructor. vm_compute. discriminate.
  - vm_compute. reflexivity.
Defined.

(** A row of the table without DNI is not among the rows of the summary:
    a table whose only row has a date and no DNI gives "Sin datos". *)
Lemma resumen_sin_dni_es_sin_datos :
  mostrar_resumen_trimestral [ atencion item_vacio [] (lit "2024-01-15") ] =
  SinDatos.
Proof. vm_compute. reflexivity. Qed.

(** Rows of several patients and quarters: the groups come in key order,
    and the row without a readable date is not counted. *)
Lemma resumen_trimestral_ejemplo :
  mostrar_resumen_trimestral
    [ atencion item_vacio (lit "222") (lit "2024-05-02");
      atencion item_vacio (lit "111") (lit "31/12/2023");
      atencion item_vacio (lit "222") (lit "not-a-date");
      atencion item_vacio (lit "222") (lit "9/4/2024");
      atencion item_vacio (lit "111") (lit "30/02/2024") ] =
  VentanaResumen
    [ ({| r_DNI := lit "111"; r_Anio := 2023; r_Trimestre := 4 |}, 1);
      ({| r_DNI := lit "222"; r_Anio := 2024; r_Trimestre := 2 |}, 2) ].
Proof. vm_compute. reflexivity. Qed.

(** ** The colour of a category *)

(** The categories [clasificar_paciente] returns. *)
Definition categorias : list pystr :=
  [ lit "diabetes"; lit "hta"; lit "hipotiroidismo"; lit "mixto";
    lit "ninguno" ].

Section Colores.
Context {U : Unicodedata}.

Lemma clasificar_paciente_categorias diagnostico tratamiento :
  In (clasificar_paciente diagnostico tratamiento) categorias.
Proof.
  unfold clasificar_paciente, categorias. cbv zeta.
  generalize (es_diabetico (normaliza (py_or_vacio diagnostico))
                          (normaliza (py_or_vacio tratamiento))),
             (es_hipertenso (normaliza (py_or_vacio diagnostico))
                            (normaliza (py_or_vacio tratamiento))),
             (es_hipotiroideo (normaliza (py_or_vacio diagnostico))
                              (normaliza (py_or_vacio tratamiento))).
  intros [|] [|] [|]; simpl; tauto.
Qed.

Lemma clasificar_vacio : clasificar_paciente (PyStr []) (PyStr []) = lit "ninguno".
Proof.
  unfold clasificar_paciente.
  change (py_or_vacio (PyStr [])) with (PyStr []).
  rewrite normaliza_vacio. reflexivity.
Qed.

Lemma color_de_otra categoria :
  ~ In categoria categorias -> obtener_color_categoria categoria = COLOR_BLANCO.
Proof.
  intros H. unfold obtener_color_categoria. cbv zeta. cbn [dict_get].
  assert (E : forall c, In c categorias -> PyStr.eqb c categoria = false).
  { intros c Hc. apply eqb_neq. intros <-. now apply H. }
  rewrite !E by (unfold categorias; simpl; tauto). reflexivity.
Qed.

(** X2.  The colour [obtener_color_categoria] gives to the category of a
    patient tells what was detected: red for diabetes with hypertension,
    violet for diabetes alone, light blue for hypertension alone, green
    for hypothyroidism without the other two, and white exactly when
    nothing is detected.  A category that is none of the five gets white
    too. *)
Theorem obtener_color_categoria_deteccion (diagnostico tratamiento : pyobj) :
  let color :=
    obtener_color_categoria (clasificar_paciente diagnostico tratamiento) in
  let d := detecta_diabetes diagnostico tratamiento in
  let h := detecta_hta diagnostico tratamiento in
  let t := detecta_hipotiroidismo diagnostico tratamiento in
  (color = COLOR_ROJO <-> d = true /\ h = true) /\
  (color = COLOR_VIOLETA <-> d = true /\ h = false) /\
  (color = COLOR_CELESTE <-> d = false /\ h = true) /\
  (color = COLOR_VERDE <-> d = false /\ h = false /\ t = true) /\
  (color = COLOR_BLANCO <-> d = false /\ h = false /\ t = false) /\
  (forall categoria,
      ~ In categoria categorias ->
      obtener_color_categoria categoria = COLOR_BLANCO).
Proof.
  unfold clasificar_paciente, detecta_diabetes, detecta_hta,
    detecta_hipotiroidismo. cbv zeta.
  split; [|split; [|split; [|split; [|split; [|exact color_de_otra]]]]];
    generalize (es_diabetico (normaliza (py_or_vacio diagnostico))
                            (normaliza (py_or_vacio tratamiento))),
               (es_hipertenso (normaliza (py_or_vacio diagnostico))
                              (normaliza (py_or_vacio tratamiento))),
               (es_hipotiroideo (normaliza (py_or_vacio diagnostico))
                                (normaliza (py_or_vacio tratamiento)));
    intros [|] [|] [|]; cbn [andb];
    (split;
     [ intros E; vm_compute in E; repeat split; congruence
     | intros H; decompose [and] H; try discriminate; reflexivity ]).
Qed.

End Colores.

Lemma obtener_color_categoria_deteccion_witness :
  obtener_color_categoria (lit "otra") = COLOR_BLANCO /\
  obtener_color_categoria
    (clasificar_paciente (PyStr (lit "DM2")) (PyStr (lit "Enalapril 10 mg"))) =
  COLOR_ROJO.
Proof.
  destruct (obtener_color_categoria_deteccion
              (PyStr (lit "DM2")) (PyStr (lit "Enalapril 10 mg")))
    as (R & _ & _ & _ & _ & O).
  split.
  - apply O. vm_compute. intros H.
    repeat (destruct H as [H | H]; [discriminate H|]). exact H.
  - apply R. split; vm_compute; reflexivity.
Defined.
(** ** The rows of the table, whatever was done to them *)

Lemma columna_casos (col : pystr) :
  col = col_DNI \/ col = col_Presion \/ col = col_Peso \/ col = col_Estatura \/
  col = col_Diagnostico \/ col = col_Tratamiento \/
  ~ In col [col_DNI; col_Presion; col_Peso; col_Estatura; col_Diagnostico;
            col_Tratamiento].
Proof.
  destruct (in_dec (list_eq_dec Z.eq_dec) col
              [col_DNI; col_Presion; col_Peso; col_Estatura; col_Diagnostico;
               col_Tratamiento]) as [H | H]; [|tauto].
  simpl in H. intuition auto.
Qed.

Section Aplicacion.
Context {U : Unicodedata} {T : Tk}.

Lemma post_edicion_dni padron_df it :
  post_edicion padron_df it col_DNI =
  Retorna (let dni := strip (DNI (values it)) in
           if truthy dni
           then tree_set (tree_set it col_Nombre
                                   (fst (buscar_en_padron padron_df dni)))
                         col_Beneficio (snd (buscar_en_padron padron_df dni))
           else it).
Proof.
  unfold post_edicion, fila_get. compara_columnas. cbn [orb bind]. cbv zeta.
  destruct (truthy _); [|reflexivity].
  destruct (buscar_en_padron _ _); reflexivity.
Qed.

Lemma post_edicion_color padron_df it col :
  col = col_Diagnostico \/ col = col_Tratamiento ->
  post_edicion padron_df it col = Retorna (actualizar_color_fila it).
Proof.
  intros [-> | ->]; unfold post_edicion; compara_columnas; reflexivity.
Qed.

Lemma post_edicion_retorna padron_df it col :
  exists it', post_edicion padron_df it col = Retorna it'.
Proof.
  destruct (columna_casos col) as [-> | [-> | [-> | [-> | [-> | [-> | H]]]]]].
  - rewrite post_edicion_dni. eauto.
  - rewrite post_edicion_presion. eauto.
  - rewrite post_edicion_peso_estatura by auto.
    destruct (calcular_imc_no_lanza (PyStr (Peso (values it)))
                (PyStr (Estatura (values it)))) as (v & ->).
    cbn [bind]. eauto.
  - rewrite post_edicion_peso_estatura by auto.
    destruct (calcular_imc_no_lanza (PyStr (Peso (values it)))
                (PyStr (Estatura (values it)))) as (v & ->).
    cbn [bind]. eauto.
  - rewrite post_edicion_color by auto. eauto.
  - rewrite post_edicion_color by auto. eauto.
  - rewrite post_edicion_otra_columna by exact H. eauto.
Qed.

(** The row an edit of the cell of [col] leaves. *)
Lemma finalizar_edicion_retorna padron_df it col texto :
  exists it', App.finalizar_edicion padron_df it col texto = Retorna it'.
Proof. apply post_edicion_retorna. Qed.

(** The tag of the row is that of the category of its diagnosis and
    treatment. *)
Definition etiqueta_coherente (it : Item) : Prop :=
  tags it =
  [ lit "tag_" ++
    clasificar_paciente (PyStr (Diagnostico (values it)))
                        (PyStr (Tratamiento (values it))) ].

(** The IMC cell is what [calcular_imc] gives for the weight and the
    height of the row. *)
Definition imc_al_dia (it : Item) : Prop :=
  exists imc,
    calcular_imc (PyStr (Peso (values it))) (PyStr (Estatura (values it))) =
    Retorna imc /\
    IMC (values it) = texto_imc imc.

(** The cells only the user writes have no space at their ends. *)
Definition celdas_recortadas (it : Item) : Prop :=
  strip (DNI (values it)) = DNI (values it) /\
  strip (Presion (values it)) = Presion (values it) /\
  strip (Peso (values it)) = Peso (values it) /\
  strip (Estatura (values it)) = Estatura (values it) /\
  strip (Diagnostico (values it)) = Diagnostico (values it) /\
  strip (Tratamiento (values it)) = Tratamiento (values it) /\
  strip (Fecha (values it)) = Fecha (values it).

Lemma finalizar_edicion_etiqueta padron_df it col texto it' :
  etiqueta_coherente it ->
  App.finalizar_edicion padron_df it col texto = Retorna it' ->
  etiqueta_coherente it'.
Proof.
  unfold App.finalizar_edicion, etiqueta_coherente. cbv zeta. intros H.
  destruct (columna_casos col) as [-> | [-> | [-> | [-> | [-> | [-> | N]]]]]].
  - rewrite post_edicion_dni. intros [= <-]. cbv zeta.
    destruct (truthy _); unfold tree_set, fila_set; compara_columnas;
      cbn [values tags Diagnostico Tratamiento]; exact H.
  - rewrite post_edicion_presion. intros [= <-]. cbv zeta.
    destruct (falta_unidad _); unfold tree_set, fila_set; compara_columnas;
      cbn [values tags Diagnostico Tratamiento]; exact H.
  - rewrite post_edicion_peso_estatura by auto.
    destruct (calcular_imc _ _); cbn [bind]; intros [= <-].
    unfold con_imc, tree_set, fila_set; compara_columnas;
      cbn [values tags Diagnostico Tratamiento]; exact H.
  - rewrite post_edicion_peso_estatura by auto.
    destruct (calcular_imc _ _); cbn [bind]; intros [= <-].
    unfold con_imc, tree_set, fila_set; compara_columnas;
      cbn [values tags Diagnostico Tratamiento]; exact H.
  - rewrite post_edicion_color by auto. intros [= <-]. reflexivity.
  - rewrite post_edicion_color by auto. intros [= <-]. reflexivity.
  - rewrite post_edicion_otra_columna by exact N. intros [= <-].
    assert (E1 : PyStr.eqb col col_Diagnostico = false)
      by (apply eqb_neq; intros ->; apply N; simpl; tauto).
    assert (E2 : PyStr.eqb col col_Tratamiento = false)
      by (apply eqb_neq; intros ->; apply N; simpl; tauto).
    unfold tree_set, fila_set. cbn [values tags Diagnostico Tratamiento].
    rewrite E1, E2. exact H.
Qed.

Lemma finalizar_edicion_imc padron_df it col texto it' :
  col <> col_IMC ->
  imc_al_dia it ->
  App.finalizar_edicion padron_df it col texto = Retorna it' ->
  imc_al_dia it'.
Proof.
  unfold App.finalizar_edicion, imc_al_dia. cbv zeta. intros NI H.
  destruct (columna_casos col) as [-> | [-> | [-> | [-> | [-> | [-> | N]]]]]].
  - rewrite post_edicion_dni. intros [= <-]. cbv zeta.
    destruct (truthy _); unfold tree_set, fila_set; compara_columnas;
      cbn [values tags Peso Estatura IMC]; exact H.
  - rewrite post_edicion_presion. intros [= <-]. cbv zeta.
    destruct (falta_unidad _); unfold tree_set, fila_set; compara_columnas;
      cbn [values tags Peso Estatura IMC]; exact H.
  - rewrite post_edicion_peso_estatura by auto. clear H.
    destruct (calcular_imc _ _) as [imc|] eqn:E; cbn [bind]; intros [= <-].
    exists imc. split; [exact E | reflexivity].
  - rewrite post_edicion_peso_estatura by auto. clear H.
    destruct (calcular_imc _ _) as [imc|] eqn:E; cbn [bind]; intros [= <-].
    exists imc. split; [exact E | reflexivity].
  - rewrite post_edicion_color by auto. intros [= <-]. exact H.
  - rewrite post_edicion_color by auto. intros [= <-]. exact H.
  - rewrite post_edicion_otra_columna by exact N. intros [= <-].
    assert (E1 : PyStr.eqb col col_Peso = false)
      by (apply eqb_neq; intros ->; apply N; simpl; tauto).
    assert (E2 : PyStr.eqb col col_Estatura = false)
      by (apply eqb_neq; intros ->; apply N; simpl; tauto).
    assert (E3 : PyStr.eqb col col_IMC = false) by now apply eqb_neq.
    unfold tree_set, fila_set. cbn [values tags Peso Estatura IMC].
    rewrite E1, E2, E3. exact H.
Qed.

Lemma finalizar_edicion_recortadas padron_df it col texto it' :
  celdas_recortadas it ->
  App.finalizar_edicion padron_df it col texto = Retorna it' ->
  celdas_recortadas it'.
Proof.
  unfold App.finalizar_edicion, celdas_recortadas. cbv zeta.
  intros (H1 & H2 & H3 & H4 & H5 & H6 & H7).
  pose proof (strip_idem texto) as V.
  destruct (columna_casos col) as [-> | [-> | [-> | [-> | [-> | [-> | N]]]]]].
  - rewrite post_edicion_dni. intros [= <-]. cbv zeta.
    destruct (truthy _); unfold tree_set, fila_set; compara_columnas;
      cbn [values DNI Presion Peso Estatura Diagnostico Tratamiento Fecha];
      auto 10.
  - rewrite post_edicion_presion. intros [= <-]. cbv zeta.
    unfold tree_set at 1 2. unfold fila_set at 1 2. compara_columnas.
    cbn [values Presion]. rewrite V.
    destruct (falta_unidad (strip texto)) eqn:F;
      unfold tree_set, fila_set; compara_columnas;
      cbn [values DNI Presion Peso Estatura Diagnostico Tratamiento Fecha];
      repeat split; auto.
    unfold falta_unidad in F. apply andb_true_iff in F as [F _].
    apply truthy_true in F.
    apply (con_unidad (strip texto) (strip_recortada _) F).
  - rewrite post_edicion_peso_estatura by auto.
    destruct (calcular_imc _ _); cbn [bind]; intros [= <-].
    unfold con_imc, tree_set, fila_set; compara_columnas;
      cbn [values DNI Presion Peso Estatura Diagnostico Tratamiento Fecha];
      auto 10.
  - rewrite post_edicion_peso_estatura by auto.
    destruct (calcular_imc _ _); cbn [bind]; intros [= <-].
    unfold con_imc, tree_set, fila_set; compara_columnas;
      cbn [values DNI Presion Peso Estatura Diagnostico Tratamiento Fecha];
      auto 10.
  - rewrite post_edicion_color by auto. intros [= <-].
    unfold actualizar_color_fila, item_tags, tree_set, fila_set;
      compara_columnas;
      cbn [values DNI Presion Peso Estatura Diagnostico Tratamiento Fecha];
      auto 10.
  - rewrite post_edicion_color by auto. intros [= <-].
    unfold actualizar_color_fila, item_tags, tree_set, fila_set;
      compara_columnas;
      cbn [values DNI Presion Peso Estatura Diagnostico Tratamiento Fecha];
      auto 10.
  - rewrite post_edicion_otra_columna by exact N. intros [= <-].
    unfold tree_set, fila_set.
    cbn [values DNI Presion Peso Estatura Diagnostico Tratamiento Fecha].
    repeat match goal with
           | |- context [if PyStr.eqb col ?c then _ else _] =>
               destruct (PyStr.eqb col c)
           end; auto 10.
Qed.

(** *** The states the events lead to *)

Lemma pon_length i it tree : List.length (App.pon i it tree) = List.length tree.
Proof.
  revert i. induction tree as [|x t IH]; intros [|j]; simpl; auto.
Qed.

Lemma pon_Forall (P : Item -> Prop) i it tree :
  P it -> Forall P tree -> Forall P (App.pon i it tree).
Proof.
  intros Hit H. revert i.
  induction H as [|x t Hx Ht IH]; intros [|j]; simpl; constructor; auto.
Qed.

Lemma filas_vacias_Forall (P : Item -> Prop) n :
  P item_vacio -> Forall P (App._poblar_filas_vacias n []).
Proof.
  intros H. unfold App._poblar_filas_vacias. simpl.
  induction n; simpl; constructor; auto.
Qed.

(** The event confirms no edit of a column outside of [Q]. *)
Definition edita_solo (Q : pystr -> Prop) (e : App.evento) : Prop :=
  match e with
  | App.EditarCelda _ col_index (App.Confirma _) =>
      forall col, nth_error columnas col_index = Some col -> Q col
  | _ => True
  end.

Lemma ejecuta_conserva (P : Item -> Prop) (Q : pystr -> Prop) :
  P item_vacio ->
  (forall padron_df it col texto it',
      Q col -> P it ->
      App.finalizar_edicion padron_df it col texto = Retorna it' -> P it') ->
  forall eventos self,
    Forall (edita_solo Q) eventos ->
    Forall P (App.tree self) -> List.length (App.tree self) = 30%nat ->
    exists self',
      App.ejecuta eventos self = Retorna self' /\
      Forall P (App.tree self') /\ List.length (App.tree self') = 30%nat.
Proof.
  intros P0 Pfin eventos.
  induction eventos as [|e eventos IH]; intros self He HP HL.
  - exists self. simpl. auto.
  - inversion He as [|? ? He1 He2]; subst. cbn [App.ejecuta].
    assert (S : exists s, App.paso self e = Retorna s /\
                          Forall P (App.tree s) /\
                          List.length (App.tree s) = 30%nat).
    { destruct e as [ruta leido | fila_id col_index c | confirma];
        cbn [App.paso].
      - eexists. split; [reflexivity|]. unfold App.cargar_padron.
        destruct (negb (truthy ruta)); auto.
      - unfold App.editar_celda.
        destruct (nth_error (App.tree self) fila_id) as [it|] eqn:Ei; [|eauto].
        destruct (nth_error columnas col_index) as [col|] eqn:Ec; [|eauto].
        destruct c as [texto|]; [|eauto].
        destruct (finalizar_edicion_retorna (App.padron_df self) it col texto)
          as (it' & E).
        rewrite E. cbn [bind]. eexists. split; [reflexivity|].
        cbn [App.tree]. split; [|now rewrite pon_length].
        apply pon_Forall; [|exact HP].
        apply (Pfin (App.padron_df self) it col texto it' (He1 col Ec));
          [|exact E].
        rewrite Forall_forall in HP. apply HP.
        now apply nth_error_In in Ei.
      - eexists. split; [reflexivity|]. unfold App.limpiar_tabla.
        destruct (negb confirma); [auto|]. cbn [App.tree].
        split; [now apply filas_vacias_Forall | reflexivity]. }
    destruct S as (s & -> & HP' & HL'). cbn [bind]. now apply IH.
Qed.

Lemma ejecuta_conserva_siempre (P : Item -> Prop) :
  P item_vacio ->
  (forall padron_df it col texto it',
      P it ->
      App.finalizar_edicion padron_df it col texto = Retorna it' -> P it') ->
  forall eventos,
    exists self,
      App.ejecuta eventos App.__init__ = Retorna self /\
      Forall P (App.tree self) /\ List.length (App.tree self) = 30%nat.
Proof.
  intros P0 Pfin eventos.
  apply (ejecuta_conserva P (fun _ => True)); auto.
  - intros. eapply Pfin; eauto.
  - apply Forall_forall. intros [| ? ? [|] |] _; simpl; auto.
  - now apply filas_vacias_Forall.
Qed.

Lemma etiqueta_vacia : etiqueta_coherente item_vacio.
Proof.
  unfold etiqueta_coherente. cbn [values item_vacio fila_vacia tags
    Diagnostico Tratamiento]. now rewrite clasificar_vacio.
Qed.

Lemma recortadas_vacia : celdas_recortadas item_vacio.
Proof. repeat split. Qed.

(** The background the table shows for a row whose tag is that of its
    category. *)
Lemma fondo_de_etiqueta it :
  etiqueta_coherente it ->
  fondo_en_pantalla it =
  Some (obtener_color_categoria
          (clasificar_paciente (PyStr (Diagnostico (values it)))
                               (PyStr (Tratamiento (values it))))).
Proof.
  unfold etiqueta_coherente, fondo_en_pantalla. intros ->.
  pose proof (clasificar_paciente_categorias
                (PyStr (Diagnostico (values it)))
                (PyStr (Tratamiento (values it)))) as H.
  unfold categorias in H. simpl in H.
  destruct H as [<- | [<- | [<- | [<- | [<- | []]]]]]; reflexivity.
Qed.

(** X3.  Whatever the roster loads, the cell edits (confirmed or
    cancelled) and the table clearings, no handler raises, the table has
    its 30 rows, and the tag of every row is that of the category
    [clasificar_paciente] gives to the diagnosis and the treatment the row
    holds now; so the background of the row is the colour of that
    category. *)
Theorem etiqueta_siempre_coherente (eventos : list App.evento) :
  exists self,
    App.ejecuta eventos App.__init__ = Retorna self /\
    List.length (App.tree self) = 30%nat /\
    Forall
      (fun it =>
         let categoria :=
           clasificar_paciente (PyStr (Diagnostico (values it)))
                               (PyStr (Tratamiento (values it))) in
         tags it = [lit "tag_" ++ categoria] /\
         fondo_en_pantalla it = Some (obtener_color_categoria categoria))
      (App.tree self).
Proof.
  destruct (ejecuta_conserva_siempre etiqueta_coherente etiqueta_vacia
              finalizar_edicion_etiqueta eventos) as (self & E & H & L).
  exists self. split; [exact E|]. split; [exact L|].
  revert H. apply Forall_impl. intros it H. cbv zeta.
  split; [exact H | now apply fondo_de_etiqueta].
Qed.

(** No event confirms an edit of the IMC column (the seventh). *)
Definition sin_editar_imc (eventos : list App.evento) : bool :=
  forallb (fun e =>
             match e with
             | App.EditarCelda _ col_index (App.Confirma _) =>
                 negb (Nat.eqb col_index 6)
             | _ => true
             end) eventos.

Lemma imc_vacia : imc_al_dia item_vacio.
Proof. exists ImcVacio. split; reflexivity. Qed.

(** X4.  As long as no edit of the IMC cell itself is confirmed, the IMC
    cell of every row holds what [calcular_imc] gives for the weight and
    the height the row holds now: empty when it gives nothing, else the
    text of the number. *)
Theorem imc_siempre_al_dia (eventos : list App.evento) :
  sin_editar_imc eventos = true ->
  exists self,
    App.ejecuta eventos App.__init__ = Retorna self /\
    Forall
      (fun it =>
         exists imc,
           calcular_imc (PyStr (Peso (values it)))
                        (PyStr (Estatura (values it))) = Retorna imc /\
           IMC (values it) = texto_imc imc)
      (App.tree self).
Proof.
  intros H.
  destruct (ejecuta_conserva imc_al_dia (fun col => col <> col_IMC) imc_vacia)
    with (eventos := eventos) (self := App.__init__) as (self & E & F & _).
  - intros padron_df it col texto it' Q P. now apply finalizar_edicion_imc.
  - unfold sin_editar_imc in H. rewrite forallb_forall in H.
    apply Forall_forall. intros e He. specialize (H e He).
    destruct e as [| fila_id col_index [texto|] |]; simpl; auto.
    intros col Ec ->. apply negb_true_iff, Nat.eqb_neq in H.
    do 7 (destruct col_index as [|col_index]; try discriminate Ec;
          try congruence).
    repeat (destruct col_index as [|col_index]; try discriminate Ec).
  - now apply filas_vacias_Forall, imc_vacia.
  - reflexivity.
  - exists self. split; [exact E | exact F].
Qed.

End Aplicacion.

(** A session: the roster is loaded, a patient is entered in the first
    row, an edit of the second row is cancelled, a clearing is declined. *)
Definition eventos_ejemplo : list App.evento :=
  [ App.CargarPadron (lit "padron.xlsx") padron_ejemplo;
    App.EditarCelda 0 0 (App.Confirma (lit " 456 "));
    App.EditarCelda 0 4 (App.Confirma (lit "70"));
    App.EditarCelda 0 5 (App.Confirma (lit "1,75"));
    App.EditarCelda 0 7 (App.Confirma (lit "Diabetes tipo 2"));
    App.EditarCelda 0 3 (App.Confirma (lit "120/80"));
    App.EditarCelda 1 4 App.Cancela;
    App.LimpiarTabla false ].

Lemma imc_siempre_al_dia_witness :
  exists self,
    App.ejecuta eventos_ejemplo App.__init__ = Retorna self /\
    Forall
      (fun it =>
         exists imc,
           calcular_imc (PyStr (Peso (values it)))
                        (PyStr (Estatura (values it))) = Retorna imc /\
           IMC (values it) = texto_imc imc)
      (App.tree self).
Proof. apply (imc_siempre_al_dia eventos_ejemplo). reflexivity. Defined.

(** The first row after the session. *)
Lemma eventos_ejemplo_fila :
  match App.ejecuta eventos_ejemplo App.__init__ with
  | Retorna self =>
      hd_error (App.tree self) =
      Some {| values :=
                {| DNI := lit "456"; Nombre := lit "Luis"; Beneficio := [];
                   Presion := lit "120/80 mmHg"; Peso := lit "70";
                   Estatura := lit "1,75"; IMC := lit "22.86";
                   Diagnostico := lit "Diabetes tipo 2"; Tratamiento := [];
                   Fecha := [] |};
              tags := [lit "tag_diabetes"] |}
  | Lanza _ => False
  end.
Proof. vm_compute. reflexivity. Qed.

(** An IMC typed by hand stays, whatever the weight and the height. *)
Lemma imc_editado_a_mano :
  match App.ejecuta
          [ App.EditarCelda 0 4 (App.Confirma (lit "70"));
            App.EditarCelda 0 5 (App.Confirma (lit "1.75"));
            App.EditarCelda 0 6 (App.Confirma (lit "30")) ]
          App.__init__ with
  | Retorna self => option_map (fun it => IMC (values it))
                               (hd_error (App.tree self)) = Some (lit "30")
  | Lanza _ => False
  end.
Proof. vm_compute. reflexivity. Qed.
(** ** The exports *)

Lemma nth_error_enumerate {A : Type} (l : list A) start k :
  nth_error (enumerate start l) k =
  option_map (fun x => (start + Z.of_nat k, x)) (nth_error l k).
Proof.
  revert start k. induction l as [|x l IH]; intros start [|k]; simpl;
    try reflexivity.
  - now rewrite Z.add_0_r.
  - rewrite IH. destruct (nth_error l k); simpl; [|reflexivity].
    do 2 f_equal. lia.
Qed.

Lemma enumerate_length {A : Type} (l : list A) start :
  List.length (enumerate start l) = List.length l.
Proof. revert start. induction l; intros; simpl; auto. Qed.

Lemma In_enumerate {A : Type} (l : list A) start i x :
  In (i, x) (enumerate start l) <->
  start <= i /\ nth_error l (Z.to_nat (i - start)) = Some x.
Proof.
  split.
  - intros H. apply In_nth_error in H as (k & H).
    rewrite nth_error_enumerate in H.
    destruct (nth_error l k) eqn:E; [|discriminate].
    injection H as <- <-. split; [lia|].
    now replace (Z.to_nat (start + Z.of_nat k - start)) with k by lia.
  - intros [Hi H]. apply (nth_error_In _ (Z.to_nat (i - start))).
    rewrite nth_error_enumerate, H. simpl. do 2 f_equal. lia.
Qed.

(** The cells of a row in the order of the columns. *)
Definition celdas (fila : Fila) : list pystr := map (fila_get fila) columnas.

(** The style command that colours the row [i] of the table of the PDF. *)
Definition fondo_de_fila (i : Z) (color : pystr) : comando_estilo :=
  {| comando := lit "BACKGROUND"; desde := (0, i); hasta := (-1, i);
     argumentos := [HexColor color] |}.

Section Exportaciones.
Context {U : Unicodedata}.

(** X6.  [exportar_pdf] stops without a document when reportlab is
    missing, else when no row has a DNI, else when no path is chosen.
    Otherwise the table of the document has the column names in its first
    row and under it one row of ten cells for each row with a DNI, in the
    order of the table; after the seven commands of the base style comes
    one background command for each of them, and the command for the row
    [k + 1] of the table of the document colours it with the colour of the
    category of the diagnosis and the treatment written in that same
    row. *)
Theorem exportar_pdf_documento (ruta : pystr) (tree : list Item) :
  let filas := obtener_datos_tabla tree in
  exportar_pdf false ruta tree = PdfSinReportlab /\
  (filas = [] -> exportar_pdf true ruta tree = PdfSinDatos) /\
  (filas <> [] -> ruta = [] -> exportar_pdf true ruta tree = PdfCancelado) /\
  (filas <> [] -> ruta <> [] ->
   exists datos estilo_tabla,
     exportar_pdf true ruta tree = PdfDocumento datos estilo_tabla /\
     nth_error datos 0 = Some columnas /\
     List.length datos = S (List.length filas) /\
     Forall (fun r => List.length r = 10%nat) datos /\
     List.length estilo_tabla = (7 + List.length filas)%nat /\
     forall k fila,
       nth_error filas k = Some fila ->
       nth_error datos (S k) = Some (celdas fila) /\
       nth_error estilo_tabla (7 + k) =
       Some (fondo_de_fila (Z.of_nat k + 1)
                           (obtener_color_categoria (categoria_de_fila fila)))).
Proof.
  intros filas. unfold exportar_pdf. cbn [negb]. fold filas.
  split; [reflexivity|]. split; [now intros ->|]. split.
  - intros N ->. now destruct filas.
  - intros N R. destruct filas as [|f0 fs] eqn:Ef; [congruence|].
    rewrite <- Ef in *. apply truthy_true in R. rewrite R. cbn [negb].
    eexists. eexists. split; [reflexivity|].
    split; [reflexivity|].
    split; [cbn [app List.length]; now rewrite length_map|].
    split.
    { constructor; [reflexivity|]. apply Forall_forall. intros r Hr.
      apply in_map_iff in Hr as (fila & <- & _). reflexivity. }
    split.
    { rewrite length_app, length_map, enumerate_length. reflexivity. }
    intros k fila Hk. split.
    + cbn [app nth_error]. rewrite nth_error_map, Hk. reflexivity.
    + rewrite nth_error_app2 by (cbn [List.length]; lia).
      cbn [List.length]. replace (7 + k - 7)%nat with k by lia.
      rewrite nth_error_map, nth_error_enumerate, Hk. cbn [option_map].
      unfold fondo_de_fila. now rewrite (Z.add_comm 1).
Qed.

(** X7.  [exportar_excel] stops without a file when no row has a DNI,
    else when no path is chosen.  Otherwise the rows with a DNI are
    written, and a format is set on the row [i] of the sheet exactly when
    the category of the row written there (the row [i - 1] under the
    header) is not [ninguno]; its background is the colour
    [obtener_color_categoria] gives to that category, the colour of the
    same row in the PDF. *)
Theorem exportar_excel_formatos (ruta : pystr) (tree : list Item) :
  let filas := obtener_datos_tabla tree in
  (filas = [] -> exportar_excel ruta tree = ExcelSinDatos) /\
  (filas <> [] -> ruta = [] -> exportar_excel ruta tree = ExcelCancelado) /\
  (filas <> [] -> ruta <> [] ->
   exists set_row,
     exportar_excel ruta tree = ExcelLibro filas set_row /\
     (forall i formato,
         In (i, formato) set_row <->
         exists fila,
           1 <= i /\ nth_error filas (Z.to_nat (i - 1)) = Some fila /\
           formato_de_categoria (categoria_de_fila fila) = Some formato) /\
     (forall fila,
         match formato_de_categoria (categoria_de_fila fila) with
         | Some formato =>
             categoria_de_fila fila <> lit "ninguno" /\
             bg_color formato =
             obtener_color_categoria (categoria_de_fila fila)
         | None =>
             categoria_de_fila fila = lit "ninguno" /\
             obtener_color_categoria (categoria_de_fila fila) = COLOR_BLANCO
         end)).
Proof.
  intros filas. unfold exportar_excel. fold filas.
  split; [now intros ->|]. split.
  - intros N ->. now destruct filas.
  - intros N R. destruct filas as [|f0 fs] eqn:Ef; [congruence|].
    rewrite <- Ef in *. apply truthy_true in R. rewrite R. cbn [negb].
    eexists. split; [reflexivity|]. split.
    + intros i formato. rewrite in_flat_map. split.
      * intros ([j fila] & Hin & Hf). apply In_enumerate in Hin as [Hj Hn].
        destruct (formato_de_categoria (categoria_de_fila fila)) eqn:F;
          [|destruct Hf].
        destruct Hf as [[= <- <-] | []]. exists fila. auto.
      * intros (fila & Hi & Hn & F). exists (i, fila). split.
        -- apply In_enumerate. auto.
        -- rewrite F. now left.
    + intros fila. unfold categoria_de_fila.
      pose proof (clasificar_paciente_categorias
                    (PyStr (fila_get fila col_Diagnostico))
                    (PyStr (fila_get fila col_Tratamiento))) as H.
      unfold categorias in H. simpl in H.
      destruct H as [<- | [<- | [<- | [<- | [<- | []]]]]];
        vm_compute; split; congruence.
Qed.

End Exportaciones.

(** A table with two patients and an empty row between them. *)
Definition tabla_ejemplo : list Item :=
  [ tree_set (tree_set item_vacio col_DNI (lit "111"))
             col_Diagnostico (lit "Diabetes");
    item_vacio;
    tree_set (tree_set item_vacio col_DNI (lit "222"))
             col_Tratamiento (lit "Enalapril") ].

Lemma exportar_pdf_documento_witness :
  exists datos estilo_tabla,
    exportar_pdf true (lit "salida.pdf") tabla_ejemplo =
    PdfDocumento datos estilo_tabla /\
    List.length datos = 3%nat /\
    nth_error estilo_tabla 7 = Some (fondo_de_fila 1 COLOR_VIOLETA) /\
    nth_error estilo_tabla 8 = Some (fondo_de_fila 2 COLOR_CELESTE).
Proof.
  destruct (exportar_pdf_documento (lit "salida.pdf") tabla_ejemplo)
    as (_ & _ & _ & H).
  destruct H as (datos & estilo_tabla & E & _ & L & _ & _ & K);
    [vm_compute; discriminate | vm_compute; discriminate |].
  exists datos, estilo_tabla. split; [exact E|]. split; [exact L|].
  split.
  - apply (K 0%nat
             (fila_recortada
                (values (tree_set (tree_set item_vacio col_DNI (lit "111"))
                                  col_Diagnostico (lit "Diabetes"))))).
    vm_compute. reflexivity.
  - apply (K 1%nat
             (fila_recortada
                (values (tree_set (tree_set item_vacio col_DNI (lit "222"))
                                  col_Tratamiento (lit "Enalapril"))))).
    vm_compute. reflexivity.
Defined.

Lemma exportar_excel_formatos_witness :
  exists set_row,
    exportar_excel (lit "salida.xlsx") tabla_ejemplo =
    ExcelLibro (obtener_datos_tabla tabla_ejemplo) set_row /\
    In (2, fmt_hta) set_row.
Proof.
  destruct (exportar_excel_formatos (lit "salida.xlsx") tabla_ejemplo)
    as (_ & _ & H).
  destruct H as (set_row & E & K & _);
    [vm_compute; discriminate | vm_compute; discriminate |].
  exists set_row. split; [exact E|].
  apply K.
  exists (fila_recortada
            (values (tree_set (tree_set item_vacio col_DNI (lit "222"))
                              col_Tratamiento (lit "Enalapril")))).
  split; [lia|]. split; vm_compute; reflexivity.
Defined.

(** The documents of the example. *)
Lemma exportar_ejemplos :
  exportar_excel (lit "salida.xlsx") tabla_ejemplo =
  ExcelLibro (obtener_datos_tabla tabla_ejemplo)
             [(1, fmt_diabetes); (2, fmt_hta)] /\
  exportar_excel [] tabla_ejemplo = ExcelCancelado /\
  exportar_pdf true (lit "salida.pdf") [item_vacio] = PdfSinDatos /\
  exportar_pdf false (lit "salida.pdf") tabla_ejemplo = PdfSinReportlab.
Proof. repeat split; vm_compute; reflexivity. Qed.
(** ** The table and what is exported of it *)

Section Pantalla.
Context {U : Unicodedata} {T : Tk}.

(** The blood pressure is empty or names its unit. *)
Definition presion_con_mmhg (it : Item) : Prop :=
  Presion (values it) = [] \/
  contiene (lit "mmhg") (normaliza (PyStr (Presion (values it)))) = true.

Lemma finalizar_edicion_presion_mmhg padron_df it col texto it' :
  presion_con_mmhg it ->
  App.finalizar_edicion padron_df it col texto = Retorna it' ->
  presion_con_mmhg it'.
Proof.
  unfold App.finalizar_edicion, presion_con_mmhg. cbv zeta. intros H.
  pose proof (strip_idem texto) as V.
  destruct (columna_casos col) as [-> | [-> | [-> | [-> | [-> | [-> | N]]]]]].
  - rewrite post_edicion_dni. intros [= <-]. cbv zeta.
    destruct (truthy _); unfold tree_set, fila_set; compara_columnas;
      cbn [values Presion]; exact H.
  - rewrite post_edicion_presion. intros [= <-]. cbv zeta.
    unfold tree_set at 1 2. unfold fila_set at 1 2. compara_columnas.
    cbn [values Presion]. rewrite V.
    destruct (falta_unidad (strip texto)) eqn:F;
      unfold tree_set, fila_set; compara_columnas; cbn [values Presion].
    + right. unfold falta_unidad in F. apply andb_true_iff in F as [F _].
      apply truthy_true in F.
      apply (con_unidad (strip texto) (strip_recortada _) F).
    + unfold falta_unidad in F. apply andb_false_iff in F as [F | F].
      * left. now apply truthy_false.
      * right. now apply negb_false_iff.
  - rewrite post_edicion_peso_estatura by auto.
    destruct (calcular_imc _ _); cbn [bind]; intros [= <-].
    unfold con_imc, tree_set, fila_set; compara_columnas;
      cbn [values Presion]; exact H.
  - rewrite post_edicion_peso_estatura by auto.
    destruct (calcular_imc _ _); cbn [bind]; intros [= <-].
    unfold con_imc, tree_set, fila_set; compara_columnas;
      cbn [values Presion]; exact H.
  - rewrite post_edicion_color by auto. intros [= <-]. exact H.
  - rewrite post_edicion_color by auto. intros [= <-]. exact H.
  - rewrite post_edicion_otra_columna by exact N. intros [= <-].
    assert (E1 : PyStr.eqb col col_Presion = false)
      by (apply eqb_neq; intros ->; apply N; simpl; tauto).
    unfold tree_set, fila_set. cbn [values Presion].
    rewrite E1. exact H.
Qed.

(** What holds of every row of every state reached. *)
Definition fila_en_regla (it : Item) : Prop :=
  etiqueta_coherente it /\ celdas_recortadas it /\ presion_con_mmhg it.

Lemma ejecuta_en_regla eventos :
  exists self,
    App.ejecuta eventos App.__init__ = Retorna self /\
    Forall fila_en_regla (App.tree self).
Proof.
  destruct (ejecuta_conserva_siempre fila_en_regla) with (eventos := eventos)
    as (self & E & H & _).
  - split; [exact etiqueta_vacia|]. split; [exact recortadas_vacia|].
    now left.
  - intros padron_df it col texto it' (H1 & H2 & H3) E. split; [|split].
    + eapply finalizar_edicion_etiqueta; eauto.
    + eapply finalizar_edicion_recortadas; eauto.
    + eapply finalizar_edicion_presion_mmhg; eauto.
  - eauto.
Qed.

(** The category of the row as it is exported is that of the row of the
    table, once the cells are trimmed. *)
Lemma categoria_de_fila_recortada it :
  celdas_recortadas it ->
  categoria_de_fila (fila_recortada (values it)) =
  clasificar_paciente (PyStr (Diagnostico (values it)))
                      (PyStr (Tratamiento (values it))).
Proof.
  intros (_ & _ & _ & _ & H5 & H6 & _). unfold categoria_de_fila.
  change (fila_get (fila_recortada (values it)) col_Diagnostico)
    with (strip (Diagnostico (values it))).
  change (fila_get (fila_recortada (values it)) col_Tratamiento)
    with (strip (Tratamiento (values it))).
  now rewrite H5, H6.
Qed.

Lemma formato_y_color categoria :
  In categoria categorias ->
  match formato_de_categoria categoria with
  | Some formato => bg_color formato
  | None => COLOR_BLANCO
  end = obtener_color_categoria categoria.
Proof.
  unfold categorias. simpl.
  intros [<- | [<- | [<- | [<- | [<- | []]]]]]; reflexivity.
Qed.

(** X5.  In every state reached, a row is exported with the cells the
    table shows for DNI, diagnosis and treatment, and the background the
    table shows for the row is the colour [exportar_pdf] gives to it and
    the background of the format [exportar_excel] sets on it, white
    standing for no format. *)
Theorem colores_exportados_como_en_pantalla (eventos : list App.evento) :
  exists self,
    App.ejecuta eventos App.__init__ = Retorna self /\
    Forall
      (fun it =>
         let fila := fila_recortada (values it) in
         fila_get fila col_DNI = DNI (values it) /\
         fila_get fila col_Diagnostico = Diagnostico (values it) /\
         fila_get fila col_Tratamiento = Tratamiento (values it) /\
         fondo_en_pantalla it =
         Some (obtener_color_categoria (categoria_de_fila fila)) /\
         fondo_en_pantalla it =
         Some (match formato_de_categoria (categoria_de_fila fila) with
               | Some formato => bg_color formato
               | None => COLOR_BLANCO
               end))
      (App.tree self).
Proof.
  destruct (ejecuta_en_regla eventos) as (self & E & H).
  exists self. split; [exact E|].
  revert H. apply Forall_impl. intros it (H1 & H2 & _). cbv zeta.
  pose proof H2 as (D1 & _ & _ & _ & D5 & D6 & _).
  split; [exact D1|]. split; [exact D5|]. split; [exact D6|].
  rewrite formato_y_color by apply clasificar_paciente_categorias.
  rewrite categoria_de_fila_recortada by exact H2.
  split; now apply fondo_de_etiqueta.
Qed.

(** X10.  In every state reached the blood pressure of every row is
    empty or names its unit: the normal form of the cell contains
    "mmhg". *)
Theorem presion_siempre_con_unidad (eventos : list App.evento) :
  exists self,
    App.ejecuta eventos App.__init__ = Retorna self /\
    Forall
      (fun it =>
         Presion (values it) = [] \/
         contiene (lit "mmhg") (normaliza (PyStr (Presion (values it)))) = true)
      (App.tree self).
Proof.
  destruct (ejecuta_en_regla eventos) as (self & E & H).
  exists self. split; [exact E|].
  revert H. apply Forall_impl. now intros it (_ & _ & H).
Qed.

Lemma tree_set_mismo it col :
  tree_set it col (fila_get (values it) col) = it.
Proof.
  destruct it as [[d n b pr pe es im di tr fe] tg].
  unfold tree_set, fila_set, fila_get.
  cbn [values tags DNI Nombre Beneficio Presion Peso Estatura IMC Diagnostico
       Tratamiento Fecha].
  f_equal.
  destruct (PyStr.eqb col col_DNI) eqn:E1;
    [apply eqb_eq in E1 as ->; reflexivity|].
  destruct (PyStr.eqb col col_Nombre) eqn:E2;
    [apply eqb_eq in E2 as ->; reflexivity|].
  destruct (PyStr.eqb col col_Beneficio) eqn:E3;
    [apply eqb_eq in E3 as ->; reflexivity|].
  destruct (PyStr.eqb col col_Presion) eqn:E4;
    [apply eqb_eq in E4 as ->; reflexivity|].
  destruct (PyStr.eqb col col_Peso) eqn:E5;
    [apply eqb_eq in E5 as ->; reflexivity|].
  destruct (PyStr.eqb col col_Estatura) eqn:E6;
    [apply eqb_eq in E6 as ->; reflexivity|].
  destruct (PyStr.eqb col col_IMC) eqn:E7;
    [apply eqb_eq in E7 as ->; reflexivity|].
  destruct (PyStr.eqb col col_Diagnostico) eqn:E8;
    [apply eqb_eq in E8 as ->; reflexivity|].
  destruct (PyStr.eqb col col_Tratamiento) eqn:E9;
    [apply eqb_eq in E9 as ->; reflexivity|].
  destruct (PyStr.eqb col col_Fecha) eqn:E10;
    [apply eqb_eq in E10 as ->; reflexivity|].
  reflexivity.
Qed.

Lemma item_tags_mismo it : item_tags it (tags it) = it.
Proof. now destruct it. Qed.

(** X11.  In every state reached, opening the editor of the blood
    pressure, the diagnosis, the treatment or the date of a row and
    closing it with the text it shows leaves the row as it is, whatever
    the roster: no unit is added twice, no cell and no tag changes. *)
Theorem edicion_sin_cambios (eventos : list App.evento) :
  exists self,
    App.ejecuta eventos App.__init__ = Retorna self /\
    Forall
      (fun it =>
         forall padron_df,
           App.finalizar_edicion padron_df it col_Presion
             (fila_get (values it) col_Presion) = Retorna it /\
           App.finalizar_edicion padron_df it col_Diagnostico
             (fila_get (values it) col_Diagnostico) = Retorna it /\
           App.finalizar_edicion padron_df it col_Tratamiento
             (fila_get (values it) col_Tratamiento) = Retorna it /\
           App.finalizar_edicion padron_df it col_Fecha
             (fila_get (values it) col_Fecha) = Retorna it)
      (App.tree self).
Proof.
  destruct (ejecuta_en_regla eventos) as (self & E & H).
  exists self. split; [exact E|].
  revert H. apply Forall_impl.
  intros it (H1 & (_ & D2 & _ & _ & D5 & D6 & D7) & H3) padron_df.
  unfold App.finalizar_edicion. cbv zeta.
  change (fila_get (values it) col_Presion) with (Presion (values it)).
  change (fila_get (values it) col_Diagnostico) with (Diagnostico (values it)).
  change (fila_get (values it) col_Tratamiento) with (Tratamiento (values it)).
  change (fila_get (values it) col_Fecha) with (Fecha (values it)).
  rewrite D2, D5, D6, D7.
  change (Presion (values it)) with (fila_get (values it) col_Presion) at 1.
  change (Diagnostico (values it))
    with (fila_get (values it) col_Diagnostico) at 1.
  change (Tratamiento (values it))
    with (fila_get (values it) col_Tratamiento) at 1.
  change (Fecha (values it)) with (fila_get (values it) col_Fecha) at 1.
  rewrite !tree_set_mismo.
  split; [|split; [|split]].
  - rewrite post_edicion_presion. cbv zeta. rewrite D2.
    unfold falta_unidad.
    destruct H3 as [-> | ->];
      [reflexivity | cbn [negb]; now rewrite andb_false_r].
  - rewrite post_edicion_color by auto. unfold actualizar_color_fila.
    change (fila_get (values it) col_Diagnostico)
      with (Diagnostico (values it)).
    change (fila_get (values it) col_Tratamiento)
      with (Tratamiento (values it)).
    rewrite <- H1. now rewrite item_tags_mismo.
  - rewrite post_edicion_color by auto. unfold actualizar_color_fila.
    change (fila_get (values it) col_Diagnostico)
      with (Diagnostico (values it)).
    change (fila_get (values it) col_Tratamiento)
      with (Tratamiento (values it)).
    rewrite <- H1. now rewrite item_tags_mismo.
  - apply post_edicion_otra_columna. intros H. vm_compute in H.
    repeat (destruct H as [H | H]; [discriminate H|]). exact H.
Qed.

(** X8.  Confirming an edit of the DNI writes the trimmed text in the
    DNI cell and leaves every cell but the name and the benefit, and the
    tag, as they were.  With a blank DNI the name and the benefit stay
    too; with any other they are replaced by what [buscar_en_padron]
    returns, so both are emptied when the roster has no record of the DNI,
    whatever they held. *)
Theorem edicion_dni_autocompleta (padron_df : list RegistroPadron)
        (it : Item) (texto : pystr) :
  let dni := strip texto in
  exists it',
    App.finalizar_edicion padron_df it col_DNI texto = Retorna it' /\
    DNI (values it') = dni /\
    ( Presion (values it') = Presion (values it) /\
      Peso (values it') = Peso (values it) /\
      Estatura (values it') = Estatura (values it) /\
      IMC (values it') = IMC (values it) /\
      Diagnostico (values it') = Diagnostico (values it) /\
      Tratamiento (values it') = Tratamiento (values it) /\
      Fecha (values it') = Fecha (values it) /\
      tags it' = tags it ) /\
    (dni = [] ->
     Nombre (values it') = Nombre (values it) /\
     Beneficio (values it') = Beneficio (values it)) /\
    (dni <> [] ->
     (Nombre (values it'), Beneficio (values it')) =
     buscar_en_padron padron_df dni) /\
    (dni <> [] ->
     (forall r, In r padron_df -> dni_de r <> dni) ->
     Nombre (values it') = [] /\ Beneficio (values it') = []).
Proof.
  intros dni. unfold App.finalizar_edicion. cbv zeta.
  rewrite post_edicion_dni. cbv zeta.
  assert (Sd : strip dni = dni) by apply strip_idem.
  change (strip (DNI (values (tree_set it col_DNI (strip texto)))))
    with (strip dni).
  rewrite Sd. fold dni.
  eexists. split; [reflexivity|].
  assert (B : (forall r, In r padron_df -> dni_de r <> dni) ->
              buscar_en_padron padron_df dni = ([], [])).
  { intros H. unfold buscar_en_padron.
    destruct padron_df as [|r0 l]; [reflexivity|].
    rewrite filter_ninguno; [reflexivity|].
    intros x Hx. apply eqb_neq. now apply H. }
  destruct (truthy dni) eqn:Td.
  - apply truthy_true in Td.
    unfold tree_set, fila_set; compara_columnas.
    cbn [values tags DNI Nombre Beneficio Presion Peso Estatura IMC
         Diagnostico Tratamiento Fecha].
    split; [reflexivity|]. split; [repeat split|].
    split; [congruence|]. split.
    + intros _. now destruct (buscar_en_padron padron_df dni).
    + intros _ H. rewrite (B H). auto.
  - apply truthy_false in Td.
    unfold tree_set, fila_set; compara_columnas.
    cbn [values tags DNI Nombre Beneficio Presion Peso Estatura IMC
         Diagnostico Tratamiento Fecha].
    split; [reflexivity|]. split; [repeat split|].
    split; [auto|]. split; congruence.
Qed.

End Pantalla.

(** A name typed by hand is emptied by a DNI the roster does not have. *)
Lemma edicion_dni_autocompleta_witness :
  exists it',
    App.finalizar_edicion padron_ejemplo
      (tree_set item_vacio col_Nombre (lit "Eva")) col_DNI (lit " 999 ") =
    Retorna it' /\
    DNI (values it') = lit "999" /\
    Nombre (values it') = [] /\ Beneficio (values it') = [].
Proof.
  destruct (edicion_dni_autocompleta padron_ejemplo
              (tree_set item_vacio col_Nombre (lit "Eva")) (lit " 999 "))
    as (it' & E & D & _ & _ & _ & H).
  exists it'. split; [exact E|]. split; [exact D|].
  apply H.
  - vm_compute. discriminate.
  - intros r [<- | [<- | [<- | []]]]; vm_compute; discriminate.
Defined.
(** ** [obtener_datos_tabla] and the empty rows *)

Lemma fila_recortada_idem f : fila_recortada (fila_recortada f) = fila_recortada f.
Proof.
  unfold fila_recortada.
  cbn [DNI Nombre Beneficio Presion Peso Estatura IMC Diagnostico Tratamiento
       Fecha].
  now rewrite !strip_idem.
Qed.

Lemma obtener_datos_tabla_app a b :
  obtener_datos_tabla (a ++ b) = obtener_datos_tabla a ++ obtener_datos_tabla b.
Proof. unfold obtener_datos_tabla. now rewrite map_app, filter_app. Qed.

Lemma obtener_datos_tabla_In tree fila :
  In fila (obtener_datos_tabla tree) <->
  exists it,
    In it tree /\ strip (DNI (values it)) <> [] /\
    fila = fila_recortada (values it).
Proof.
  unfold obtener_datos_tabla. rewrite filter_In, in_map_iff. split.
  - intros ((it & <- & Hin) & Ht). exists it. split; [exact Hin|].
    split; [|reflexivity]. now apply truthy_true in Ht.
  - intros (it & Hin & Hd & ->). split; [now exists it|].
    now apply truthy_true.
Qed.

(** X12.  [obtener_datos_tabla] returns, in the order of the table, the
    rows whose DNI is not blank, every cell trimmed: each row returned has
    a DNI and cells without spaces at their ends, a row of the table whose
    DNI is empty or only spaces is left out, and nothing is returned
    exactly when every row is such a row. *)
Theorem obtener_datos_tabla_filas (tree : list Item) :
  let filas := obtener_datos_tabla tree in
  Forall (fun fila => DNI fila <> [] /\ fila_recortada fila = fila) filas /\
  (forall fila,
      In fila filas <->
      exists it,
        In it tree /\ strip (DNI (values it)) <> [] /\
        fila = fila_recortada (values it)) /\
  (forall a b,
      obtener_datos_tabla (a ++ b) =
      obtener_datos_tabla a ++ obtener_datos_tabla b) /\
  (List.length filas <= List.length tree)%nat /\
  (filas = [] <-> Forall (fun it => strip (DNI (values it)) = []) tree).
Proof.
  cbv zeta. split; [|split; [|split; [|split]]].
  - apply Forall_forall. intros fila H.
    apply obtener_datos_tabla_In in H as (it & _ & Hd & ->).
    split; [exact Hd | apply fila_recortada_idem].
  - intros fila. apply obtener_datos_tabla_In.
  - exact obtener_datos_tabla_app.
  - unfold obtener_datos_tabla.
    rewrite <- (length_map (fun it => fila_recortada (values it)) tree).
    apply filter_length_le.
  - apply obtener_datos_tabla_vacia.
Qed.

Lemma obtener_datos_tabla_filas_witness :
  obtener_datos_tabla
    [ tree_set item_vacio col_DNI (lit "   ");
      tree_set (tree_set item_vacio col_DNI (lit " 123 "))
               col_Nombre (lit " Ana  ");
      item_vacio ] =
  [ fila_recortada
      (values (tree_set (tree_set item_vacio col_DNI (lit "123"))
                        col_Nombre (lit "Ana"))) ].
Proof.
  pose proof (obtener_datos_tabla_filas [item_vacio]) as (_ & _ & H & _).
  change (obtener_datos_tabla
            [ tree_set item_vacio col_DNI (lit "   ");
              tree_set (tree_set item_vacio col_DNI (lit " 123 "))
                       col_Nombre (lit " Ana  ");
              item_vacio ])
    with (obtener_datos_tabla
            ([ tree_set item_vacio col_DNI (lit "   ") ] ++
             [ tree_set (tree_set item_vacio col_DNI (lit " 123 "))
                        col_Nombre (lit " Ana  ");
               item_vacio ])).
  rewrite (H [ tree_set item_vacio col_DNI (lit "   ") ]
             [ tree_set (tree_set item_vacio col_DNI (lit " 123 "))
                        col_Nombre (lit " Ana  ");
               item_vacio ]).
  vm_compute. reflexivity.
Defined.

Section FilasVacias.
Context {U : Unicodedata} {I : Isoformat}.

Lemma obtener_datos_tabla_vacias n tree :
  obtener_datos_tabla (App._poblar_filas_vacias n tree) =
  obtener_datos_tabla tree.
Proof.
  unfold App._poblar_filas_vacias. rewrite obtener_datos_tabla_app.
  replace (obtener_datos_tabla (repeat item_vacio n)) with (@nil Fila);
    [apply app_nil_r|].
  symmetry. apply obtener_datos_tabla_vacia.
  induction n; simpl; constructor; auto.
Qed.

(** X9.  The empty rows [_poblar_filas_vacias] adds are never among the
    rows of [obtener_datos_tabla]: the quarterly summary and both exports
    are what they are without them.  So right after a confirmed
    [limpiar_tabla], which keeps the roster, all three report that there
    are no data; declined, it changes nothing. *)
Theorem filas_vacias_no_cuentan (n : nat) (tree : list Item) (ruta : pystr)
        (disponible : bool) (self : App.estado) :
  obtener_datos_tabla (App._poblar_filas_vacias n tree) =
  obtener_datos_tabla tree /\
  mostrar_resumen_trimestral (App._poblar_filas_vacias n tree) =
  mostrar_resumen_trimestral tree /\
  exportar_excel ruta (App._poblar_filas_vacias n tree) =
  exportar_excel ruta tree /\
  exportar_pdf disponible ruta (App._poblar_filas_vacias n tree) =
  exportar_pdf disponible ruta tree /\
  App.limpiar_tabla false self = self /\
  App.padron_df (App.limpiar_tabla true self) = App.padron_df self /\
  List.length (App.tree (App.limpiar_tabla true self)) = 30%nat /\
  mostrar_resumen_trimestral (App.tree (App.limpiar_tabla true self)) =
  SinDatos /\
  exportar_excel ruta (App.tree (App.limpiar_tabla true self)) =
  ExcelSinDatos /\
  exportar_pdf true ruta (App.tree (App.limpiar_tabla true self)) =
  PdfSinDatos.
Proof.
  pose proof (obtener_datos_tabla_vacias n tree) as E.
  split; [exact E|].
  unfold mostrar_resumen_trimestral, exportar_excel, exportar_pdf.
  cbv zeta. rewrite E.
  repeat split.
Qed.

End FilasVacias.
(** ** The quarterly summary counts every attention once *)

From Stdlib Require Import Sorting.Permutation.

(** The attentions of all the rows of a summary. *)
Definition total_atenciones (resumen : list (registro * Z)) : Z :=
  fold_right (fun p a => snd p + a) 0 resumen.

Lemma total_atenciones_cons k n resumen :
  total_atenciones ((k, n) :: resumen) = n + total_atenciones resumen.
Proof. reflexivity. Qed.

Lemma cuenta_total k grupos :
  total_atenciones (cuenta k grupos) = total_atenciones grupos + 1.
Proof.
  induction grupos as [|[k' n] t IH]; [reflexivity|].
  cbn [cuenta]. destruct (compara_registro k k');
    rewrite !total_atenciones_cons, ?IH; lia.
Qed.

Lemma cuenta_length k grupos :
  (List.length (cuenta k grupos) <= S (List.length grupos))%nat.
Proof.
  induction grupos as [|[k' n] t IH]; simpl; [lia|].
  destruct (compara_registro k k'); simpl; lia.
Qed.

Lemma groupby_size_total datos :
  total_atenciones (groupby_size datos) = Z.of_nat (List.length datos).
Proof.
  unfold groupby_size.
  assert (H : forall grupos,
             total_atenciones (fold_left (fun g k => cuenta k g) datos grupos) =
             total_atenciones grupos + Z.of_nat (List.length datos)).
  { induction datos as [|k datos IH]; intros grupos; simpl; [lia|].
    rewrite IH, cuenta_total. lia. }
  now rewrite H.
Qed.

Lemma groupby_size_length datos :
  (List.length (groupby_size datos) <= List.length datos)%nat.
Proof.
  unfold groupby_size.
  assert (H : forall grupos,
             (List.length (fold_left (fun g k => cuenta k g) datos grupos) <=
              List.length grupos + List.length datos)%nat).
  { induction datos as [|k datos IH]; intros grupos; simpl; [lia|].
    specialize (IH (cuenta k grupos)).
    pose proof (cuenta_length k grupos). lia. }
  apply (H []).
Qed.

Lemma compara_registro_gt a b :
  compara_registro a b = Gt -> compara_registro b a = Lt.
Proof. intros H. now rewrite compara_registro_antisym, H. Qed.

Lemma compara_registro_lt a b :
  compara_registro a b = Lt -> compara_registro b a = Gt.
Proof. intros H. now rewrite compara_registro_antisym, H. Qed.

(** Counting two entries in one order or the other gives the same
    groups. *)
Lemma cuenta_conmuta a b grupos :
  cuenta a (cuenta b grupos) = cuenta b (cuenta a grupos).
Proof.
  induction grupos as [|[k n] t IH].
  - simpl. destruct (compara_registro a b) eqn:E.
    + apply compara_registro_eq in E as ->.
      now rewrite compara_registro_refl.
    + now rewrite (compara_registro_lt _ _ E).
    + now rewrite (compara_registro_gt _ _ E).
  - cbn [cuenta].
    destruct (compara_registro a k) eqn:Ea;
      destruct (compara_registro b k) eqn:Eb; cbn [cuenta].
    + apply compara_registro_eq in Ea as ->.
      apply compara_registro_eq in Eb as ->.
      now rewrite compara_registro_refl.
    + apply compara_registro_eq in Ea as ->.
      rewrite (compara_registro_lt _ _ Eb), Eb.
      cbn [cuenta]. now rewrite compara_registro_refl.
    + rewrite Ea, Eb. reflexivity.
    + apply compara_registro_eq in Eb as ->.
      rewrite (compara_registro_lt _ _ Ea), Ea.
      cbn [cuenta]. now rewrite compara_registro_refl.
    + destruct (compara_registro a b) eqn:E.
      * apply compara_registro_eq in E as ->.
        now rewrite compara_registro_refl.
      * rewrite (compara_registro_lt _ _ E). cbn [cuenta]. now rewrite Eb.
      * rewrite (compara_registro_gt _ _ E). cbn [cuenta]. now rewrite Ea.
    + pose proof (compara_registro_trans a k b Ea
                    (compara_registro_gt _ _ Eb)) as E.
      rewrite Ea, (compara_registro_lt _ _ E). cbn [cuenta]. now rewrite Eb.
    + rewrite Ea, Eb. reflexivity.
    + pose proof (compara_registro_trans b k a Eb
                    (compara_registro_gt _ _ Ea)) as E.
      rewrite Eb, (compara_registro_lt _ _ E). cbn [cuenta]. now rewrite Ea.
    + rewrite Ea, Eb. now rewrite IH.
Qed.

Lemma groupby_size_Permutation datos datos' :
  Permutation datos datos' -> groupby_size datos = groupby_size datos'.
Proof.
  unfold groupby_size. intros H. generalize (@nil (registro * Z)).
  induction H as [| x l l' H IH | x y l | l l' l'' H1 IH1 H2 IH2];
    intros grupos; simpl.
  - reflexivity.
  - apply IH.
  - now rewrite cuenta_conmuta.
  - now rewrite IH1.
Qed.

Lemma filter_Permutation {A : Type} (p : A -> bool) (l l' : list A) :
  Permutation l l' -> Permutation (filter p l) (filter p l').
Proof.
  induction 1 as [| x l l' H IH | x y l | l l' l'' H1 IH1 H2 IH2]; simpl.
  - constructor.
  - destruct (p x); [now constructor | exact IH].
  - destruct (p x), (p y); try apply Permutation_refl. constructor.
  - now apply (Permutation_trans IH1).
Qed.

Section Atenciones.
Context {U : Unicodedata} {I : Isoformat}.

(** The row gives an entry to the summary: it has a DNI and a date that
    is read. *)
Definition con_fecha_legible (fila : Fila) : bool :=
  truthy (DNI fila) && truthy (Fecha fila) &&
  match interpreta_fecha (Fecha fila) with
  | Some _ => true
  | None => false
  end.

Lemma datos_resumen_length filas :
  List.length (datos_resumen filas) =
  List.length (filter con_fecha_legible filas).
Proof.
  unfold datos_resumen.
  induction filas as [|fila filas IH]; [reflexivity|].
  cbn [flat_map filter]. rewrite length_app, IH.
  unfold dato_resumen, con_fecha_legible.
  change (fila_get fila col_DNI) with (DNI fila).
  change (fila_get fila col_Fecha) with (Fecha fila).
  destruct (truthy (DNI fila)), (truthy (Fecha fila)),
    (interpreta_fecha (Fecha fila)); reflexivity.
Qed.

(** X13.  [mostrar_resumen_trimestral] says "Sin datos" exactly when
    there are no rows and "Sin fechas validas" exactly when there are rows
    and none has both a DNI and a date that is read.  Otherwise the
    attentions of the rows of the summary add up to the number of rows
    that have both: every such row is counted once, in one group; every
    group has at least one attention, and there are no more groups than
    such rows. *)
Theorem resumen_cuenta_cada_atencion (filas : list Fila) :
  match resumen_de_filas filas with
  | SinDatos => filas = []
  | SinFechasValidas => filas <> [] /\ filter con_fecha_legible filas = []
  | VentanaResumen resumen =>
      filter con_fecha_legible filas <> [] /\
      total_atenciones resumen =
      Z.of_nat (List.length (filter con_fecha_legible filas)) /\
      Forall (fun p => 1 <= snd p) resumen /\
      (1 <= List.length resumen <=
       List.length (filter con_fecha_legible filas))%nat
  end.
Proof.
  unfold resumen_de_filas. destruct filas as [|f0 fs] eqn:Ef; [reflexivity|].
  rewrite <- Ef. pose proof (datos_resumen_length filas) as L.
  destruct (datos_resumen filas) as [|d ds] eqn:Ed.
  - split; [congruence|]. now apply length_zero_iff_nil.
  - rewrite <- Ed in *.
    pose proof (groupby_size_total (datos_resumen filas)) as Tt.
    pose proof (groupby_size_length (datos_resumen filas)) as Ln.
    destruct (groupby_size_grupos (datos_resumen filas)) as (_ & Hp & _).
    rewrite L in Tt, Ln.
    assert (N : filter con_fecha_legible filas <> []).
    { intros V. rewrite V in L. rewrite Ed in L. discriminate. }
    split; [exact N|]. split; [exact Tt|]. split.
    + revert Hp. apply Forall_impl. intros p. lia.
    + split; [|exact Ln].
      destruct (groupby_size (datos_resumen filas)) eqn:G; [|simpl; lia].
      simpl in Tt.
      destruct (filter con_fecha_legible filas); [congruence | discriminate].
Qed.

(** X14.  The summary does not depend on the order of the rows of the
    table: two tables with the same rows, in any order, give the same
    notice or the same rows of the summary, in the same order. *)
Theorem resumen_sin_orden (tree tree' : list Item) :
  Permutation tree tree' ->
  mostrar_resumen_trimestral tree = mostrar_resumen_trimestral tree'.
Proof.
  intros H. unfold mostrar_resumen_trimestral. cbv zeta.
  assert (P : Permutation (obtener_datos_tabla tree)
                          (obtener_datos_tabla tree')).
  { unfold obtener_datos_tabla. now apply filter_Permutation, Permutation_map. }
  assert (D : Permutation (datos_resumen (obtener_datos_tabla tree))
                          (datos_resumen (obtener_datos_tabla tree'))).
  { unfold datos_resumen. now apply Permutation_flat_map. }
  unfold resumen_de_filas.
  destruct (obtener_datos_tabla tree) as [|f fs] eqn:E1;
    destruct (obtener_datos_tabla tree') as [|f' fs'] eqn:E2.
  - reflexivity.
  - now apply Permutation_nil in P.
  - now apply Permutation_sym, Permutation_nil in P.
  - destruct (datos_resumen (f :: fs)) as [|d ds] eqn:E3;
      destruct (datos_resumen (f' :: fs')) as [|d' ds'] eqn:E4.
    + reflexivity.
    + now apply Permutation_nil in D.
    + now apply Permutation_sym, Permutation_nil in D.
    + f_equal. now apply groupby_size_Permutation.
Qed.

End Atenciones.

Lemma resumen_sin_orden_witness :
  mostrar_resumen_trimestral
    [ atencion item_vacio (lit "222") (lit "2024-05-02");
      atencion item_vacio (lit "111") (lit "31/12/2023");
      item_vacio ] =
  mostrar_resumen_trimestral
    [ item_vacio;
      atencion item_vacio (lit "111") (lit "31/12/2023");
      atencion item_vacio (lit "222") (lit "2024-05-02") ].
Proof.
  apply resumen_sin_orden.
  apply (Permutation_trans
           (l' := [ atencion item_vacio (lit "111") (lit "31/12/2023");
                    atencion item_vacio (lit "222") (lit "2024-05-02");
                    item_vacio ])).
  - apply perm_swap.
  - apply (Permutation_trans
             (l' := [ atencion item_vacio (lit "111") (lit "31/12/2023");
                      item_vacio;
                      atencion item_vacio (lit "222") (lit "2024-05-02") ])).
    + apply perm_skip, perm_swap.
    + apply perm_swap.
Defined.
(** ** What the window of the summary shows *)

Lemma veces_positivo k datos : 0 < veces k datos -> In k datos.
Proof.
  unfold veces. intros H.
  destruct (filter _ datos) as [|k' l] eqn:E; [simpl in H; lia|].
  assert (Hin : In k' (k' :: l)) by now left.
  rewrite <- E in Hin. apply filter_In in Hin as [Hin Hk].
  destruct (compara_registro k k') eqn:C; try discriminate.
  now apply compara_registro_eq in C as ->.
Qed.

Lemma groupby_size_claves datos k n :
  In (k, n) (groupby_size datos) -> In k datos /\ 1 <= n.
Proof.
  intros H. destruct (groupby_size_grupos datos) as (Ho & Hp & Ha).
  rewrite Forall_forall in Hp. pose proof (Hp _ H) as Hn. simpl in Hn.
  split; [|lia]. apply veces_positivo.
  rewrite <- Ha, (atenciones_grupo k n) by assumption. exact Hn.
Qed.

Section Ventana.
Context {U : Unicodedata} {I : Isoformat}.

Lemma datos_resumen_In filas k :
  In k (datos_resumen filas) ->
  r_DNI k <> [] /\ 1 <= r_Anio k <= 9999 /\ 1 <= r_Trimestre k <= 4.
Proof.
  unfold datos_resumen. rewrite in_flat_map. intros (fila & _ & H).
  unfold dato_resumen in H.
  destruct (truthy (fila_get fila col_DNI)) eqn:Td; [|destruct H].
  destruct (truthy (fila_get fila col_Fecha)); [|destruct H].
  cbn [negb orb] in H.
  destruct (interpreta_fecha (fila_get fila col_Fecha)) as [f|] eqn:E;
    [|destruct H].
  destruct H as [<- | []]. cbn [r_DNI r_Anio r_Trimestre].
  apply interpreta_fecha_valida in E.
  destruct (fecha_valida_rangos _ _ _ E) as (Hy & Hm & _).
  split; [now apply truthy_true|]. split; [exact Hy|].
  now apply trimestre_rango.
Qed.

(** X19.  Every row of the window of the summary has a DNI, a year
    between 1 and 9999, a quarter written "Q1", "Q2", "Q3" or "Q4", and at
    least one attention. *)
Theorem ventana_resumen_filas (tree : list Item) :
  match mostrar_resumen_trimestral tree with
  | VentanaResumen resumen =>
      Forall
        (fun v =>
           v_DNI v <> [] /\ 1 <= v_Anio v <= 9999 /\
           In (v_Trimestre v) [lit "Q1"; lit "Q2"; lit "Q3"; lit "Q4"] /\
           1 <= v_Atenciones v)
        (valores_ventana resumen)
  | _ => True
  end.
Proof.
  unfold mostrar_resumen_trimestral, resumen_de_filas. cbv zeta.
  destruct (obtener_datos_tabla tree) as [|f0 fs] eqn:Ef; [exact Logic.I|].
  rewrite <- Ef.
  destruct (datos_resumen (obtener_datos_tabla tree)) as [|d ds] eqn:Ed;
    [exact Logic.I|].
  rewrite <- Ed. unfold valores_ventana. apply Forall_forall. intros v Hv.
  apply in_map_iff in Hv as ([k n] & <- & Hin).
  cbn [fst snd v_DNI v_Anio v_Trimestre v_Atenciones].
  apply groupby_size_claves in Hin as [Hk Hn].
  apply datos_resumen_In in Hk as (H1 & H2 & H3).
  split; [exact H1|]. split; [exact H2|]. split; [|exact Hn].
  assert (Q : r_Trimestre k = 1 \/ r_Trimestre k = 2 \/ r_Trimestre k = 3 \/
              r_Trimestre k = 4) by lia.
  destruct Q as [-> | [-> | [-> | ->]]]; simpl; auto.
Qed.

End Ventana.
(** ** Dates written day/month/year *)

Lemma parte_app sep t r :
  forallb (fun c => negb (c =? sep)) t = true ->
  parte sep (t ++ sep :: r) = Some (t, r).
Proof.
  induction t as [|c t IH]; simpl.
  - now rewrite Z.eqb_refl.
  - intros H. apply andb_true_iff in H as [Hc Ht].
    apply negb_true_iff in Hc. now rewrite Hc, IH.
Qed.

Lemma contiene_guion s :
  forallb (fun c => negb (c =? 45)) s = true -> contiene (lit "-") s = false.
Proof.
  induction s as [|c s IH]; [reflexivity|].
  cbn [forallb]. intros H. apply andb_true_iff in H as [Hc Hs].
  apply negb_true_iff in Hc. rewrite contiene_eq.
  change (lit "-") with [45]. cbn [startswith].
  rewrite Z.eqb_sym, Hc. cbn [andb orb]. now apply IH.
Qed.

Lemma crea_fecha_fuera y m d :
  ~ (1 <= y <= 9999 /\ 1 <= m <= 12 /\ 1 <= d <= 31) -> crea_fecha y m d = None.
Proof.
  intros H. unfold crea_fecha.
  destruct (fecha_valida y m d) eqn:E; [|reflexivity].
  now apply fecha_valida_rangos in E.
Qed.

Definition opcion_eqb (a b : option Z) : bool :=
  match a, b with
  | Some x, Some y => x =? y
  | None, None => true
  | _, _ => false
  end.

Lemma opcion_eqb_eq a b : opcion_eqb a b = true -> a = b.
Proof.
  destruct a, b; simpl; try discriminate; auto.
  intros H. apply Z.eqb_eq in H. now subst.
Qed.

Section FechasDMY.
Context {U : Unicodedata}.

(** The text [t] has no slash and no hyphen, and [%d] and [%m] read it
    as [v] when [v] is a day, a month. *)
Definition texto_dia_mes (t : pystr) (v : Z) : bool :=
  forallb (fun c => negb (c =? 47)) t && forallb (fun c => negb (c =? 45)) t &&
  opcion_eqb (grupo_d t) (if (1 <=? v) && (v <=? 31) then Some v else None) &&
  opcion_eqb (grupo_m t) (if (1 <=? v) && (v <=? 12) then Some v else None).

Definition dos_cifras_leidas (v : Z) : bool :=
  texto_dia_mes (relleno 2 v) v && texto_dia_mes (digitos v) v &&
  match grupo_Y (relleno 2 v) with Some _ => false | None => true end.

Definition anio_leido (y : Z) : bool :=
  forallb (fun c => negb (c =? 45)) (relleno 4 y) &&
  opcion_eqb (grupo_Y (relleno 4 y)) (Some y).

Lemma dos_cifras_leidas_todas v : 0 <= v <= 99 -> dos_cifras_leidas v = true.
Proof.
  intros H. apply (por_rango dos_cifras_leidas 0 100); [|lia].
  vm_compute. reflexivity.
Qed.

Lemma anio_leido_todos y : 0 <= y <= 9999 -> anio_leido y = true.
Proof.
  intros H. apply (por_rango anio_leido 0 10000); [|lia].
  vm_compute. reflexivity.
Qed.

Lemma strptime_dmY_partes td tm ty :
  forallb (fun c => negb (c =? 47)) td = true ->
  forallb (fun c => negb (c =? 47)) tm = true ->
  strptime_dmY (td ++ [47] ++ tm ++ [47] ++ ty) =
  match grupo_d td, grupo_m tm, grupo_Y ty with
  | Some dd, Some mm, Some yy => crea_fecha yy mm dd
  | _, _, _ => None
  end.
Proof.
  intros Hd Hm. unfold strptime_dmY. cbn [app].
  rewrite (parte_app 47 td _ Hd), (parte_app 47 tm _ Hm). reflexivity.
Qed.

Lemma strptime_dmY_textos td tm y m d :
  texto_dia_mes td d = true -> texto_dia_mes tm m = true ->
  0 <= y <= 9999 ->
  strptime_dmY (td ++ [47] ++ tm ++ [47] ++ relleno 4 y) = crea_fecha y m d.
Proof.
  unfold texto_dia_mes. intros Hd Hm Hy.
  repeat (apply andb_true_iff in Hd as [Hd ?]).
  repeat (apply andb_true_iff in Hm as [Hm ?]).
  pose proof (anio_leido_todos y Hy) as Ey. unfold anio_leido in Ey.
  apply andb_true_iff in Ey as [_ Ey].
  rewrite strptime_dmY_partes by assumption.
  match goal with H : opcion_eqb (grupo_d td) _ = true |- _ =>
    apply opcion_eqb_eq in H; rewrite H end.
  match goal with H : opcion_eqb (grupo_m tm) _ = true |- _ =>
    apply opcion_eqb_eq in H; rewrite H end.
  apply opcion_eqb_eq in Ey. rewrite Ey.
  destruct ((1 <=? d) && (d <=? 31)) eqn:Rd.
  2:{ symmetry. apply crea_fecha_fuera. intros (_ & _ & R).
      apply andb_false_iff in Rd as [Rd | Rd]; lia. }
  destruct ((1 <=? m) && (m <=? 12)) eqn:Rm; [reflexivity|].
  symmetry. apply crea_fecha_fuera. intros (_ & R & _).
  apply andb_false_iff in Rm as [Rm | Rm]; lia.
Qed.

(** X15.  [strptime] with "%d/%m/%Y" reads a day, a month and a
    four-digit year separated by slashes, the day and the month written
    with two digits or without a leading zero, as the date of that day
    when there is one and as no date otherwise: day 0 or 30 February are
    refused, 29 February is read in leap years only.  A year written with
    two digits is never read. *)
Theorem strptime_dmY_lee_fecha (y m d : Z) :
  0 <= d <= 99 -> 0 <= m <= 99 ->
  (0 <= y <= 9999 ->
   strptime_dmY (relleno 2 d ++ [47] ++ relleno 2 m ++ [47] ++ relleno 4 y) =
   crea_fecha y m d /\
   strptime_dmY (digitos d ++ [47] ++ digitos m ++ [47] ++ relleno 4 y) =
   crea_fecha y m d) /\
  (0 <= y <= 99 ->
   strptime_dmY (relleno 2 d ++ [47] ++ relleno 2 m ++ [47] ++ relleno 2 y) =
   None).
Proof.
  intros Hd Hm.
  pose proof (dos_cifras_leidas_todas d Hd) as Ed.
  pose proof (dos_cifras_leidas_todas m Hm) as Em.
  unfold dos_cifras_leidas in Ed, Em.
  apply andb_true_iff in Ed as [Ed _]. apply andb_true_iff in Ed as [Ed1 Ed2].
  apply andb_true_iff in Em as [Em _]. apply andb_true_iff in Em as [Em1 Em2].
  split.
  - intros Hy. split; now apply strptime_dmY_textos.
  - intros Hy. pose proof (dos_cifras_leidas_todas y Hy) as Ey.
    unfold dos_cifras_leidas in Ey. apply andb_true_iff in Ey as [_ Ey].
    unfold texto_dia_mes in Ed1, Em1.
    repeat (apply andb_true_iff in Ed1 as [Ed1 ?]).
    repeat (apply andb_true_iff in Em1 as [Em1 ?]).
    rewrite strptime_dmY_partes by assumption.
    destruct (grupo_Y (relleno 2 y)); [discriminate|].
    destruct (grupo_d (relleno 2 d)); [|reflexivity].
    now destruct (grupo_m (relleno 2 m)).
Qed.

Context {I : Isoformat}.

(** X16.  A date of the calendar written as year-month-day and written
    as day/month/year is read as the same date, so two rows of one patient
    with the two writings of one date are entries of the same year and
    quarter. *)
Theorem interpreta_fecha_dos_formatos (y m d : Z) :
  fecha_valida y m d = true ->
  let iso := isoformat y m d in
  let dmy := relleno 2 d ++ [47] ++ relleno 2 m ++ [47] ++ relleno 4 y in
  interpreta_fecha iso = Some {| year := y; month := m; day := d |} /\
  interpreta_fecha dmy = Some {| year := y; month := m; day := d |} /\
  forall fila fila',
    DNI fila = DNI fila' -> Fecha fila = iso -> Fecha fila' = dmy ->
    dato_resumen fila = dato_resumen fila'.
Proof.
  intros V iso dmy.
  destruct (fecha_valida_rangos _ _ _ V) as (Hy & Hm & Hd).
  assert (E1 : interpreta_fecha iso =
               Some {| year := y; month := m; day := d |}).
  { unfold interpreta_fecha, iso.
    replace (contiene (lit "-") (isoformat y m d)) with true;
      [now apply iso_fecha|].
    symmetry. unfold isoformat.
    apply (contiene_app [45] (relleno 4 y) (relleno 2 m ++ [45] ++ relleno 2 d)). }
  assert (E2 : interpreta_fecha dmy =
               Some {| year := y; month := m; day := d |}).
  { unfold interpreta_fecha, dmy.
    pose proof (dos_cifras_leidas_todas d ltac:(lia)) as Ed.
    pose proof (dos_cifras_leidas_todas m ltac:(lia)) as Em.
    pose proof (anio_leido_todos y ltac:(lia)) as Ey.
    unfold dos_cifras_leidas in Ed, Em. unfold anio_leido in Ey.
    apply andb_true_iff in Ed as [Ed _]. apply andb_true_iff in Ed as [Ed _].
    apply andb_true_iff in Em as [Em _]. apply andb_true_iff in Em as [Em _].
    apply andb_true_iff in Ey as [Gy _].
    rewrite contiene_guion.
    - rewrite (strptime_dmY_textos (relleno 2 d) (relleno 2 m) y m d)
        by (auto; lia).
      unfold crea_fecha. now rewrite V.
    - unfold texto_dia_mes in Ed, Em.
      repeat (apply andb_true_iff in Ed as [Ed ?]).
      repeat (apply andb_true_iff in Em as [Em ?]).
      rewrite !forallb_app. cbn [forallb].
      repeat (apply andb_true_iff; split); auto. }
  split; [exact E1|]. split; [exact E2|].
  intros fila fila' HD HF HF'. unfold dato_resumen.
  change (fila_get fila col_DNI) with (DNI fila).
  change (fila_get fila' col_DNI) with (DNI fila').
  change (fila_get fila col_Fecha) with (Fecha fila).
  change (fila_get fila' col_Fecha) with (Fecha fila').
  rewrite HD, HF, HF', E1, E2.
  assert (T1 : truthy iso = true).
  { apply truthy_true. intros Z0. rewrite Z0 in E1.
    unfold interpreta_fecha in E1. simpl in E1.
    destruct (fromisoformat []) eqn:F; [|discriminate].
    apply iso_anio in F. discriminate. }
  assert (T2 : truthy dmy = true).
  { apply truthy_true. unfold dmy. intros Z0.
    apply app_eq_nil in Z0 as [_ Z0]. discriminate. }
  now rewrite T1, T2.
Qed.

End FechasDMY.

Lemma strptime_dmY_lee_fecha_witness :
  strptime_dmY (lit "29/02/2024") =
  Some {| year := 2024; month := 2; day := 29 |} /\
  strptime_dmY (lit "29/2/2023") = None /\
  strptime_dmY (lit "15/01/24") = None.
Proof.
  split; [|split].
  - apply (proj1 (proj1 (strptime_dmY_lee_fecha 2024 2 29
                           ltac:(lia) ltac:(lia)) ltac:(lia))).
  - apply (proj2 (proj1 (strptime_dmY_lee_fecha 2023 2 29
                           ltac:(lia) ltac:(lia)) ltac:(lia))).
  - apply (proj2 (strptime_dmY_lee_fecha 24 1 15 ltac:(lia) ltac:(lia))).
    lia.
Defined.

Lemma interpreta_fecha_dos_formatos_witness :
  interpreta_fecha (lit "2024-12-31") =
  Some {| year := 2024; month := 12; day := 31 |} /\
  interpreta_fecha (lit "31/12/2024") =
  Some {| year := 2024; month := 12; day := 31 |}.
Proof.
  destruct (interpreta_fecha_dos_formatos 2024 12 31 eq_refl) as (H1 & H2 & _).
  split; [exact H1 | exact H2].
Defined.
(** ** The entries with an accent, and the comma of the IMC *)

Lemma startswith_prefijo h a b : startswith h (a ++ b) = true -> startswith h a = true.
Proof.
  revert h. induction a as [|c a IH]; intros h; [reflexivity|].
  destruct h as [|x h]; simpl; [discriminate|].
  intros H. apply andb_true_iff in H as [H1 H2].
  rewrite H1. now apply IH.
Qed.

Lemma contiene_prefijo a b h : contiene (a ++ b) h = true -> contiene a h = true.
Proof.
  induction h as [|x h IH].
  - rewrite (contiene_eq (a ++ b) []), (contiene_eq a []).
    intros H. apply orb_true_iff in H as [H | H]; [|discriminate].
    apply startswith_prefijo in H. now rewrite H.
  - rewrite (contiene_eq (a ++ b) (x :: h)), (contiene_eq a (x :: h)).
    intros H. apply orb_true_iff in H as [H | H].
    + apply startswith_prefijo in H. now rewrite H.
    + rewrite (IH H). apply orb_true_r.
Qed.

Lemma startswith_In h n c : startswith h n = true -> In c n -> In c h.
Proof.
  revert h. induction n as [|x n IH]; intros h H Hc; [destruct Hc|].
  destruct h as [|y h]; simpl in H; [discriminate|].
  apply andb_true_iff in H as [H1 H2]. apply Z.eqb_eq in H1 as ->.
  destruct Hc as [-> | Hc]; [now left | right; now apply IH].
Qed.

Lemma contiene_In n h c : contiene n h = true -> In c n -> In c h.
Proof.
  induction h as [|x h IH].
  - rewrite (contiene_eq n []). intros H Hc.
    apply orb_true_iff in H as [H | H]; [|discriminate].
    now apply (startswith_In _ n).
  - rewrite (contiene_eq n (x :: h)). intros H Hc.
    apply orb_true_iff in H as [H | H].
    + now apply (startswith_In _ n).
    + right. now apply IH.
Qed.

Lemma replace1_idem a b s : replace1 a b (replace1 a b s) = replace1 a b s.
Proof.
  unfold replace1. rewrite map_map. apply map_ext. intros c.
  destruct (c =? a) eqn:E; [|now rewrite E].
  destruct (b =? a) eqn:E'; [|reflexivity].
  now apply Z.eqb_eq in E'.
Qed.

(** The medicines of the hypertension list written without accent. *)
Definition MEDICAMENTOS_HTA_sin_acento : list pystr :=
  [ lit "losartan"; lit "amlodipina"; lit "carvedilol";
    lit "hidroclorotiazida"; lit "bisoprolol"; lit "enalapril";
    lit "telmisartan"; lit "valsartan" ].

Section Acentos.
Context {U : Unicodedata}.

Lemma normaliza_sin_acentos x c :
  Forall en_tablas (texto_de x) -> In c (normaliza x) -> estable c.
Proof.
  intros Hx Hc. rewrite normaliza_texto, normaliza_en_tablas in Hc by exact Hx.
  pose proof (normaliza_tabla_estable _ Hx) as E.
  rewrite Forall_forall in E. now apply E.
Qed.

Lemma con_acento_ausente x needle c :
  Forall en_tablas (texto_de x) -> In c needle -> base c <> c ->
  contiene needle (normaliza x) = false.
Proof.
  intros Hx Hc Hb. destruct (contiene needle (normaliza x)) eqn:E; [|reflexivity].
  pose proof (contiene_In _ _ c E Hc) as H.
  apply (normaliza_sin_acentos x c Hx) in H. destruct H as (_ & _ & B).
  contradiction.
Qed.

(** X18.  The normal form of a text of Basic Latin, Latin-1 Supplement
    and combining marks has no accented letter, so the entries of the
    source written with an accent ("hipertensión arterial", "losartán",
    "telmisartán", "valsartán") never match: hypertension is detected
    exactly by "hipertension" or "hta" in the diagnosis or one of the
    eight medicines written without accent in the treatment.  For every
    input, "hipotiroidismo" matches only where "hipot" matches, so
    hypothyroidism is detected exactly by "hipot" in the diagnosis or
    "levotiroxina" in the treatment. *)
Theorem entradas_con_acento_sin_efecto (diagnostico tratamiento : pyobj) :
  let dn := normaliza (py_or_vacio diagnostico) in
  let tn := normaliza (py_or_vacio tratamiento) in
  detecta_hipotiroidismo diagnostico tratamiento =
  contiene (lit "hipot") dn || contiene (lit "levotiroxina") tn /\
  (Forall en_tablas (texto_de (py_or_vacio diagnostico)) ->
   Forall en_tablas (texto_de (py_or_vacio tratamiento)) ->
   contiene (lit "hipertensi" ++ [243] ++ lit "n arterial") dn = false /\
   contiene (lit "losart" ++ [225] ++ lit "n") tn = false /\
   contiene (lit "telmisart" ++ [225] ++ lit "n") tn = false /\
   contiene (lit "valsart" ++ [225] ++ lit "n") tn = false /\
   detecta_hta diagnostico tratamiento =
   contiene (lit "hipertension") dn || contiene (lit "hta") dn ||
   algun_medicamento MEDICAMENTOS_HTA_sin_acento tn).
Proof.
  intros dn tn. split.
  - unfold detecta_hipotiroidismo, es_hipotiroideo. fold dn tn.
    unfold algun_medicamento, MEDICAMENTOS_HIPOTIROIDISMO. cbn [existsb].
    rewrite orb_false_r.
    destruct (contiene (lit "hipotiroidismo") dn) eqn:E; [|reflexivity].
    change (lit "hipotiroidismo") with (lit "hipot" ++ lit "iroidismo") in E.
    apply contiene_prefijo in E. now rewrite E.
  - intros Hd Ht.
    assert (A1 : contiene (lit "hipertensi" ++ [243] ++ lit "n arterial") dn =
                 false).
    { apply (con_acento_ausente _ _ 243 Hd).
      - vm_compute. tauto.
      - vm_compute. discriminate. }
    assert (A2 : forall pre, contiene (pre ++ [225] ++ lit "n") tn = false).
    { intros pre. apply (con_acento_ausente _ _ 225 Ht).
      - apply in_or_app. right. now left.
      - vm_compute. discriminate. }
    split; [exact A1|].
    split; [apply A2|]. split; [apply A2|]. split; [apply A2|].
    unfold detecta_hta, es_hipertenso. fold dn tn. rewrite A1.
    unfold algun_medicamento, MEDICAMENTOS_HTA, MEDICAMENTOS_HTA_sin_acento.
    cbn [existsb]. rewrite !A2. cbn [orb]. now rewrite orb_false_r.
Qed.

(** X17.  [calcular_imc] reads a comma as the decimal point, in the
    weight and in the height: two texts that differ only in commas
    written for points, or points for commas, give the same result. *)
Theorem calcular_imc_coma_decimal (peso peso' estatura estatura' : pystr) :
  replace1 44 46 peso = replace1 44 46 peso' ->
  replace1 44 46 estatura = replace1 44 46 estatura' ->
  calcular_imc (PyStr peso) (PyStr estatura) =
  calcular_imc (PyStr peso') (PyStr estatura') /\
  calcular_imc (PyStr (replace1 44 46 peso)) (PyStr (replace1 44 46 estatura)) =
  calcular_imc (PyStr peso) (PyStr estatura).
Proof.
  intros Hp He. unfold calcular_imc. cbn [py_str].
  rewrite !replace1_idem, Hp, He. split; reflexivity.
Qed.

End Acentos.

Lemma entradas_con_acento_sin_efecto_witness :
  detecta_hta (PyStr (lit "Hipertensi" ++ [243] ++ lit "n arterial"))
              (PyStr (lit "Losart" ++ [225] ++ lit "n 50 mg")) =
  contiene (lit "hipertension") (lit "hipertension arterial") ||
  contiene (lit "hta") (lit "hipertension arterial") ||
  algun_medicamento MEDICAMENTOS_HTA_sin_acento (lit "losartan 50 mg").
Proof.
  destruct (proj2 (entradas_con_acento_sin_efecto
                     (PyStr (lit "Hipertensi" ++ [243] ++ lit "n arterial"))
                     (PyStr (lit "Losart" ++ [225] ++ lit "n 50 mg"))))
    as (_ & _ & _ & _ & H); [| |exact H].
  - apply Forall_impl with (P := is_latin1); [intros c L; now left|].
    apply latin1_por_calculo. vm_compute. reflexivity.
  - apply Forall_impl with (P := is_latin1); [intros c L; now left|].
    apply latin1_por_calculo. vm_compute. reflexivity.
Defined.

Lemma calcular_imc_coma_decimal_witness :
  calcular_imc (PyStr (lit "70,5")) (PyStr (lit "1,75")) =
  calcular_imc (PyStr (lit "70.5")) (PyStr (lit "1.75")).
Proof.
  apply (proj1 (calcular_imc_coma_decimal (lit "70,5") (lit "70.5")
                  (lit "1,75") (lit "1.75") eq_refl eq_refl)).
Defined.
